(** * Adding a parameter across a TypeScript code base: planner and executor

    A shallow embedding of the refactoring code of
    atomist/upgrade-client-automation:

    - [Consequences]            src/passContextToClone/Consequences.ts
    - [AddParameterImpl]        src/passContextToClone/addParameterImpl.ts
    - [AddParameterRequirement] the class-based AddParameterRequirement file
    - [Editor]                  the first editor (namespaces AddParameter and
                                AddImport), with the work-list planner
    - [EditorTest]              the path helpers of the planner's tests

    JavaScript values are modelled as follows.  A string is a [string]; an
    array is a [list]; an optional field is an [option]; a call that may throw
    returns a [Result].  The parser and the path-expression engine are
    external: a project is seen through them as the finite list of its located
    tree nodes, and a query selects among these. *)

From Stdlib Require Import String Ascii List Bool Arith Lia.
Import ListNotations.
Set Warnings "-register-all".
Open Scope list_scope.
Open Scope string_scope.

(** ** JavaScript strings and exceptions *)

(** [s.startsWith(p)] *)
Definition startsWith (s p : string) : bool := String.prefix p s.

(** A computation that returns a value or throws an [Error] with a message. *)
Inductive Result (A : Type) : Type :=
| Ok (a : A)
| Throw (msg : string).
Arguments Ok {A} a.
Arguments Throw {A} msg.

Definition bind {A B : Type} (r : Result A) (k : A -> Result B) : Result B :=
  match r with
  | Ok a => k a
  | Throw msg => Throw msg
  end.

Notation "x <- r ;; k" := (bind r (fun x => k))
  (at level 61, r at next level, right associativity).

(** The double quote and the line feed, as one-character strings. *)
Definition quote : string := String (ascii_of_nat 34) EmptyString.
Definition newline : string := String (ascii_of_nat 10) EmptyString.

(** Reading a property of [undefined]. *)
Definition TypeError : string := "TypeError: Cannot read property of undefined".

(** ** Tree nodes (tree-path's TreeNode, as the code uses it) *)

Inductive TreeNode : Type :=
| Node (name : string) (value : string) (children : list TreeNode).

Definition t_name (t : TreeNode) : string := let 'Node n _ _ := t in n.
Definition t_value (t : TreeNode) : string := let 'Node _ v _ := t in v.
Definition t_children (t : TreeNode) : list TreeNode := let 'Node _ _ c := t in c.

(** A node with its place: the file it was read from
    ([sourceLocation.path]), its address from the file's root (child
    indices), and the chain of its [$parent]s, nearest first. *)
Record MatchResult : Type := mkMatch {
  m_path : string;
  m_addr : list nat;
  m_node : TreeNode;
  m_parents : list TreeNode
}.

(** The children of a located node, located. *)
Fixpoint locateFrom (path : string) (addr : list nat) (parents : list TreeNode)
    (i : nat) (cs : list TreeNode) : list MatchResult :=
  match cs with
  | [] => []
  | c :: rest =>
      mkMatch path (addr ++ [i]) c parents :: locateFrom path addr parents (S i) rest
  end.

Definition childMatches (m : MatchResult) : list MatchResult :=
  locateFrom (m_path m) (m_addr m) (m_node m :: m_parents m) 0 (t_children (m_node m)).

(** Path step [/Name]: the children called [Name]. *)
Definition step (nm : string) (m : MatchResult) : list MatchResult :=
  filter (fun c => t_name (m_node c) =? nm) (childMatches m).

(** Predicate [[@value='v']]. *)
Definition valueIs (v : string) (m : MatchResult) : bool := t_value (m_node m) =? v.

(** ** The data model *)

Inductive Access : Type :=
| PublicFunctionAccess
| PrivateFunctionAccess
| PublicMethodAccess
| PrivateMethodAccess.

Inductive ScopeKind : Type :=
| ClassAroundMethod      (* kind: "class around method" *)
| EnclosingNamespace.    (* kind: "enclosing namespace" *)

Inductive EnclosingScope : Type :=
| Scope (kind : ScopeKind) (name : string) (exported : bool)
        (enclosingScope : option EnclosingScope).

Record FunctionCallIdentifier : Type := mkFci {
  fci_enclosingScope : option EnclosingScope;
  fci_name : string;
  fci_filePath : string;
  fci_access : Access
}.

Inductive ImportIdentifier : Type :=
| Library (name : string) (location : string)
| Local (name : string) (localPath : string) (externalPath : option string).

Definition import_name (i : ImportIdentifier) : string :=
  match i with
  | Library n _ => n
  | Local n _ _ => n
  end.

Record PopulateInTests : Type := mkPopulate {
  dummyValue : string;
  additionalImport : option ImportIdentifier
}.

(** The four requirements.  [why] is provenance: nothing, a text, or the
    requirement this one comes from. *)
Inductive Requirement : Type :=
| AddParameterRequirement
    (functionWithAdditionalParameter : FunctionCallIdentifier)
    (parameterType : ImportIdentifier)
    (parameterName : string)
    (populateInTests : PopulateInTests)
    (why : Why)
| PassArgumentRequirement
    (enclosingFunction : FunctionCallIdentifier)
    (functionWithAdditionalParameter : FunctionCallIdentifier)
    (argumentValue : string)
    (why : Why)
| PassDummyInTestsRequirement
    (functionWithAdditionalParameter : FunctionCallIdentifier)
    (dummy : string)
    (additional : option ImportIdentifier)
    (why : Why)
| AddMigrationRequirement
    (downstreamRequirement : Requirement)
    (why : Why)
with Why : Type :=
| WhyUndefined
| WhyText (reason : string)
| WhyRequirement (r : Requirement).

(** The classes behind the variants: what a function typed on one of them
    receives.  [AddParameter_req] and its likes are the upcasts. *)
Record AddParameter : Type := mkAddParameter {
  functionWithAdditionalParameter : FunctionCallIdentifier;
  parameterType : ImportIdentifier;
  parameterName : string;
  populateInTests : PopulateInTests;
  why : Why
}.

Definition AddParameter_req (a : AddParameter) : Requirement :=
  AddParameterRequirement (functionWithAdditionalParameter a) (parameterType a)
    (parameterName a) (populateInTests a) (why a).

Record PassArgument : Type := mkPassArgument {
  pa_enclosingFunction : FunctionCallIdentifier;
  pa_functionWithAdditionalParameter : FunctionCallIdentifier;
  pa_argumentValue : string;
  pa_why : Why
}.

Definition PassArgument_req (a : PassArgument) : Requirement :=
  PassArgumentRequirement (pa_enclosingFunction a)
    (pa_functionWithAdditionalParameter a) (pa_argumentValue a) (pa_why a).

Record PassDummyInTests : Type := mkPassDummyInTests {
  pd_functionWithAdditionalParameter : FunctionCallIdentifier;
  pd_dummyValue : string;
  pd_additionalImport : option ImportIdentifier;
  pd_why : Why
}.

Definition PassDummyInTests_req (a : PassDummyInTests) : Requirement :=
  PassDummyInTestsRequirement (pd_functionWithAdditionalParameter a) (pd_dummyValue a)
    (pd_additionalImport a) (pd_why a).

Definition isAddParameterRequirement (r : Requirement) : bool :=
  match r with AddParameterRequirement _ _ _ _ _ => true | _ => false end.
Definition isPassArgumentRequirement (r : Requirement) : bool :=
  match r with PassArgumentRequirement _ _ _ _ => true | _ => false end.
Definition isPassDummyInTests (r : Requirement) : bool :=
  match r with PassDummyInTestsRequirement _ _ _ _ => true | _ => false end.
Definition isAddMigrationRequirement (r : Requirement) : bool :=
  match r with AddMigrationRequirement _ _ => true | _ => false end.

(** ** Consequences.ts *)

Module Consequences.

Record Consequences : Type := mkConsequences {
  concomitantChanges : list Requirement;
  prerequisiteChanges : list Requirement
}.

Definition combineConsequences (c1 c2 : Consequences) : Consequences :=
  {| concomitantChanges := concomitantChanges c1 ++ concomitantChanges c2;
     prerequisiteChanges := prerequisiteChanges c1 ++ prerequisiteChanges c2 |}.

Definition concomitantChange (r : Requirement) : Consequences :=
  {| concomitantChanges := [r];
     prerequisiteChanges := [] |}.

Definition emptyConsequences : Consequences :=
  {| concomitantChanges := [];
     prerequisiteChanges := [] |}.

End Consequences.
Export Consequences.

(** ** Report.ts (the text of the first editor's Report functions) *)

Record Unimplemented : Type := mkUnimplemented {
  u_requirement : Requirement;
  u_message : string
}.

Record Report : Type := mkReport {
  unimplemented : list Unimplemented;
  implemented : list Requirement
}.

Definition emptyReport : Report :=
  {| unimplemented := []; implemented := [] |}.

Definition reportUnimplemented (requirement : Requirement) (message : string) : Report :=
  {| unimplemented := [mkUnimplemented requirement message]; implemented := [] |}.

Definition reportImplemented (requirement : Requirement) : Report :=
  {| unimplemented := []; implemented := [requirement] |}.

(** ** The project, as the parser and the path-expression engine show it

    [findMatches(project, TypeScriptES6FileParser, glob, pathExpression)]
    returns the nodes of the files matched by the glob that the path
    expression selects.  The engine is external: [p_selects] stands for it,
    [p_nodes] for every located node of the project, in the order in which
    the engine answers. *)
Record Project : Type := mkProject {
  p_nodes : list MatchResult;
  p_selects : string -> string -> MatchResult -> bool
}.

Definition findMatches (project : Project) (glob pathExpression : string)
  : list MatchResult :=
  filter (p_selects project glob pathExpression) (p_nodes project).

(** An assignment [node.$value = text], pending until the project is
    flushed. *)
Record Write : Type := mkWrite {
  w_path : string;
  w_addr : list nat;
  w_value : string
}.

Definition setValue (node : MatchResult) (text : string) : Write :=
  mkWrite (m_path node) (m_addr node) text.

(** ** Access and scope guards *)

(** Modelled from the spec: the type guards on [Access] and on scopes are
    declared in files that are not among the sources (AddParameter.ts,
    functionCallIdentifier.ts); each tests the [kind] it names. *)
Definition isPublicFunctionAccess (a : Access) : bool :=
  match a with PublicFunctionAccess => true | _ => false end.

(** Modelled from the spec: see [isPublicFunctionAccess]. *)
Definition isPublicMethodAccess (a : Access) : bool :=
  match a with PublicMethodAccess => true | _ => false end.

(** Modelled from the spec: see [isPublicFunctionAccess]. *)
Definition isPrivateMethodAccess (a : Access) : bool :=
  match a with PrivateMethodAccess => true | _ => false end.

(** Modelled from the spec: see [isPublicFunctionAccess]. *)
Definition isPrivateFunctionAccess (a : Access) : bool :=
  match a with PrivateFunctionAccess => true | _ => false end.

(** Modelled from the spec: see [isPublicFunctionAccess]. *)
Definition isClassAroundMethod (s : EnclosingScope) : bool :=
  match s with Scope ClassAroundMethod _ _ _ => true | _ => false end.

(** The spec's "public": an exported function or a method that is neither
    private nor protected. *)
Definition isPublic (a : Access) : bool :=
  isPublicFunctionAccess a || isPublicMethodAccess a.

(** Modelled from the spec: [globFromAccess] (functionCallIdentifier.ts, not
    among the sources) is the search scope of section 4.2: the source and test
    trees for a public target, the declaring file for a private one. *)
Definition globFromAccess (fn : FunctionCallIdentifier) : string :=
  if isPublic (fci_access fn) then "{src,test}/**/*.ts" else fci_filePath fn.

(** ** Path steps below a node *)

(** [f] applied to every child with its index, the results in order. *)
Fixpoint belowWith {A : Type} (f : nat -> TreeNode -> list A) (i : nat)
    (cs : list TreeNode) : list A :=
  match cs with
  | [] => []
  | c :: rest => (f i c ++ belowWith f (S i) rest)%list
  end.

(** The descendants of a node, located, in the order in which the engine's
    descendant axis lists them: the children of the node, then the
    descendants of each child in turn (a declaration among the statements of
    a file comes before one nested in an earlier statement). *)
Fixpoint descendantsFrom (path : string) (addr : list nat) (parents : list TreeNode)
    (t : TreeNode) : list MatchResult :=
  match t with
  | Node _ _ cs =>
      (locateFrom path addr (t :: parents) 0 cs
         ++ belowWith
              (fun i c => descendantsFrom path (addr ++ [i]) (t :: parents) c)
              0 cs)%list
  end.

Definition descendantMatches (m : MatchResult) : list MatchResult :=
  descendantsFrom (m_path m) (m_addr m) (m_parents m) (m_node m).

(** Path step [//Name]: the descendants called [Name]. *)
Definition descend (nm : string) (m : MatchResult) : list MatchResult :=
  filter (fun c => t_name (m_node c) =? nm) (descendantMatches m).

(** The replacement text of [String.prototype.replace] for a pattern without
    capture groups: [$$] stands for a dollar, [$&] for the match, [$`] and
    [$'] for the text before and after it; any other dollar is itself. *)
Fixpoint expandReplacement (replacement before matched after : string) : string :=
  match replacement with
  | EmptyString => EmptyString
  | String c tail =>
      if Ascii.eqb c "$"%char then
        match tail with
        | String d rest =>
            if Ascii.eqb d "$"%char then
              String "$"%char (expandReplacement rest before matched after)
            else if Ascii.eqb d "&"%char then
              matched ++ expandReplacement rest before matched after
            else if Ascii.eqb d "`"%char then
              before ++ expandReplacement rest before matched after
            else if Ascii.eqb d "'"%char then
              after ++ expandReplacement rest before matched after
            else String c (expandReplacement tail before matched after)
        | EmptyString => String c EmptyString
        end
      else String c (expandReplacement tail before matched after)
  end.

(** [s.replace(/{/, replacement)] with [before] the text already passed: the
    first opening brace is replaced; a string without one is returned as it
    is. *)
Fixpoint replaceFirstBraceFrom (before s replacement : string) : string :=
  match s with
  | EmptyString => EmptyString
  | String c rest =>
      if Ascii.eqb c "{"%char
      then expandReplacement replacement before "{" rest ++ rest
      else String c (replaceFirstBraceFrom (before ++ String c EmptyString) rest
                       replacement)
  end.

Definition replaceFirstBrace (s replacement : string) : string :=
  replaceFirstBraceFrom EmptyString s replacement.

(** ** lodash, as the code uses it *)

(** [_.uniq(array)] on strings: only the first occurrence of each value is
    kept, in the order of the array. *)
Definition uniq (array : list string) : list string :=
  fold_left
    (fun result value =>
       if existsb (String.eqb value) result then result else (result ++ [value])%list)
    array [].

(** [_.compact(array)] on optional strings: [undefined] and the empty string
    are falsey and dropped. *)
Definition compact (array : list (option string)) : list string :=
  flat_map
    (fun o => match o with
              | Some (String c rest) => [String c rest]
              | Some EmptyString => []
              | None => []
              end)
    array.

(** ** The import manager (namespace AddImport of the first editor) *)

Module AddImport.

Definition isLibraryImport (i : ImportIdentifier) : bool :=
  match i with Library _ _ => true | Local _ _ _ => false end.

Definition calculateRelativePath (from to : string) : string := to.

(** [source.evaluateExpression(`//ImportDeclaration//Identifier[@value='${name}']`)] *)
Definition existingImport (source : MatchResult) (name : string) : list MatchResult :=
  filter (valueIs name)
    (flat_map (descend "Identifier") (descend "ImportDeclaration" source)).

(** [source.evaluateExpression(`//ImportDeclaration[//StringLiteral[@value='${location}']]`)] *)
Definition locationImportMatches (source : MatchResult) (location : string)
  : list MatchResult :=
  filter (fun d => existsb (valueIs location) (descend "StringLiteral" d))
    (descend "ImportDeclaration" source).

Definition importLocation (path : string) (what : ImportIdentifier) : string :=
  match what with
  | Library _ location => location
  | Local _ localPath _ => calculateRelativePath path localPath
  end.

(** The body of [addImport] once [source = sources[0]] is at hand: the
    boolean returned and the assignments made. *)
Definition addImportTo (source : MatchResult) (path : string) (what : ImportIdentifier)
  : bool * list Write :=
  match existingImport source (import_name what) with
  | _ :: _ => (false, [])
  | [] =>
      let location := importLocation path what in
      match locationImportMatches source location with
      | locationImport :: _ =>
          (* not handling: * *)
          let newValue :=
            replaceFirstBrace (t_value (m_node locationImport))
              ("{ " ++ import_name what ++ ",") in
          (true, [setValue locationImport newValue])
      | [] =>
          let newStatement :=
            "import { " ++ import_name what ++ " } from " ++ quote ++ location
              ++ quote ++ ";" ++ newline in
          (true, [setValue source (newStatement ++ t_value (m_node source))])
      end
  end.

Definition addImport (project : Project) (path : string) (what : ImportIdentifier)
  : Result bool * list Write :=
  match findMatches project path "/SourceFile" with
  | [] => (Throw TypeError, [])
  | source :: _ =>
      let '(added, writes) := addImportTo source path what in (Ok added, writes)
  end.

End AddImport.

(** ** addParameterImpl.ts *)

Module AddParameterImpl.

(** [parent.$children.filter(child => child.$name === name)] *)
Definition childrenNamed (parent : TreeNode) (name : string) : list TreeNode :=
  filter (fun child => t_name child =? name) (t_children parent).

(** [childrenNamed(parent, "Identifier")[0].$value]; reading [$value] of a
    missing first element throws. *)
Definition identifier (parent : TreeNode) : Result string :=
  match childrenNamed parent "Identifier" with
  | first :: _ => Ok (t_value first)
  | [] => Throw TypeError
  end.

Definition isNamespaceModule (tn : TreeNode) : bool :=
  existsb (fun c => t_name c =? "ModuleBlock") (t_children tn).

(** [requireExactlyOne(m, msg)] *)
Definition requireExactlyOne (m : list MatchResult) (msg : string) : Result MatchResult :=
  match m with
  | [one] => Ok one
  | _ => Throw msg
  end.

(** [evaluateExpression(fnDeclaration, `/SyntaxList/${astElement}`)] *)
Definition keywordMatches (fnDeclaration : MatchResult) (astElement : string)
  : list MatchResult :=
  flat_map (step astElement) (step "SyntaxList" fnDeclaration).

(** [ekm && ekm.length && true] *)
Definition hasKeyword (fnDeclaration : MatchResult) (astElement : string) : bool :=
  match keywordMatches fnDeclaration astElement with
  | [] => false
  | _ :: _ => true
  end.

Definition determineAccess (fnDeclaration : MatchResult) : Access :=
  if hasKeyword fnDeclaration "ExportKeyword" then PublicFunctionAccess
  else if hasKeyword fnDeclaration "PrivateKeyword"
          || hasKeyword fnDeclaration "ProtectedKeyword" then PrivateMethodAccess
  else PrivateFunctionAccess.

(** [determineScope(tn)] climbs the [$parent] chain.  The source threads the
    scope found last ([topLevel]) and the first one ([baseScope]) and links
    each new level into the previous one by assignment; the value returned
    is the innermost scope with the outer ones chained behind it, which is
    what this recursion builds.  [parents] is the chain above [tn]. *)
Fixpoint determineScope (parents : list TreeNode) : Result (option EnclosingScope) :=
  match parents with
  | [] => Ok None
  | parent :: above =>
      if t_name parent =? "ClassDeclaration" then
        name <- identifier parent ;;
        outer <- determineScope above ;;
        Ok (Some (Scope ClassAroundMethod name true outer))
      else if (t_name parent =? "ModuleDeclaration") && isNamespaceModule parent then
        name <- identifier parent ;;
        outer <- determineScope above ;;
        Ok (Some (Scope EnclosingNamespace name true outer))
      else determineScope above
  end.

(** The identifier the source builds for an enclosing declaration:
    [{ enclosingScope: determineScope(f), name: identifier(f), filePath,
       access: determineAccess(f) }]. *)
Definition enclosingFunctionIdentifier (enclosingFunction : MatchResult)
  : Result FunctionCallIdentifier :=
  name <- identifier (m_node enclosingFunction) ;;
  scope <- determineScope (m_parents enclosingFunction) ;;
  Ok {| fci_enclosingScope := scope;
        fci_name := name;
        fci_filePath := m_path enclosingFunction;
        fci_access := determineAccess enclosingFunction |}.

(** [`/SyntaxList/Parameter[/TypeReference[@value='${typeName}']]/Identifier`]
    evaluated at the enclosing declaration. *)
Definition suitableParameterMatches (typeName : string) (enclosingFunction : MatchResult)
  : list MatchResult :=
  flat_map (step "Identifier")
    (filter (fun p => existsb (valueIs typeName) (step "TypeReference" p))
       (flat_map (step "Parameter") (step "SyntaxList" enclosingFunction))).

Definition consequencesOfFunctionCall (requirement : AddParameter)
    (enclosingFunction : MatchResult) : Result Consequences :=
  let filePath := m_path enclosingFunction in
  if startsWith filePath "test" then Ok emptyConsequences (* skip tests *)
  else
    enclosingFunctionName <- identifier (m_node enclosingFunction) ;;
    match suitableParameterMatches (import_name (parameterType requirement))
            enclosingFunction with
    | found :: _ =>
        enclosing <- enclosingFunctionIdentifier enclosingFunction ;;
        let instruction :=
          {| pa_enclosingFunction := enclosing;
             pa_functionWithAdditionalParameter :=
               functionWithAdditionalParameter requirement;
             pa_argumentValue := t_value (m_node found);
             pa_why := WhyRequirement (AddParameter_req requirement) |} in
        Ok (concomitantChange (PassArgument_req instruction))
    | [] =>
        enclosing <- enclosingFunctionIdentifier enclosingFunction ;;
        let passArgument :=
          {| pa_enclosingFunction := enclosing;
             pa_functionWithAdditionalParameter :=
               functionWithAdditionalParameter requirement;
             pa_argumentValue := parameterName requirement;
             pa_why := WhyRequirement (AddParameter_req requirement) |} in
        let newParameterForMe :=
          {| functionWithAdditionalParameter := enclosing;
             parameterType := parameterType requirement;
             parameterName := parameterName requirement;
             populateInTests := populateInTests requirement;
             why := WhyRequirement (PassArgument_req passArgument) |} in
        Ok {| concomitantChanges := [PassArgument_req passArgument];
              prerequisiteChanges := [AddParameter_req newParameterForMe] |}
    end.

(** [propertyAccessExpression(s, soFar)]; the recursion is on the scope, the
    [undefined] case is the end of the chain. *)
Fixpoint propertyAccessExpressionFrom (s : EnclosingScope) (soFar : string) : string :=
  match s with
  | Scope _ name _ outer =>
      match outer with
      | None => name ++ "." ++ soFar
      | Some above => propertyAccessExpressionFrom above (name ++ "." ++ soFar)
      end
  end.

Definition propertyAccessExpression (s : option EnclosingScope) (soFar : string) : string :=
  match s with
  | None => soFar
  | Some sc => propertyAccessExpressionFrom sc soFar
  end.

Definition functionCallPathExpression (fn : FunctionCallIdentifier) : string :=
  if isPrivateMethodAccess (fci_access fn) then
    "//CallExpression[/PropertyAccessExpression/Identifier[@value='"
      ++ fci_name fn ++ "']]"
  else match fci_enclosingScope fn with
  | Some _ =>
      "//CallExpression[/PropertyAccessExpression[@value='"
        ++ propertyAccessExpression (fci_enclosingScope fn) (fci_name fn) ++ "']]"
  | None => "//CallExpression[/Identifier[@value='" ++ fci_name fn ++ "']]"
  end.

(** [scopePathExpressionComponents(s, soFar = [])]: the source does not
    recurse into [s.enclosingScope]; only the innermost scope is named. *)
Definition scopePathExpressionComponents (s : option EnclosingScope)
    (soFar : list string) : list string :=
  match s with
  | None => soFar
  | Some sc =>
      let component :=
        if isClassAroundMethod sc
        then "ClassDeclaration[/Identifier[@value='"
               ++ (let 'Scope _ n _ _ := sc in n) ++ "']]"
        else "ModuleDeclaration[/Identifier[@value='"
               ++ (let 'Scope _ n _ _ := sc in n) ++ "']]/ModuleBlock" in
      ([component] ++ soFar)%list
  end.

Definition functionDeclarationPathExpression (fn : FunctionCallIdentifier) : string :=
  let identification := "[/Identifier[@value='" ++ fci_name fn ++ "']]" in
  let methodOrFunction :=
    match fci_enclosingScope fn with
    | Some sc => if isClassAroundMethod sc then "MethodDeclaration" else "FunctionDeclaration"
    | None => "FunctionDeclaration"
    end in
  let components :=
    (scopePathExpressionComponents (fci_enclosingScope fn) []
      ++ [(methodOrFunction ++ identification)%string])%list in
  "//" ++ String.concat "//" components.

(** [findConsequencesOfAddParameter] as this file has it: tests are the only
    global consequence. *)
Definition findConsequencesOfAddParameter (project : Project) (requirement : AddParameter)
  : Result Consequences :=
  let passDummyInTests :=
    PassDummyInTestsRequirement (functionWithAdditionalParameter requirement)
      (dummyValue (populateInTests requirement))
      (additionalImport (populateInTests requirement)) WhyUndefined in
  let innerExpression :=
    functionCallPathExpression (functionWithAdditionalParameter requirement) in
  let callWithinFunction := "//FunctionDeclaration[" ++ innerExpression ++ "]" in
  let callWithinMethod := "//MethodDeclaration[" ++ innerExpression ++ "]" in
  let globalConsequences :=
    if isPublicFunctionAccess (fci_access (functionWithAdditionalParameter requirement))
    then concomitantChange passDummyInTests else emptyConsequences in
  let matches :=
    findMatches project (globFromAccess (functionWithAdditionalParameter requirement))
      (callWithinFunction ++ "|" ++ callWithinMethod) in
  srcConsequences <-
    fold_left (fun cc functionCallMatch =>
                 sofar <- cc ;;
                 these <- consequencesOfFunctionCall requirement functionCallMatch ;;
                 Ok (combineConsequences sofar these))
              matches (Ok emptyConsequences) ;;
  Ok (combineConsequences srcConsequences globalConsequences).

(** The loop of [applyPassArgument]: each match gets its open parenthesis
    rewritten; a throw leaves the assignments made so far. *)
Fixpoint rewriteOpenParens (text : string) (matches : list MatchResult)
  : Result unit * list Write :=
  match matches with
  | [] => (Ok tt, [])
  | enclosingFunction :: rest =>
      match requireExactlyOne (step "OpenParenToken" enclosingFunction)
              "wtf where is open paren" with
      | Throw msg => (Throw msg, [])
      | Ok openParen =>
          let '(r, ws) := rewriteOpenParens text rest in
          (r, setValue openParen text :: ws)
      end
  end.

Definition applyPassArgument (matches : list MatchResult) (requirement : PassArgument)
  : Result Report * list Write :=
  match matches with
  | [] => (Ok (reportUnimplemented (PassArgument_req requirement) "Function not found"), [])
  | _ :: _ =>
      let '(r, ws) :=
        rewriteOpenParens ("(" ++ pa_argumentValue requirement ++ ", ") matches in
      (_ <- r ;; Ok (reportImplemented (PassArgument_req requirement)), ws)
  end.

Definition passArgument (project : Project) (requirement : PassArgument)
  : Result Report * list Write :=
  let fullPathExpression :=
    functionDeclarationPathExpression (pa_enclosingFunction requirement)
      ++ functionCallPathExpression (pa_functionWithAdditionalParameter requirement) in
  applyPassArgument
    (findMatches project (fci_filePath (pa_enclosingFunction requirement))
       fullPathExpression)
    requirement.

(** [addParameter]: the report and the assignments made.  [AddImport] is
    imported from manipulateImports.ts here; the namespace of the first
    editor is its text among the sources. *)
Definition addParameter (project : Project) (requirement : AddParameter)
  : Result Report * list Write :=
  let fn := functionWithAdditionalParameter requirement in
  match AddImport.addImport project (fci_filePath fn) (parameterType requirement) with
  | (Throw msg, ws) => (Throw msg, ws)
  | (Ok importAdded, ws) =>
      match findMatches project (fci_filePath fn) (functionDeclarationPathExpression fn) with
      | [] =>
          (Ok (reportUnimplemented (AddParameter_req requirement)
                 "Function declaration not found"), ws)
      | [functionDeclaration] =>
          match requireExactlyOne (step "OpenParenToken" functionDeclaration)
                  "wtf where is open paren" with
          | Throw msg => (Throw msg, ws)
          | Ok openParen =>
              (Ok (reportImplemented (AddParameter_req requirement)),
               (ws ++ [setValue openParen
                         ("(" ++ parameterName requirement ++ ": "
                              ++ import_name (parameterType requirement) ++ ", ")])%list)
          end
      | _ :: _ :: _ =>
          (Ok (reportUnimplemented (AddParameter_req requirement)
                 "More than one function declaration matched. I'm confused."), ws)
      end
  end.

(** [_.uniq(matches.map(m => m.sourceLocation.path))] *)
Definition filesChanged (matches : list MatchResult) : list string :=
  uniq (map m_path matches).

(** [Promise.all(addImportTo.map(f => AddImport.addImport(project, f, what)))]:
    every call runs; the whole is rejected when one of them is. *)
Fixpoint addImportToAll (project : Project) (addImportTo : list string)
    (what : ImportIdentifier) : Result unit * list Write :=
  match addImportTo with
  | [] => (Ok tt, [])
  | f :: rest =>
      let '(added, ws) := AddImport.addImport project f what in
      let '(others, wss) := addImportToAll project rest what in
      (_ <- added ;; others, (ws ++ wss)%list)
  end.

Section PassDummyInTests.

(** [text.replace(new RegExp(name + "\\s*\\(", "g"), replacement)], by [name],
    [replacement] and [text].  The name is read as a regular expression, and
    one that is not well formed makes [new RegExp] throw; the engine is
    external. *)
Variable replaceCalls : string -> string -> string -> Result string.

(** [project.flush()]: the project as the next query sees it once the
    assignments given are committed.  Project and parser are external. *)
Variable flush : Project -> list Write -> Project.

(** The loop over the matched calls: each gets its text with the calls
    rewritten; a throw leaves the assignments made so far. *)
Fixpoint rewriteCalls (name replacement : string) (matches : list MatchResult)
  : Result unit * list Write :=
  match matches with
  | [] => (Ok tt, [])
  | functionCall :: rest =>
      match replaceCalls name replacement (t_value (m_node functionCall)) with
      | Throw msg => (Throw msg, [])
      | Ok newValue =>
          let '(r, ws) := rewriteCalls name replacement rest in
          (r, setValue functionCall newValue :: ws)
      end
  end.

(** [passDummyInTests]: the report, the assignments to the calls (flushed,
    unless the loop threw) and those of [addImport] after the flush, which
    are pending. *)
Definition passDummyInTests (project : Project) (requirement : PassDummyInTests)
  : Result Report * list Write * list Write :=
  let name := fci_name (pd_functionWithAdditionalParameter requirement) in
  let matches :=
    findMatches project "test*/**/*.ts"
      (functionCallPathExpression (pd_functionWithAdditionalParameter requirement)) in
  match matches with
  | [] => (Ok emptyReport, [], []) (* it's valid for there to be no changes *)
  | _ :: _ =>
      match rewriteCalls name (name ++ "(" ++ pd_dummyValue requirement ++ ", ") matches with
      | (Throw msg, edits) => (Throw msg, edits, [])
      | (Ok _, edits) =>
          let flushed := flush project edits in
          match pd_additionalImport requirement with
          | None => (Ok (reportImplemented (PassDummyInTests_req requirement)), edits, [])
          | Some additionalImport =>
              let '(all, ws) :=
                addImportToAll flushed (filesChanged matches) additionalImport in
              (_ <- all ;; Ok (reportImplemented (PassDummyInTests_req requirement)),
               edits, ws)
          end
      end
  end.

End PassDummyInTests.

(** The query of [findConsequencesOfAddParameter] for the declarations with
    a call of the function: [callWithinFunction + "|" + callWithinMethod]. *)
Definition callSitesExpression (fn : FunctionCallIdentifier) : string :=
  ("//FunctionDeclaration[" ++ functionCallPathExpression fn ++ "]")
    ++ "|" ++ ("//MethodDeclaration[" ++ functionCallPathExpression fn ++ "]").

Definition callSites (project : Project) (fn : FunctionCallIdentifier)
  : list MatchResult :=
  findMatches project (globFromAccess fn) (callSitesExpression fn).

(** Whether a call site is outside the tests, as [consequencesOfFunctionCall]
    sees it. *)
Definition outsideTests (E : MatchResult) : bool :=
  negb (startsWith (m_path E) "test").

(** The ancestors at which [determineScope] opens a level: class
    declarations and namespace modules. *)
Definition isScopeNode (tn : TreeNode) : bool :=
  (t_name tn =? "ClassDeclaration")
  || ((t_name tn =? "ModuleDeclaration") && isNamespaceModule tn).

Definition scopeKindOf (tn : TreeNode) : ScopeKind :=
  if t_name tn =? "ClassDeclaration" then ClassAroundMethod else EnclosingNamespace.

(** The levels of a scope, innermost first: kind and name. *)
Fixpoint scopeLevelsFrom (s : EnclosingScope) : list (ScopeKind * string) :=
  match s with
  | Scope kind name _ outer =>
      (kind, name) :: match outer with
                      | None => []
                      | Some above => scopeLevelsFrom above
                      end
  end.

Definition scopeLevels (s : option EnclosingScope) : list (ScopeKind * string) :=
  match s with
  | None => []
  | Some sc => scopeLevelsFrom sc
  end.

End AddParameterImpl.

(** ** AddParameterRequirement.ts (the class-based planner) *)

Module AddParameterRequirement.

(** [functionCallIdentifierFromTreeNode] lives in functionCallIdentifier.ts,
    which is not among the sources; addParameterImpl.ts builds the same
    identifier in line, and that text is used here. *)
Definition functionCallIdentifierFromTreeNode :=
  AddParameterImpl.enclosingFunctionIdentifier.

(** The text of [consequencesOfFunctionCall] is that of addParameterImpl.ts,
    with [functionCallIdentifierFromTreeNode] for the in-line identifier. *)
Definition consequencesOfFunctionCall := AddParameterImpl.consequencesOfFunctionCall.

(** Modelled from the spec: the constructor of [AddMigrationRequirement]
    (AddMigrationRequirement.ts is not among the sources).  Section 4.4: when
    the parameter type is [Local] with an [externalPath], the downstream
    requirement carries a [Library] import located at that path. *)
Definition downstreamImport (i : ImportIdentifier) : ImportIdentifier :=
  match i with
  | Local name _ (Some externalPath) => Library name externalPath
  | _ => i
  end.

(** Modelled from the spec: [new AddMigrationRequirement(downstream, why)];
    see [downstreamImport]. *)
Definition newAddMigrationRequirement (downstream : AddParameter) (reason : Requirement)
  : Requirement :=
  AddMigrationRequirement
    (AddParameterRequirement (functionWithAdditionalParameter downstream)
       (downstreamImport (parameterType downstream))
       (parameterName downstream) (populateInTests downstream) (why downstream))
    (WhyRequirement reason).

(** [findConsequencesOfAddParameter] with the migration as second global
    consequence.  [functionCallPathExpression] is imported from
    functionCallIdentifier.ts here; its text in addParameterImpl.ts is
    used. *)
Definition findConsequencesOfAddParameter (project : Project) (requirement : AddParameter)
  : Result Consequences :=
  let passDummyInTests :=
    PassDummyInTestsRequirement (functionWithAdditionalParameter requirement)
      (dummyValue (populateInTests requirement))
      (additionalImport (populateInTests requirement)) WhyUndefined in
  let innerExpression :=
    AddParameterImpl.functionCallPathExpression
      (functionWithAdditionalParameter requirement) in
  let callWithinFunction := "//FunctionDeclaration[" ++ innerExpression ++ "]" in
  let callWithinMethod := "//MethodDeclaration[" ++ innerExpression ++ "]" in
  let testConsequences :=
    if isPublicFunctionAccess (fci_access (functionWithAdditionalParameter requirement))
    then concomitantChange passDummyInTests else emptyConsequences in
  let externalConsequences :=
    concomitantChange
      (newAddMigrationRequirement requirement (AddParameter_req requirement)) in
  let globalConsequences := combineConsequences testConsequences externalConsequences in
  let matches :=
    findMatches project (globFromAccess (functionWithAdditionalParameter requirement))
      (callWithinFunction ++ "|" ++ callWithinMethod) in
  srcConsequences <-
    fold_left (fun cc functionCallMatch =>
                 sofar <- cc ;;
                 these <- consequencesOfFunctionCall requirement functionCallMatch ;;
                 Ok (combineConsequences sofar these))
              matches (Ok emptyConsequences) ;;
  Ok (combineConsequences srcConsequences globalConsequences).

(** The text of [implementAddParameter] is that of [addParameter] in
    addParameterImpl.ts. *)
Definition implementAddParameter := AddParameterImpl.addParameter.

End AddParameterRequirement.

(** ** The first editor: namespace AddParameter with the work-list planner *)

Module Editor.

Record FunctionIdentifier : Type := mkFunctionIdentifier {
  name : string;
  filePath : string
}.

Inductive Requirement : Type :=
| AddParameterRequirement
    (functionWithAdditionalParameter : FunctionIdentifier)
    (parameterType : ImportIdentifier)
    (parameterName : string)
    (dummyValue : string)
    (why : Why)
| PassDummyInTestsRequirement
    (functionWithAdditionalParameter : FunctionIdentifier)
    (dummyValue : string)
    (why : Why)
| PassArgumentRequirement
    (enclosingFunction : FunctionIdentifier)
    (functionWithAdditionalParameter : FunctionIdentifier)
    (argumentValue : string)
    (why : Why)
with Why : Type :=
| WhyUndefined
| WhyText (reason : string)
| WhyRequirement (r : Requirement).

(** The discriminant [kind]. *)
Inductive Kind : Type :=
| AddParameterKind      (* "Add Parameter" *)
| PassDummyInTestsKind  (* "Pass Dummy In Tests" *)
| PassArgumentKind.     (* "Pass Argument" *)

Definition kind (r : Requirement) : Kind :=
  match r with
  | AddParameterRequirement _ _ _ _ _ => AddParameterKind
  | PassDummyInTestsRequirement _ _ _ => PassDummyInTestsKind
  | PassArgumentRequirement _ _ _ _ => PassArgumentKind
  end.

Definition kind_eqb (k1 k2 : Kind) : bool :=
  match k1, k2 with
  | AddParameterKind, AddParameterKind => true
  | PassDummyInTestsKind, PassDummyInTestsKind => true
  | PassArgumentKind, PassArgumentKind => true
  | _, _ => false
  end.

Definition functionWithAdditionalParameter (r : Requirement) : FunctionIdentifier :=
  match r with
  | AddParameterRequirement fn _ _ _ _ => fn
  | PassDummyInTestsRequirement fn _ _ => fn
  | PassArgumentRequirement _ fn _ _ => fn
  end.

Definition isAddParameterRequirement (r : Requirement) : bool :=
  kind_eqb (kind r) AddParameterKind.
Definition isPassArgumentRequirement (r : Requirement) : bool :=
  kind_eqb (kind r) PassArgumentKind.

(** [{ ...c, why }] *)
Definition withWhy (w : Why) (c : Requirement) : Requirement :=
  match c with
  | AddParameterRequirement fn ty nm dv _ => AddParameterRequirement fn ty nm dv w
  | PassDummyInTestsRequirement fn dv _ => PassDummyInTestsRequirement fn dv w
  | PassArgumentRequirement e fn v _ => PassArgumentRequirement e fn v w
  end.

Definition sameFunctionIdentifier (r1 r2 : FunctionIdentifier) : bool :=
  (name r1 =? name r2) && (filePath r1 =? filePath r2).

(** [sameRequirement(r1, r2)].  The last conjunct reads
    [(r2 as PassArgumentRequirement).enclosingFunction] only when [r1] is a
    Pass Argument and the kinds are equal, so [r2] is one too. *)
Definition sameRequirement (r1 r2 : Requirement) : bool :=
  kind_eqb (kind r1) (kind r2)
  && sameFunctionIdentifier (functionWithAdditionalParameter r1)
       (functionWithAdditionalParameter r2)
  && (filePath (functionWithAdditionalParameter r1)
        =? filePath (functionWithAdditionalParameter r2))
  && match r1 with
     | PassArgumentRequirement e1 _ _ _ =>
         match r2 with
         | PassArgumentRequirement e2 _ _ _ => sameFunctionIdentifier e1 e2
         | _ => false
         end
     | _ => true
     end.

(** [fn.match(/\./)]: the name has a dot. *)
Fixpoint hasDot (fn : string) : bool :=
  match fn with
  | EmptyString => false
  | String c rest => Ascii.eqb c "."%char || hasDot rest
  end.

Definition functionCallPathExpression (fn : string) : string :=
  if hasDot fn
  then "//CallExpression[/PropertyAccessExpression[@value='" ++ fn ++ "']]"
  else "//CallExpression[/Identifier[@value='" ++ fn ++ "']]".

(** [_.flatMap] over a callback that may throw. *)
Fixpoint flatMap {A B : Type} (f : A -> Result (list B)) (l : list A) : Result (list B) :=
  match l with
  | [] => Ok []
  | x :: rest =>
      ys <- f x ;;
      zs <- flatMap f rest ;;
      Ok (ys ++ zs)%list
  end.

(** The callback of [findConsequencesOfAddParameter]: what one enclosing
    function declaration contributes. *)
Definition consequencesWithin (fn : FunctionIdentifier) (parameterType : ImportIdentifier)
    (parameterName dummyValue : string) (enclosingFunction : MatchResult)
  : Result (list Requirement) :=
  enclosingFunctionName <- AddParameterImpl.identifier (m_node enclosingFunction) ;;
  let filePath := m_path enclosingFunction in
  match AddParameterImpl.suitableParameterMatches (import_name parameterType)
          enclosingFunction with
  | found :: _ =>
      let instruction :=
        PassArgumentRequirement (mkFunctionIdentifier enclosingFunctionName filePath)
          fn (t_value (m_node found)) WhyUndefined in
      Ok [instruction]
  | [] =>
      let passNewArgument :=
        AddParameterRequirement (mkFunctionIdentifier enclosingFunctionName filePath)
          parameterType parameterName dummyValue WhyUndefined in
      let newParameterForMe :=
        PassArgumentRequirement (mkFunctionIdentifier enclosingFunctionName filePath)
          fn parameterName WhyUndefined in
      Ok [passNewArgument; newParameterForMe]
  end.

Definition findConsequencesOfAddParameter (project : Project) (fn : FunctionIdentifier)
    (parameterType : ImportIdentifier) (parameterName dummyValue : string)
  : Result (list Requirement) :=
  let passDummyInTests := PassDummyInTestsRequirement fn dummyValue WhyUndefined in
  let innerExpression := functionCallPathExpression (name fn) in
  srcConsequences <-
    flatMap (consequencesWithin fn parameterType parameterName dummyValue)
      (findMatches project "src/**/*.ts"
         ("//FunctionDeclaration[" ++ innerExpression ++ "]")) ;;
  Ok (srcConsequences ++ [passDummyInTests])%list.

Definition findConsequencesOfOne (project : Project) (requirement : Requirement)
  : Result (list Requirement) :=
  match requirement with
  | AddParameterRequirement fn parameterType parameterName dummyValue _ =>
      consequences <-
        findConsequencesOfAddParameter project fn parameterType parameterName dummyValue ;;
      Ok (map (withWhy (WhyRequirement requirement)) consequences)
  | _ => Ok []
  end.

(** [unchecked.pop()]: the last element and the array without it. *)
Definition pop {A : Type} (l : list A) : option (A * list A) :=
  match rev l with
  | [] => None
  | x :: r => Some (x, rev r)
  end.

(** [findConsequences(project, unchecked, checked = [])].  The recursion of
    the source has no measure of its own; [fuel] bounds the number of calls
    and [None] means that it ran out. *)
Fixpoint findConsequences (fuel : nat) (project : Project)
    (unchecked checked : list Requirement) : option (Result (list Requirement)) :=
  match pop unchecked with
  | None => Some (Ok checked)
  | Some (thisOne, unchecked') =>
      match fuel with
      | 0 => None
      | S fuel' =>
          if existsb (fun o => sameRequirement o thisOne) checked then
            findConsequences fuel' project unchecked' checked
          else
            match findConsequencesOfOne project thisOne with
            | Throw msg => Some (Throw msg)
            | Ok theseReqs =>
                findConsequences fuel' project (unchecked' ++ theseReqs)%list
                  (checked ++ [thisOne])%list
            end
      end
  end.

(** [distinct(requirements)]: a requirement is pushed unless the result
    has one that is the same. *)
Definition distinct (requirements : list Requirement) : list Requirement :=
  fold_left
    (fun result r =>
       if existsb (fun other => sameRequirement other r) result
       then result else (result ++ [r])%list)
    requirements [].

(** The field [why]. *)
Definition why (r : Requirement) : Why :=
  match r with
  | AddParameterRequirement _ _ _ _ w => w
  | PassDummyInTestsRequirement _ _ w => w
  | PassArgumentRequirement _ _ _ w => w
  end.

(** What [sameRequirement] compares: the kind, the function and, for a Pass
    Argument, the enclosing function. *)
Definition enclosingOf (r : Requirement) : option FunctionIdentifier :=
  match r with
  | PassArgumentRequirement e _ _ _ => Some e
  | _ => None
  end.

Definition keyOf (r : Requirement) : Kind * FunctionIdentifier * option FunctionIdentifier :=
  (kind r, functionWithAdditionalParameter r, enclosingOf r).

(** The functions a requirement names. *)
Definition functionsOf (r : Requirement) : list FunctionIdentifier :=
  functionWithAdditionalParameter r
    :: match enclosingOf r with Some e => [e] | None => [] end.

(** The named declarations of the project, as function identifiers. *)
Definition declared (project : Project) : list FunctionIdentifier :=
  flat_map (fun m => match AddParameterImpl.identifier (m_node m) with
                     | Ok n => [mkFunctionIdentifier n (m_path m)]
                     | Throw _ => []
                     end)
           (p_nodes project).

(** Every key a requirement about the functions [fs] can have. *)
Definition keysOver (fs : list FunctionIdentifier)
  : list (Kind * FunctionIdentifier * option FunctionIdentifier) :=
  list_prod
    (list_prod [AddParameterKind; PassDummyInTestsKind; PassArgumentKind] fs)
    (None :: map Some fs).

(** Calls of [findConsequences] that suffice for a root in a project. *)
Definition enoughFuel (project : Project) (root : Requirement) : nat :=
  1 + length (keysOver (functionsOf root ++ declared project))
      * (2 * length (p_nodes project) + 2).

(** *** The executor of the first editor *)

Record Unimplemented : Type := mkUnimplemented {
  requirement : Requirement;
  message : string
}.

Record Report : Type := mkReport {
  unimplemented : list Unimplemented;
  implemented : list Requirement
}.

Definition emptyReport : Report :=
  {| unimplemented := []; implemented := [] |}.

Definition reportUnimplemented (requirement : Requirement) (message : string) : Report :=
  {| unimplemented := [mkUnimplemented requirement message]; implemented := [] |}.

Definition reportImplemented (requirement : Requirement) : Report :=
  {| unimplemented := []; implemented := [requirement] |}.

Definition combine (report1 report2 : Report) : Report :=
  {| unimplemented := (unimplemented report1 ++ unimplemented report2)%list;
     implemented := (implemented report1 ++ implemented report2)%list |}.

Definition isAddDummyInTests (r : Requirement) : bool :=
  kind_eqb (kind r) PassDummyInTestsKind.

Definition pathExpressionToFunctionDeclaration (fn : FunctionIdentifier) : string :=
  let declarationOfInterest := "/Identifier[@value='" ++ name fn ++ "'" in
  "//FunctionDeclaration[" ++ declarationOfInterest ++ "]]".

Section Executor.

(** [text.replace(new RegExp(name + "\\s*\\(", "g"), replacement)], by [name],
    [replacement] and [text]; [new RegExp] throws on a name that is not a
    well-formed regular expression.  The engine is external. *)
Variable replaceCalls : string -> string -> string -> Result string.

(** [project.flush()]: the project as the next query sees it once the
    assignments given are committed.  Project and parser are external. *)
Variable flush : Project -> list Write -> Project.

(** The loop [matches.map(m => { m.$value = m.$value.replace(...) })]: a
    throw leaves the assignments made so far. *)
Fixpoint rewriteCalls (fn replacement : string) (matches : list MatchResult)
  : Result unit * list Write :=
  match matches with
  | [] => (Ok tt, [])
  | m :: rest =>
      match replaceCalls fn replacement (t_value (m_node m)) with
      | Throw msg => (Throw msg, [])
      | Ok newValue =>
          let '(r, ws) := rewriteCalls fn replacement rest in
          (r, setValue m newValue :: ws)
      end
  end.

(** [applyPassArgument(matches, requirement)], with the fields of the
    requirement. *)
Definition applyPassArgument (matches : list MatchResult) (requirement : Requirement)
    (fn : FunctionIdentifier) (argumentValue : string) : Result Report * list Write :=
  match matches with
  | [] => (Ok (reportUnimplemented requirement "Function not found"), [])
  | _ :: _ =>
      let '(r, ws) :=
        rewriteCalls (name fn) (name fn ++ "(" ++ argumentValue ++ ", ") matches in
      (_ <- r ;; Ok (reportImplemented requirement), ws)
  end.

Definition passArgument (project : Project) (requirement : Requirement)
    (enclosingFunction fn : FunctionIdentifier) (argumentValue : string)
  : Result Report * list Write :=
  let innerExpression := functionCallPathExpression (name fn) in
  let enclosingFunctionExpression :=
    "/Identifier[@value='" ++ name enclosingFunction ++ "'" in
  let fullPathExpression :=
    "//FunctionDeclaration[" ++ enclosingFunctionExpression ++ "]][" ++ innerExpression
      ++ "]" in
  applyPassArgument
    (findMatches project ("**/" ++ filePath enclosingFunction) fullPathExpression)
    requirement fn argumentValue.

Definition passDummyInTests (project : Project) (requirement : Requirement)
    (fn : FunctionIdentifier) (dummyValue : string) : Result Report * list Write :=
  match findMatches project "test/**/*.ts" (functionCallPathExpression (name fn)) with
  | [] => (Ok emptyReport, []) (* it's valid for there to be no changes *)
  | functionCall :: others =>
      let '(r, ws) :=
        rewriteCalls (name fn) (name fn ++ "(" ++ dummyValue ++ ", ")
          (functionCall :: others) in
      (_ <- r ;; Ok (reportImplemented requirement), ws)
  end.

Definition addParameter (project : Project) (requirement : Requirement)
    (fn : FunctionIdentifier) (parameterType : ImportIdentifier) (parameterName : string)
  : Result Report * list Write :=
  let functionDeclarationExpression := pathExpressionToFunctionDeclaration fn in
  match AddImport.addImport project (filePath fn) parameterType with
  | (Throw msg, ws) => (Throw msg, ws)
  | (Ok _, ws) =>
      match findMatches project ("**/" ++ filePath fn) functionDeclarationExpression with
      | [] => (Ok (reportUnimplemented requirement "Function declaration not found"), ws)
      | [functionDeclaration] =>
          let identifier := name fn in
          match replaceCalls identifier
                  (identifier ++ "(" ++ parameterName ++ ": "
                     ++ import_name parameterType ++ ", ")
                  (t_value (m_node functionDeclaration)) with
          | Throw msg => (Throw msg, ws)
          | Ok newValue =>
              (Ok (reportImplemented requirement),
               (ws ++ [setValue functionDeclaration newValue])%list)
          end
      | _ :: _ :: _ =>
          (Ok (reportUnimplemented requirement
                 "More than one function declaration matched. I'm confused."), ws)
      end
  end.

Definition implement (project : Project) (requirement : Requirement)
  : Result Report * list Write :=
  match requirement with
  | AddParameterRequirement fn parameterType parameterName _ _ =>
      addParameter project requirement fn parameterType parameterName
  | PassDummyInTestsRequirement fn dummyValue _ =>
      passDummyInTests project requirement fn dummyValue
  | PassArgumentRequirement enclosingFunction fn argumentValue _ =>
      passArgument project requirement enclosingFunction fn argumentValue
  end.

(** [implementInSequenceWithFlushes(project, activities)]: the report so
    far, or the error that ended the sequence, and the project as the flushes
    left it.  A step that throws is not flushed and ends the sequence. *)
Definition implementInSequenceWithFlushes (project : Project)
    (activities : list Requirement) : Result Report * Project :=
  fold_left
    (fun pp r1 =>
       match pp with
       | (Throw msg, p) => (Throw msg, p)
       | (Ok report, p) =>
           match implement p r1 with
           | (Throw msg, _) => (Throw msg, p)
           | (Ok report1, ws) => (Ok (combine report report1), flush p ws)
           end
       end)
    activities (Ok emptyReport, project).

End Executor.

End Editor.

(** ** Helpers of the planner's tests (the test file of the class-based
       planner) *)

Module EditorTest.

(** [printMatchHierarchy(m, hierarchy = [])]: [m] is pushed, then its
    [$parent]s in turn; at the root every node of the hierarchy that has an
    [Identifier] child is printed with a test of that identifier's value.
    [parents] is the chain above [m]. *)
Fixpoint printMatchHierarchy (m : TreeNode) (parents : list TreeNode)
    (hierarchy : list TreeNode) : list string :=
  let hierarchy := (hierarchy ++ [m])%list in
  match parents with
  | parent :: above => printMatchHierarchy parent above hierarchy
  | [] =>
      compact
        (map (fun tn =>
                match find (fun c => t_name c =? "Identifier") (t_children tn) with
                | Some identifier =>
                    let identifierTest :=
                      "[/Identifier[@value='" ++ t_value identifier ++ "']]" in
                    Some (t_name tn ++ identifierTest)
                | None => None
                end)
             hierarchy)
  end.

(** [guessPathExpression(tn)] *)
Definition guessPathExpression (tn : MatchResult) : string :=
  "//" ++ String.concat "//" (rev (printMatchHierarchy (m_node tn) (m_parents tn) [])).

End EditorTest.

(** ** A file as the parser gives it

    The root of a file as a located node, the nodes below it, and the text
    around the brace that [addImport] looks for.  What [project.flush()]
    writes for an assignment, and what the parser reads back from it, is
    outside the code and is not modelled. *)
Module ParsedFile.


Definition importSpecifier (name : string) : TreeNode :=
  Node "ImportSpecifier" name [Node "Identifier" name []].

(** The tree of [import { name } from "location";].  The value of the
    string literal is the module specifier, as the query of [addImport]
    compares it. *)
Definition importDeclaration (name location : string) : TreeNode :=
  Node "ImportDeclaration"
    ("import { " ++ name ++ " } from " ++ quote ++ location ++ quote ++ ";")
    [ Node "ImportKeyword" "import" [];
      Node "ImportClause" ("{ " ++ name ++ " }")
        [ Node "NamedImports" ("{ " ++ name ++ " }")
            [ Node "OpenBraceToken" "{" [];
              Node "SyntaxList" name [importSpecifier name];
              Node "CloseBraceToken" "}" [] ] ];
      Node "FromKeyword" "from" [];
      Node "StringLiteral" location [];
      Node "SemicolonToken" ";" [] ].

(** The text before and after the first opening brace. *)
Fixpoint beforeBrace (s : string) : string :=
  match s with
  | EmptyString => EmptyString
  | String c rest =>
      if Ascii.eqb c "{"%char then EmptyString else String c (beforeBrace rest)
  end.

Fixpoint afterBrace (s : string) : string :=
  match s with
  | EmptyString => EmptyString
  | String c rest => if Ascii.eqb c "{"%char then rest else afterBrace rest
  end.

(** The root of a file as a located node. *)
Definition sourceFile (path : string) (t : TreeNode) : MatchResult :=
  mkMatch path [] t [].


(** The descendants of a node without their places, in the order of
    [descendantsFrom]. *)
Fixpoint nodesBelow (t : TreeNode) : list TreeNode :=
  match t with
  | Node _ _ cs => (cs ++ flat_map nodesBelow cs)%list
  end.

(** An identifier with the given value occurs below the node. *)
Definition importsName (name : string) (d : TreeNode) : bool :=
  existsb (fun i => (t_name i =? "Identifier") && (t_value i =? name)) (nodesBelow d).


(** Whether a replacement text has one of the patterns that [replace] reads
    in it: a dollar followed by a dollar, an ampersand, a backquote or a
    quote. *)
Fixpoint hasReplacementPattern (s : string) : bool :=
  match s with
  | EmptyString => false
  | String c tail =>
      (Ascii.eqb c "$"%char
       && match tail with
          | String d _ =>
              Ascii.eqb d "$"%char || Ascii.eqb d "&"%char || Ascii.eqb d "`"%char
              || Ascii.eqb d "'"%char
          | EmptyString => false
          end)
      || hasReplacementPattern tail
  end.

(** Whether a text has an opening brace. *)
Fixpoint hasBrace (s : string) : bool :=
  match s with
  | EmptyString => false
  | String c rest => Ascii.eqb c "{"%char || hasBrace rest
  end.

End ParsedFile.

(** ** Declarations and projects from the repository's tests *)

Module Examples.

Definition leaf (name value : string) : TreeNode := Node name value [].

(** [name: type] in a parameter list. *)
Definition parameter (name type : string) : TreeNode :=
  Node "Parameter" (name ++ ": " ++ type)
    [ leaf "Identifier" name;
      leaf "ColonToken" ":";
      Node "TypeReference" type [leaf "Identifier" type] ].

(** A class seen from one of its members. *)
Definition classAbove (name : string) : list TreeNode :=
  [ Node "SyntaxList" EmptyString [];
    Node "ClassDeclaration" ("class " ++ name)
      [leaf "ClassKeyword" "class"; leaf "Identifier" name];
    Node "SyntaxList" EmptyString [];
    Node "SourceFile" EmptyString [] ].

Definition fileAbove : list TreeNode :=
  [ Node "SyntaxList" EmptyString []; Node "SourceFile" EmptyString [] ].

Definition HandlerContext : ImportIdentifier :=
  Library "HandlerContext" "@atomist/automation-client".

(** The text [import clause from "location";]. *)
Definition importText (clause location : string) : string :=
  "import " ++ clause ++ " from " ++ quote ++ location ++ quote ++ ";".

Definition LocalHandlerContext : ImportIdentifier :=
  Local "HandlerContext" "../HandlerContext.ts" (Some "@atomist/automation-client").

(** [public otherThinger(params: P, ctx: HandlerContext) { return this.thinger(); }]
    in [class Classy] of src/Classy.ts. *)
Definition otherThinger : MatchResult :=
  mkMatch "src/Classy.ts" [0; 0; 3; 0]
    (Node "MethodDeclaration" "public otherThinger(params: P, ctx: HandlerContext) { return this.thinger(); }"
       [ Node "SyntaxList" "public" [leaf "PublicKeyword" "public"];
         leaf "Identifier" "otherThinger";
         leaf "OpenParenToken" "(";
         Node "SyntaxList" "params: P, ctx: HandlerContext"
           [ parameter "params" "P"; leaf "CommaToken" ","; parameter "ctx" "HandlerContext" ];
         leaf "CloseParenToken" ")";
         Node "Block" "{ return this.thinger(); }" [] ])
    (classAbove "Classy").

(** [export function iShouldChange() { return privateFunciton("yarrr"); }] at
    the top of the file [path]. *)
Definition iShouldChange (path : string) : MatchResult :=
  mkMatch path [0; 0]
    (Node "FunctionDeclaration" "export function iShouldChange() { return privateFunciton(); }"
       [ Node "SyntaxList" "export" [leaf "ExportKeyword" "export"];
         leaf "FunctionKeyword" "function";
         leaf "Identifier" "iShouldChange";
         leaf "OpenParenToken" "(";
         Node "SyntaxList" EmptyString [];
         leaf "CloseParenToken" ")";
         Node "Block" "{ return privateFunciton(); }" [] ])
    fileAbove.

(** A method declaration that lost its parenthesis token. *)
Definition noParen : MatchResult :=
  mkMatch "src/f.ts" [0; 0]
    (Node "FunctionDeclaration" "function priv"
       [ leaf "FunctionKeyword" "function"; leaf "Identifier" "priv" ])
    fileAbove.

Definition thinger (access : Access) : FunctionCallIdentifier :=
  {| fci_enclosingScope := None;
     fci_name := "thinger";
     fci_filePath := "src/thinger.ts";
     fci_access := access |}.

(** The root of the tests "Requests a new migration when an exported
    function is changed" and "Does not request a migration for a private
    function", by the access given. *)
Definition addContextTo (fn : FunctionCallIdentifier) : AddParameter :=
  {| functionWithAdditionalParameter := fn;
     parameterType := LocalHandlerContext;
     parameterName := "context";
     populateInTests := {| dummyValue := "{}"; additionalImport := None |};
     why := WhyUndefined |}.

(** A project in which no declaration calls the target. *)
Definition noCallers : Project := mkProject [] (fun _ _ _ => false).

(** src/thinger.ts: [export function thinger() { ... }], no import. *)
Definition thingerFile : TreeNode :=
  Node "SourceFile" "export function thinger() { return 0; }"
    [ Node "SyntaxList" "export function thinger() { return 0; }"
        [ Node "FunctionDeclaration" "export function thinger() { return 0; }"
            [ Node "SyntaxList" "export" [leaf "ExportKeyword" "export"];
              leaf "FunctionKeyword" "function";
              leaf "Identifier" "thinger";
              leaf "OpenParenToken" "(";
              Node "SyntaxList" EmptyString [];
              leaf "CloseParenToken" ")";
              Node "Block" "{ return 0; }" [] ] ];
      leaf "EndOfFileToken" EmptyString ].

(** A query engine for one-file examples: [/SourceFile] selects the root of
    the file named by the glob, any other expression the function
    declarations listed in [found]. *)
Definition selecting (found : bool) (glob pathExpression : string) (m : MatchResult)
  : bool :=
  (m_path m =? glob)
  && if pathExpression =? "/SourceFile" then t_name (m_node m) =? "SourceFile"
     else found && (t_name (m_node m) =? "FunctionDeclaration").

(** src/thinger.ts alone; no declaration answers a declaration query. *)
Definition thingerProject : Project :=
  mkProject [ParsedFile.sourceFile "src/thinger.ts" thingerFile] (selecting false).

(** src/f.ts with the import of HandlerContext and the declaration
    [noParen]. *)
Definition noParenProject : Project :=
  mkProject
    [ ParsedFile.sourceFile "src/f.ts"
        (Node "SourceFile" EmptyString
           [ParsedFile.importDeclaration "HandlerContext" "@atomist/automation-client"]);
      noParen ]
    (selecting true).

(** Add [context: HandlerContext] to [priv] of src/f.ts. *)
Definition addContextToPriv : AddParameter :=
  {| functionWithAdditionalParameter :=
       {| fci_enclosingScope := None; fci_name := "priv";
          fci_filePath := "src/f.ts"; fci_access := PrivateFunctionAccess |};
     parameterType := HandlerContext;
     parameterName := "context";
     populateInTests := {| dummyValue := "{}"; additionalImport := None |};
     why := WhyUndefined |}.

(** src/over.ts: two overload signatures of [priv] and its implementation,
    no import; a declaration query for [priv] finds the three of them. *)
Definition overload (i : nat) (text : string) : MatchResult :=
  mkMatch "src/over.ts" [0; i]
    (Node "FunctionDeclaration" text
       [ leaf "FunctionKeyword" "function"; leaf "Identifier" "priv";
         leaf "OpenParenToken" "("; Node "SyntaxList" EmptyString [];
         leaf "CloseParenToken" ")" ])
    fileAbove.

Definition overloadedFile : TreeNode :=
  Node "SourceFile" "function priv(); function priv(); function priv() {}"
    [ Node "SyntaxList" "function priv(); function priv(); function priv() {}"
        [ m_node (overload 0 "function priv();");
          m_node (overload 1 "function priv();");
          m_node (overload 2 "function priv() {}") ] ].

Definition overloadedProject : Project :=
  mkProject
    [ ParsedFile.sourceFile "src/over.ts" overloadedFile;
      overload 0 "function priv();";
      overload 1 "function priv();";
      overload 2 "function priv() {}" ]
    (selecting true).

Definition addContextToOverloaded : AddParameter :=
  {| functionWithAdditionalParameter :=
       {| fci_enclosingScope := None; fci_name := "priv";
          fci_filePath := "src/over.ts"; fci_access := PrivateFunctionAccess |};
     parameterType := HandlerContext;
     parameterName := "context";
     populateInTests := {| dummyValue := "{}"; additionalImport := None |};
     why := WhyUndefined |}.

(** [import { logger } from "@atomist/automation-client";] and nothing
    else. *)
Definition loggerImportFile : TreeNode :=
  Node "SourceFile" (importText "{ logger }" "@atomist/automation-client")
    [ Node "SyntaxList" (importText "{ logger }" "@atomist/automation-client")
        [ Node "ImportDeclaration" (importText "{ logger }" "@atomist/automation-client")
            [ leaf "ImportKeyword" "import";
              Node "ImportClause" "{ logger }"
                [ Node "NamedImports" "{ logger }"
                    [ leaf "OpenBraceToken" "{";
                      Node "SyntaxList" "logger"
                        [ Node "ImportSpecifier" "logger" [leaf "Identifier" "logger"] ];
                      leaf "CloseBraceToken" "}" ] ];
              leaf "FromKeyword" "from";
              leaf "StringLiteral" "@atomist/automation-client";
              leaf "SemicolonToken" ";" ] ];
      leaf "EndOfFileToken" EmptyString ].


(** src/loop.ts: [function ping() { pong(); }] and
    [function pong() { ping(); }], two functions that call each other. *)
Definition caller (i : nat) (name callee : string) : MatchResult :=
  mkMatch "src/loop.ts" [0; i]
    (Node "FunctionDeclaration" ("function " ++ name ++ "() { " ++ callee ++ "(); }")
       [ leaf "FunctionKeyword" "function"; leaf "Identifier" name;
         leaf "OpenParenToken" "("; Node "SyntaxList" EmptyString [];
         leaf "CloseParenToken" ")";
         Node "Block" ("{ " ++ callee ++ "(); }") [] ])
    fileAbove.

(** The engine on src/loop.ts: the declarations with a call of [ping] are
    [pong], and the other way round. *)
Definition loopProject : Project :=
  mkProject [caller 0 "ping" "pong"; caller 1 "pong" "ping"]
    (fun _ pathExpression m =>
       match AddParameterImpl.identifier (m_node m) with
       | Ok n =>
           pathExpression
           =? "//FunctionDeclaration[//CallExpression[/Identifier[@value='"
                ++ (if n =? "ping" then "pong" else "ping") ++ "']]]"
       | Throw _ => false
       end).

(** [function caller({ b }: HandlerContext) { return thinger(); }] at the top
    of src/caller.ts: its one parameter has the type, and a binding pattern
    where a plain parameter has its identifier. *)
Definition destructuringCaller : MatchResult :=
  mkMatch "src/caller.ts" [0; 0]
    (Node "FunctionDeclaration" "function caller({ b }: HandlerContext) { return thinger(); }"
       [ leaf "FunctionKeyword" "function";
         leaf "Identifier" "caller";
         leaf "OpenParenToken" "(";
         Node "SyntaxList" "{ b }: HandlerContext"
           [ Node "Parameter" "{ b }: HandlerContext"
               [ Node "ObjectBindingPattern" "{ b }"
                   [ leaf "OpenBraceToken" "{";
                     Node "SyntaxList" "b"
                       [Node "BindingElement" "b" [leaf "Identifier" "b"]];
                     leaf "CloseBraceToken" "}" ];
                 leaf "ColonToken" ":";
                 Node "TypeReference" "HandlerContext" [leaf "Identifier" "HandlerContext"] ] ];
         leaf "CloseParenToken" ")";
         Node "Block" "{ return thinger(); }" [] ])
    fileAbove.

(** A file with an import inside a module declaration and, after it, one
    among its statements, both from the same location:
    [declare module "m" { import { a } from "@atomist/automation-client"; }]
    [import { logger } from "@atomist/automation-client";] *)
Definition nestedImportFile : TreeNode :=
  Node "SourceFile" EmptyString
    [ Node "SyntaxList" EmptyString
        [ Node "ModuleDeclaration" EmptyString
            [ Node "SyntaxList" "declare" [leaf "DeclareKeyword" "declare"];
              leaf "ModuleKeyword" "module";
              leaf "StringLiteral" "m";
              Node "ModuleBlock" EmptyString
                [ leaf "OpenBraceToken" "{";
                  Node "SyntaxList" EmptyString
                    [ Node "ImportDeclaration"
                        (importText "{ a }" "@atomist/automation-client")
                        [ leaf "ImportKeyword" "import";
                          Node "ImportClause" "{ a }"
                            [ Node "NamedImports" "{ a }"
                                [ leaf "OpenBraceToken" "{";
                                  Node "SyntaxList" "a"
                                    [Node "ImportSpecifier" "a" [leaf "Identifier" "a"]];
                                  leaf "CloseBraceToken" "}" ] ];
                          leaf "FromKeyword" "from";
                          leaf "StringLiteral" "@atomist/automation-client";
                          leaf "SemicolonToken" ";" ] ];
                  leaf "CloseBraceToken" "}" ] ];
          Node "ImportDeclaration" (importText "{ logger }" "@atomist/automation-client")
            [ leaf "ImportKeyword" "import";
              Node "ImportClause" "{ logger }"
                [ Node "NamedImports" "{ logger }"
                    [ leaf "OpenBraceToken" "{";
                      Node "SyntaxList" "logger"
                        [Node "ImportSpecifier" "logger" [leaf "Identifier" "logger"]];
                      leaf "CloseBraceToken" "}" ] ];
              leaf "FromKeyword" "from";
              leaf "StringLiteral" "@atomist/automation-client";
              leaf "SemicolonToken" ";" ] ];
      leaf "EndOfFileToken" EmptyString ].

(** Two declarations with a call of the target, as a query for its call
    sites finds them: [otherThinger], which has a parameter of the type, and
    [iShouldChange] of src/funciton.ts, which has none.  The engine selects
    every node listed. *)
Definition callersProject : Project :=
  mkProject [otherThinger; iShouldChange "src/funciton.ts"] (fun _ _ _ => true).

(** Two matches of a query for calls, as the engine returns them: the first
    has its open parenthesis, the second ([noParen]) has none.  The engine
    selects every node listed. *)
Definition halfParenProject : Project :=
  mkProject [iShouldChange "src/f.ts"; noParen] (fun _ _ _ => true).

(** Pass [context] to the calls of [priv] inside [iShouldChange] of
    src/f.ts. *)
Definition passContextToPriv : PassArgument :=
  {| pa_enclosingFunction :=
       {| fci_enclosingScope := None; fci_name := "iShouldChange";
          fci_filePath := "src/f.ts"; fci_access := PublicFunctionAccess |};
     pa_functionWithAdditionalParameter :=
       {| fci_enclosingScope := None; fci_name := "priv";
          fci_filePath := "src/f.ts"; fci_access := PrivateFunctionAccess |};
     pa_argumentValue := "context";
     pa_why := WhyUndefined |}.

Definition addContextToPing : Editor.Requirement :=
  Editor.AddParameterRequirement (Editor.mkFunctionIdentifier "ping" "src/loop.ts")
    HandlerContext "context" "{}" (Editor.WhyText "I want to use the context in here").

End Examples.

(** * Properties *)

Import AddParameterImpl.
Open Scope list_scope.

(** ** Consequences form a monoid *)

(** C10.  [combineConsequences] concatenates the two lists componentwise; it
    is associative and [emptyConsequences] is an identity on both sides. *)
Theorem combineConsequences_monoid :
  (forall a b : Consequences,
      concomitantChanges (combineConsequences a b)
        = concomitantChanges a ++ concomitantChanges b
      /\ prerequisiteChanges (combineConsequences a b)
        = prerequisiteChanges a ++ prerequisiteChanges b)
  /\ (forall a b c : Consequences,
      combineConsequences a (combineConsequences b c)
        = combineConsequences (combineConsequences a b) c)
  /\ (forall a : Consequences,
      combineConsequences emptyConsequences a = a
      /\ combineConsequences a emptyConsequences = a).
Proof.
  split; [| split].
  - intros a b. split; reflexivity.
  - intros [a1 a2] [b1 b2] [c1 c2]. unfold combineConsequences. simpl.
    now rewrite !app_assoc.
  - intros [a1 a2]. unfold combineConsequences, emptyConsequences. simpl.
    split; [reflexivity | now rewrite !app_nil_r].
Qed.

(** ** Access inferred from a declaration *)

Lemma determineAccess_cases (m : MatchResult) :
  (hasKeyword m "ExportKeyword" = true -> determineAccess m = PublicFunctionAccess)
  /\ (hasKeyword m "ExportKeyword" = false ->
      hasKeyword m "PrivateKeyword" = true \/ hasKeyword m "ProtectedKeyword" = true ->
      determineAccess m = PrivateMethodAccess)
  /\ (hasKeyword m "ExportKeyword" = false ->
      hasKeyword m "PrivateKeyword" = false ->
      hasKeyword m "ProtectedKeyword" = false ->
      determineAccess m = PrivateFunctionAccess).
Proof.
  unfold determineAccess. repeat split.
  - intros ->. reflexivity.
  - intros -> [-> | ->]; [reflexivity |].
    now rewrite orb_true_r.
  - intros -> -> ->. reflexivity.
Qed.

(** C5.  [determineAccess] never answers [PublicMethodAccess]: a class method
    without [private] or [protected], such as [public otherThinger(...)] of
    class Classy, is given [PrivateFunctionAccess], where the claim (and the
    test "Requests a migration for a public method in a public class")
    expects [PublicMethodAccess]. *)
Theorem determineAccess_never_public_method :
  (forall m : MatchResult, determineAccess m <> PublicMethodAccess)
  /\ t_name (m_node Examples.otherThinger) = "MethodDeclaration"
  /\ hasKeyword Examples.otherThinger "ExportKeyword" = false
  /\ hasKeyword Examples.otherThinger "PrivateKeyword" = false
  /\ hasKeyword Examples.otherThinger "ProtectedKeyword" = false
  /\ determineAccess Examples.otherThinger = PrivateFunctionAccess.
Proof.
  split.
  - intros m. unfold determineAccess.
    destruct (hasKeyword m "ExportKeyword"); [discriminate |].
    destruct (hasKeyword m "PrivateKeyword" || hasKeyword m "ProtectedKeyword");
      discriminate.
  - repeat split; reflexivity.
Qed.

(** ** What one call site contributes *)

Lemma in_suitableParameterMatches (typeName : string) (E x : MatchResult) :
  In x (suitableParameterMatches typeName E) <->
  exists parameters p,
    In parameters (step "SyntaxList" E)
    /\ In p (step "Parameter" parameters)
    /\ (exists ty, In ty (step "TypeReference" p) /\ t_value (m_node ty) = typeName)
    /\ In x (step "Identifier" p).
Proof.
  unfold suitableParameterMatches. rewrite in_flat_map. split.
  - intros (p & Hp & Hx). apply filter_In in Hp as [Hp Hty].
    apply in_flat_map in Hp as (ps & Hps & Hp).
    apply existsb_exists in Hty as (ty & Hty & Hv).
    exists ps, p. repeat split; auto.
    exists ty. split; auto. now apply String.eqb_eq in Hv.
  - intros (ps & p & Hps & Hp & (ty & Hty & Hv) & Hx).
    exists p. split; auto. apply filter_In. split.
    + apply in_flat_map. now exists ps.
    + apply existsb_exists. exists ty. split; auto.
      unfold valueIs. now apply String.eqb_eq.
Qed.

Lemma enclosingFunctionIdentifier_name (E : MatchResult) (enclosing : FunctionCallIdentifier) :
  enclosingFunctionIdentifier E = Ok enclosing ->
  identifier (m_node E) = Ok (fci_name enclosing).
Proof.
  unfold enclosingFunctionIdentifier.
  destruct (identifier (m_node E)) as [n |]; simpl; [| discriminate].
  destruct (determineScope (m_parents E)); simpl; [| discriminate].
  now intros [= <-].
Qed.

(** ** Call sites in the tests *)

Lemma prefix_app (p1 p2 s : string) :
  String.prefix (p1 ++ p2)%string s = true -> String.prefix p1 s = true.
Proof.
  revert s. induction p1 as [| c p1 IH]; intros s.
  - destruct s; reflexivity.
  - destruct s as [| a s]; cbn [String.prefix String.append]; [discriminate |].
    destruct (ascii_dec c a); [apply IH | discriminate].
Qed.

Lemma startsWith_test_slash (s : string) :
  startsWith s "test/" = true -> startsWith s "test" = true.
Proof. apply (prefix_app "test" "/"). Qed.

Lemma enclosingFunctionIdentifier_filePath (E : MatchResult) (enclosing : FunctionCallIdentifier) :
  enclosingFunctionIdentifier E = Ok enclosing -> fci_filePath enclosing = m_path E.
Proof.
  unfold enclosingFunctionIdentifier.
  destruct (identifier (m_node E)); simpl; [| discriminate].
  destruct (determineScope (m_parents E)); simpl; [| discriminate].
  now intros [= <-].
Qed.

(** The shape of what a call site contributes. *)
Lemma consequencesOfFunctionCall_shape (requirement : AddParameter) (E : MatchResult)
    (c : Consequences) :
  consequencesOfFunctionCall requirement E = Ok c ->
  (startsWith (m_path E) "test" = true /\ c = emptyConsequences)
  \/ (startsWith (m_path E) "test" = false
      /\ exists enclosing value,
          enclosingFunctionIdentifier E = Ok enclosing
          /\ concomitantChanges c
             = [PassArgumentRequirement enclosing
                  (functionWithAdditionalParameter requirement) value
                  (WhyRequirement (AddParameter_req requirement))]
          /\ (prerequisiteChanges c = []
              \/ exists w,
                  prerequisiteChanges c
                  = [AddParameterRequirement enclosing (parameterType requirement)
                       (parameterName requirement) (populateInTests requirement) w])).
Proof.
  unfold consequencesOfFunctionCall.
  destruct (startsWith (m_path E) "test") eqn:Htest.
  - intros [= <-]. now left.
  - destruct (identifier (m_node E)); simpl; [| discriminate].
    destruct (suitableParameterMatches _ E) as [| x rest];
      destruct (enclosingFunctionIdentifier E) as [enclosing |] eqn:Henc;
      simpl; try discriminate; intros [= <-]; right; (split; [reflexivity |]);
      exists enclosing; eexists; (split; [reflexivity |]); (split; [reflexivity |]).
    + right. eexists. reflexivity.
    + left. reflexivity.
Qed.

(** Splits a run of the planner into the call sites' consequences [src]
    and the global ones. *)
Ltac planner_stages Hfind src Hsrc :=
  unfold AddParameterRequirement.findConsequencesOfAddParameter in Hfind;
  match type of Hfind with
  | bind (fold_left ?g ?ms ?a) _ = _ =>
      destruct (fold_left g ms a) as [src |] eqn:Hsrc; simpl in Hfind; [| discriminate]
  end;
  injection Hfind as <-.

Section Gathering.

Variable requirement : AddParameter.

(** The reducer of [findConsequencesOfAddParameter]. *)
Let gather (cc : Result Consequences) (functionCallMatch : MatchResult) : Result Consequences :=
  sofar <- cc ;;
  these <- consequencesOfFunctionCall requirement functionCallMatch ;;
  Ok (combineConsequences sofar these).

Lemma gather_throw (matches : list MatchResult) (msg : string) :
  fold_left gather matches (Throw msg) = Throw msg.
Proof. induction matches; simpl; auto. Qed.

(** Every requirement gathered comes from the start value or from one of the
    call sites. *)
Lemma gather_from (matches : list MatchResult) (acc c : Consequences) :
  fold_left gather matches (Ok acc) = Ok c ->
  (forall r, In r (concomitantChanges c) ->
     In r (concomitantChanges acc)
     \/ exists m c', In m matches
                     /\ consequencesOfFunctionCall requirement m = Ok c'
                     /\ In r (concomitantChanges c'))
  /\ (forall r, In r (prerequisiteChanges c) ->
     In r (prerequisiteChanges acc)
     \/ exists m c', In m matches
                     /\ consequencesOfFunctionCall requirement m = Ok c'
                     /\ In r (prerequisiteChanges c')).
Proof.
  revert acc. induction matches as [| m matches IH]; intros acc; simpl.
  - intros [= <-]. split; auto.
  - destruct (consequencesOfFunctionCall requirement m) as [c' |] eqn:Hm; simpl.
    + intros H. destruct (IH _ H) as [IHc IHp]. split; intros r Hr.
      * destruct (IHc r Hr) as [Hin | (m' & c'' & ? & ? & ?)].
        -- simpl in Hin. apply in_app_or in Hin as [? | ?]; [now left |].
           right. exists m, c'. auto.
        -- right. exists m', c''. auto.
      * destruct (IHp r Hr) as [Hin | (m' & c'' & ? & ? & ?)].
        -- simpl in Hin. apply in_app_or in Hin as [? | ?]; [now left |].
           right. exists m, c'. auto.
        -- right. exists m', c''. auto.
    + rewrite gather_throw. discriminate.
Qed.

End Gathering.

(** C8, as stated, fails: a call site in tests/f.ts contributes nothing,
    and its path does not start with [test/]. *)
Lemma call_site_under_tests_is_skipped :
  consequencesOfFunctionCall
    (Examples.addContextTo (Examples.thinger PublicFunctionAccess))
    (Examples.iShouldChange "tests/f.ts")
  = Ok emptyConsequences
  /\ startsWith (m_path (Examples.iShouldChange "tests/f.ts")) "test/" = false.
Proof. split; reflexivity. Qed.

(** C8, amended.  A call site contributes no consequences exactly when the
    path of its file starts with [test] (the directory test/, and tests/,
    testing/ and the like as well); no Pass Argument that the planner finds
    for an Add Parameter has an enclosing function in such a file, in
    particular none under test/. *)
Theorem call_site_skipped_iff_path_starts_with_test :
  (forall (requirement : AddParameter) (E : MatchResult),
      consequencesOfFunctionCall requirement E = Ok emptyConsequences
      <-> startsWith (m_path E) "test" = true)
  /\ (forall (project : Project) (requirement : AddParameter) (c : Consequences)
             (enclosing fn : FunctionCallIdentifier) (value : string) (w : Why),
      AddParameterRequirement.findConsequencesOfAddParameter project requirement = Ok c ->
      In (PassArgumentRequirement enclosing fn value w)
         (concomitantChanges c ++ prerequisiteChanges c) ->
      startsWith (fci_filePath enclosing) "test" = false
      /\ startsWith (fci_filePath enclosing) "test/" = false).
Proof.
  split.
  - intros requirement E. split.
    + intros H. destruct (consequencesOfFunctionCall_shape _ _ _ H)
        as [[Ht _] | (_ & enclosing & value & _ & Hc & _)]; [exact Ht | discriminate Hc].
    + intros H. unfold consequencesOfFunctionCall. now rewrite H.
  - intros project requirement c enclosing fn value w Hfind Hin.
    assert (Hno : startsWith (fci_filePath enclosing) "test" = false).
    { planner_stages Hfind src Hsrc.
      destruct (gather_from requirement _ _ _ Hsrc) as [Hc Hp].
      simpl in Hin. rewrite !in_app_iff in Hin.
      destruct Hin as [[Hin | [Hin | Hin]] | [Hin | [Hin | Hin]]].
      - destruct (Hc _ Hin) as [Hf | (m & c' & _ & Hm & Hr)]; [contradiction |].
        destruct (consequencesOfFunctionCall_shape _ _ _ Hm)
          as [[_ ->] | (Ht & e & v & He & Hcc & _)]; [contradiction |].
        rewrite Hcc in Hr. destruct Hr as [Hr | Hr]; [| contradiction].
        injection Hr as <- _ _ _.
        now rewrite (enclosingFunctionIdentifier_filePath _ _ He).
      - destruct (isPublicFunctionAccess _) in Hin; simpl in Hin;
          [destruct Hin as [Hin | Hin]; [discriminate | contradiction] | contradiction].
      - destruct Hin as [Hin | Hin]; [discriminate | contradiction].
      - destruct (Hp _ Hin) as [Hf | (m & c' & _ & Hm & Hr)]; [contradiction |].
        destruct (consequencesOfFunctionCall_shape _ _ _ Hm)
          as [[_ ->] | (Ht & e & v & He & _ & [Hpp | (w' & Hpp)])];
          [contradiction | rewrite Hpp in Hr; contradiction |].
        rewrite Hpp in Hr. destruct Hr as [Hr | Hr]; [discriminate | contradiction].
      - destruct (isPublicFunctionAccess _) in Hin; simpl in Hin; contradiction.
      - contradiction. }
    split; [exact Hno |].
    destruct (startsWith (fci_filePath enclosing) "test/") eqn:Hs; [| reflexivity].
    apply startsWith_test_slash in Hs. congruence.
Qed.

(** ** Global consequences: test dummies and migrations *)

Lemma filter_none {A : Type} (f : A -> bool) (l : list A) :
  (forall x, In x l -> f x = false) -> filter f l = [].
Proof.
  induction l as [| a l IH]; simpl; intros H; [reflexivity |].
  rewrite (H a (or_introl eq_refl)). apply IH. intros x Hx. apply H. now right.
Qed.

(** Call sites contribute Pass Arguments and Add Parameters only. *)
Lemma call_sites_contribute (project : Project) (requirement : AddParameter)
    (matches : list MatchResult) (src : Consequences) :
  fold_left (fun cc functionCallMatch =>
               sofar <- cc ;;
               these <- consequencesOfFunctionCall requirement functionCallMatch ;;
               Ok (combineConsequences sofar these))
            matches (Ok emptyConsequences) = Ok src ->
  (forall r, In r (concomitantChanges src) -> isPassArgumentRequirement r = true)
  /\ (forall r, In r (prerequisiteChanges src) -> isAddParameterRequirement r = true).
Proof.
  intros Hsrc. destruct (gather_from requirement _ _ _ Hsrc) as [Hc Hp].
  split; intros r Hr.
  - destruct (Hc r Hr) as [Hf | (m & c' & _ & Hm & Hin)]; [contradiction |].
    destruct (consequencesOfFunctionCall_shape _ _ _ Hm)
      as [[_ ->] | (_ & e & v & _ & Hcc & _)]; [contradiction |].
    rewrite Hcc in Hin. destruct Hin as [<- | Hin]; [reflexivity | contradiction].
  - destruct (Hp r Hr) as [Hf | (m & c' & _ & Hm & Hin)]; [contradiction |].
    destruct (consequencesOfFunctionCall_shape _ _ _ Hm)
      as [[_ ->] | (_ & e & v & _ & _ & [Hpp | (w & Hpp)])];
      [contradiction | rewrite Hpp in Hin; contradiction |].
    rewrite Hpp in Hin. destruct Hin as [<- | Hin]; [reflexivity | contradiction].
Qed.

(** The migrations among the consequences of an Add Parameter, whatever the
    access of its target. *)
Lemma migrations_of_findConsequences (project : Project) (requirement : AddParameter)
    (c : Consequences) :
  AddParameterRequirement.findConsequencesOfAddParameter project requirement = Ok c ->
  filter isAddMigrationRequirement (concomitantChanges c ++ prerequisiteChanges c)
  = [AddParameterRequirement.newAddMigrationRequirement requirement
       (AddParameter_req requirement)].
Proof.
  intros Hfind. planner_stages Hfind src Hsrc.
  destruct (call_sites_contribute project requirement _ _ Hsrc) as [Hc Hp].
  simpl. rewrite !filter_app, !app_nil_r.
  rewrite (filter_none _ (concomitantChanges src)),
          (filter_none _ (prerequisiteChanges src)).
  - destruct (isPublicFunctionAccess _); reflexivity.
  - intros r Hr. specialize (Hp r Hr). now destruct r.
  - intros r Hr. specialize (Hc r Hr). now destruct r.
Qed.

(** C1.  The planner emits an Add Migration for every Add Parameter, also
    when the target is private: for the private [thinger] of the test "Does
    not request a migration for a private function" the consequences are
    exactly one Add Migration.  A root with [PublicMethodAccess] gets no Pass
    Dummy In Tests, the gate being [isPublicFunctionAccess]. *)
Theorem private_target_gets_migration :
  AddParameterRequirement.findConsequencesOfAddParameter Examples.noCallers
    (Examples.addContextTo (Examples.thinger PrivateFunctionAccess))
  = Ok {| concomitantChanges :=
            [AddMigrationRequirement
               (AddParameterRequirement (Examples.thinger PrivateFunctionAccess)
                  (Library "HandlerContext" "@atomist/automation-client") "context"
                  {| dummyValue := "{}"; additionalImport := None |} WhyUndefined)
               (WhyRequirement
                  (AddParameter_req
                     (Examples.addContextTo (Examples.thinger PrivateFunctionAccess))))];
          prerequisiteChanges := [] |}
  /\ (forall project requirement c,
        AddParameterRequirement.findConsequencesOfAddParameter project requirement = Ok c ->
        existsb isAddMigrationRequirement (concomitantChanges c) = true)
  /\ (forall project requirement c,
        fci_access (functionWithAdditionalParameter requirement) = PublicMethodAccess ->
        AddParameterRequirement.findConsequencesOfAddParameter project requirement = Ok c ->
        existsb isPassDummyInTests (concomitantChanges c ++ prerequisiteChanges c) = false).
Proof.
  split; [reflexivity | split].
  - intros project requirement c Hfind.
    planner_stages Hfind src Hsrc. simpl. rewrite !existsb_app. simpl.
    now rewrite !orb_true_r.
  - intros project requirement c Haccess Hfind.
    planner_stages Hfind src Hsrc.
    destruct (call_sites_contribute project requirement _ _ Hsrc) as [Hc Hp].
    rewrite Haccess. simpl. rewrite app_nil_r, !existsb_app. simpl.
    assert (Hsc : existsb isPassDummyInTests (concomitantChanges src) = false).
    { apply not_true_is_false. intros H. apply existsb_exists in H as (r & Hr & Hd).
      specialize (Hc r Hr). destruct r; discriminate. }
    assert (Hsp : existsb isPassDummyInTests (prerequisiteChanges src) = false).
    { apply not_true_is_false. intros H. apply existsb_exists in H as (r & Hr & Hd).
      specialize (Hp r Hr). destruct r; discriminate. }
    now rewrite Hsc, Hsp.
Qed.

(** C3.  For a public target the consequences of the root, which are the
    requirements of its changeset next to the root itself, hold exactly one
    Add Migration; its downstream requirement is the root, and when the root's
    parameter type is [Local] with an [externalPath] the downstream parameter
    type is the [Library] import located at that path. *)
Theorem public_target_gets_one_migration :
  forall (project : Project) (requirement : AddParameter) (c : Consequences),
    isPublic (fci_access (functionWithAdditionalParameter requirement)) = true ->
    AddParameterRequirement.findConsequencesOfAddParameter project requirement = Ok c ->
    exists downstream,
      filter isAddMigrationRequirement (concomitantChanges c ++ prerequisiteChanges c)
      = [AddMigrationRequirement downstream (WhyRequirement (AddParameter_req requirement))]
      /\ In (AddMigrationRequirement downstream
               (WhyRequirement (AddParameter_req requirement)))
            (concomitantChanges c)
      /\ (forall name localPath externalPath,
            parameterType requirement = Local name localPath (Some externalPath) ->
            downstream
            = AddParameterRequirement (functionWithAdditionalParameter requirement)
                (Library name externalPath) (parameterName requirement)
                (populateInTests requirement) (why requirement)).
Proof.
  intros project requirement c _ Hfind.
  eexists. split; [exact (migrations_of_findConsequences _ _ _ Hfind) | split].
  - planner_stages Hfind src Hsrc. simpl. rewrite !in_app_iff. right. right. now left.
  - intros name localPath externalPath Htype. now rewrite Htype.
Qed.

Lemma public_target_gets_one_migration_witness :
  exists downstream,
    filter isAddMigrationRequirement
      [AddParameterRequirement.newAddMigrationRequirement
         (Examples.addContextTo (Examples.thinger PublicFunctionAccess))
         (AddParameter_req (Examples.addContextTo (Examples.thinger PublicFunctionAccess)))]
    = [AddMigrationRequirement downstream
         (WhyRequirement
            (AddParameter_req
               (Examples.addContextTo (Examples.thinger PublicFunctionAccess))))]
    /\ downstream
       = AddParameterRequirement (Examples.thinger PublicFunctionAccess)
           (Library "HandlerContext" "@atomist/automation-client") "context"
           {| dummyValue := "{}"; additionalImport := None |} WhyUndefined.
Proof.
  destruct (public_target_gets_one_migration Examples.noCallers
              (Examples.addContextTo (Examples.thinger PublicFunctionAccess))
              _ eq_refl eq_refl) as (downstream & Hone & _ & Hlib).
  exists downstream. split.
  - simpl in Hone. injection Hone as <-. reflexivity.
  - exact (Hlib _ _ _ eq_refl).
Defined.

(** ** Implementing Add Parameter and Pass Argument *)

Lemma requireExactlyOne_throws (m : list MatchResult) (msg : string) :
  length m <> 1 -> requireExactlyOne m msg = Throw msg.
Proof.
  destruct m as [| one [| two rest]]; simpl; intros H; try reflexivity.
  now contradiction H.
Qed.

Lemma rewriteOpenParens_throws (text : string) (matches : list MatchResult)
    (call : MatchResult) :
  In call matches ->
  length (step "OpenParenToken" call) <> 1 ->
  exists ws, rewriteOpenParens text matches = (Throw "wtf where is open paren", ws).
Proof.
  intros Hin Hbad. induction matches as [| m matches IH]; [contradiction |].
  simpl. destruct (requireExactlyOne (step "OpenParenToken" m) _) as [paren | msg] eqn:Hm.
  - destruct Hin as [-> | Hin].
    + rewrite (requireExactlyOne_throws _ _ Hbad) in Hm. discriminate.
    + destruct (IH Hin) as (ws & ->). eauto.
  - destruct (step "OpenParenToken" m) as [| one [| two rest]];
      simpl in Hm; try discriminate; injection Hm as <-; eauto.
Qed.

(** What [addParameter] reports, and that its only assignments besides the
    open parenthesis are those of [addImport]. *)
Lemma addParameter_reports (project : Project) (requirement : AddParameter)
    (importAdded : bool) (ws : list Write) :
  let fn := functionWithAdditionalParameter requirement in
  let matches := findMatches project (fci_filePath fn) (functionDeclarationPathExpression fn) in
  AddImport.addImport project (fci_filePath fn) (parameterType requirement)
    = (Ok importAdded, ws) ->
  (matches = [] ->
   addParameter project requirement
   = (Ok (reportUnimplemented (AddParameter_req requirement)
            "Function declaration not found"), ws))
  /\ (1 < length matches ->
      addParameter project requirement
      = (Ok (reportUnimplemented (AddParameter_req requirement)
               "More than one function declaration matched. I'm confused."), ws))
  /\ (forall report ws',
        addParameter project requirement = (Ok report, ws') ->
        ws' <> ws ->
        exists functionDeclaration openParen,
          matches = [functionDeclaration]
          /\ step "OpenParenToken" functionDeclaration = [openParen]
          /\ report = reportImplemented (AddParameter_req requirement)
          /\ ws' = ws ++ [setValue openParen
                            ("(" ++ parameterName requirement ++ ": "
                               ++ import_name (parameterType requirement) ++ ", ")%string]).
Proof.
  intros fn matches Himport. unfold addParameter. fold fn. rewrite Himport. fold matches.
  repeat split.
  - intros ->. reflexivity.
  - destruct matches as [| one [| two rest]]; simpl; intros H; try lia. reflexivity.
  - intros report ws'. destruct matches as [| one [| two rest]].
    + intros [= <- <-] H. now contradiction H.
    + destruct (step "OpenParenToken" one) as [| paren [| ? ?]] eqn:Hparen; simpl;
        try discriminate.
      intros [= <- <-] _. exists one, paren. repeat split. now rewrite Hparen.
    + intros [= <- <-] H. now contradiction H.
Qed.

(** C9.  A declaration matched alone, or a matched call expression, that
    does not have exactly one [OpenParenToken] child makes the executor throw
    "wtf where is open paren"; no report is returned, so nothing is recorded
    as unimplemented. *)
Theorem missing_open_paren_throws :
  (forall (project : Project) (requirement : AddParameter) (importAdded : bool)
          (ws : list Write) (functionDeclaration : MatchResult),
      AddImport.addImport project
        (fci_filePath (functionWithAdditionalParameter requirement))
        (parameterType requirement) = (Ok importAdded, ws) ->
      findMatches project (fci_filePath (functionWithAdditionalParameter requirement))
        (functionDeclarationPathExpression (functionWithAdditionalParameter requirement))
      = [functionDeclaration] ->
      length (step "OpenParenToken" functionDeclaration) <> 1 ->
      addParameter project requirement = (Throw "wtf where is open paren", ws))
  /\ (forall (project : Project) (requirement : PassArgument) (call : MatchResult),
      In call
         (findMatches project (fci_filePath (pa_enclosingFunction requirement))
            (functionDeclarationPathExpression (pa_enclosingFunction requirement)
               ++ functionCallPathExpression
                    (pa_functionWithAdditionalParameter requirement))%string) ->
      length (step "OpenParenToken" call) <> 1 ->
      exists ws, passArgument project requirement = (Throw "wtf where is open paren", ws)).
Proof.
  split.
  - intros project requirement importAdded ws functionDeclaration Himport Hone Hbad.
    unfold addParameter. rewrite Himport, Hone.
    now rewrite (requireExactlyOne_throws _ _ Hbad).
  - intros project requirement call Hin Hbad.
    unfold passArgument, applyPassArgument.
    destruct (findMatches _ _ _) as [| m matches] eqn:Hmatches; [contradiction |].
    destruct (rewriteOpenParens_throws
                ("(" ++ pa_argumentValue requirement ++ ", ")%string (m :: matches)
                call Hin Hbad) as (ws & ->).
    now exists ws.
Qed.

Lemma missing_open_paren_throws_witness :
  addParameter Examples.noParenProject Examples.addContextToPriv
  = (Throw "wtf where is open paren", []).
Proof.
  refine (proj1 missing_open_paren_throws Examples.noParenProject
            Examples.addContextToPriv false [] Examples.noParen eq_refl eq_refl _).
  simpl. discriminate.
Defined.

(** C6.  [addParameter] reports "Function declaration not found" when no
    declaration matches and "More than one function declaration matched"
    when several do, but it has added the import by then.  On src/thinger.ts,
    which has no function [gone] and no import, and on src/over.ts, where
    three declarations of [priv] match, the requirement is reported
    unimplemented and the file's text is assigned with the import statement
    in front.  (The reports are as claimed, and the only other assignment is
    the open parenthesis of a single matched declaration:
    [addParameter_reports].) *)
Theorem unimplemented_addParameter_has_added_import :
  let requirement :=
    Examples.addContextTo
      {| fci_enclosingScope := None; fci_name := "gone";
         fci_filePath := "src/thinger.ts"; fci_access := PrivateFunctionAccess |} in
  (findMatches Examples.thingerProject "src/thinger.ts"
     (functionDeclarationPathExpression (functionWithAdditionalParameter requirement)) = []
   /\ addParameter Examples.thingerProject requirement
      = (Ok (reportUnimplemented (AddParameter_req requirement)
               "Function declaration not found"),
         [ mkWrite "src/thinger.ts" []
             ("import { HandlerContext } from " ++ quote ++ "../HandlerContext.ts"
                ++ quote ++ ";" ++ newline
                ++ "export function thinger() { return 0; }")%string ]))
  /\ (length (findMatches Examples.overloadedProject "src/over.ts"
                (functionDeclarationPathExpression
                   (functionWithAdditionalParameter Examples.addContextToOverloaded))) = 3
      /\ addParameter Examples.overloadedProject Examples.addContextToOverloaded
         = (Ok (reportUnimplemented (AddParameter_req Examples.addContextToOverloaded)
                  "More than one function declaration matched. I'm confused."),
            [ mkWrite "src/over.ts" []
                ("import { HandlerContext } from " ++ quote
                   ++ "@atomist/automation-client" ++ quote ++ ";" ++ newline
                   ++ "function priv(); function priv(); function priv() {}")%string ])).
Proof. repeat split; reflexivity. Qed.

(** ** The import manager *)

Import ParsedFile.

Lemma TreeNode_induction (P : TreeNode -> Prop) :
  (forall name value children, Forall P children -> P (Node name value children)) ->
  forall t, P t.
Proof.
  intros H. fix IH 1. intros [name value children]. apply H.
  induction children as [| c children IHc]; constructor; [apply IH | exact IHc].
Qed.

Lemma nodes_of_located (path : string) (addr : list nat) (parents cs : list TreeNode) :
  forall i, map m_node (locateFrom path addr parents i cs) = cs.
Proof. induction cs as [| c cs IH]; intros i; simpl; [reflexivity | now rewrite IH]. Qed.

(** The located descendants are the descendants, each with a place. *)
Lemma nodes_of_descendants (t : TreeNode) :
  forall path addr parents,
    map m_node (descendantsFrom path addr parents t) = nodesBelow t.
Proof.
  induction t as [name value children IH] using TreeNode_induction.
  intros path addr parents. simpl. rewrite map_app, nodes_of_located. f_equal.
  generalize (Node name value children :: parents) as ps.
  generalize 0 as i.
  induction IH as [| c children Hc _ IHcs]; intros i ps; simpl; [reflexivity |].
  rewrite map_app, Hc, IHcs. reflexivity.
Qed.

Lemma nodes_of_descend (nm : string) (m : MatchResult) :
  map m_node (descend nm m) = filter (fun n => t_name n =? nm)%string (nodesBelow (m_node m)).
Proof.
  unfold descend, descendantMatches.
  rewrite <- (nodes_of_descendants (m_node m) (m_path m) (m_addr m) (m_parents m)).
  induction (descendantsFrom _ _ _ _) as [| x l IH]; simpl; [reflexivity |].
  destruct (t_name (m_node x) =? nm)%string; simpl; now rewrite IH.
Qed.

Lemma importsName_descend (name : string) (d : MatchResult) :
  existsb (valueIs name) (descend "Identifier" d) = importsName name (m_node d).
Proof.
  unfold importsName.
  assert (H : forall l : list MatchResult,
             existsb (valueIs name) l
             = existsb (fun i => t_value i =? name)%string (map m_node l)).
  { induction l as [| x l IH]; simpl; [reflexivity |]. now rewrite IH. }
  rewrite H, nodes_of_descend.
  induction (nodesBelow (m_node d)) as [| x l IH]; simpl; [reflexivity |].
  destruct (t_name x =? "Identifier")%string; simpl; now rewrite IH.
Qed.

(** The name is not imported exactly when no import declaration has it
    below. *)
Lemma existingImport_nil (source : MatchResult) (name : string) :
  AddImport.existingImport source name = [] <->
  forall d, In d (descend "ImportDeclaration" source) -> importsName name (m_node d) = false.
Proof.
  unfold AddImport.existingImport. split.
  - intros Hnil d Hd. rewrite <- importsName_descend.
    apply not_true_is_false. intros Hex.
    apply existsb_exists in Hex as (i & Hi & Hv).
    assert (Hin : In i (filter (valueIs name)
                          (flat_map (descend "Identifier")
                             (descend "ImportDeclaration" source)))).
    { apply filter_In. split; [| exact Hv]. apply in_flat_map. now exists d. }
    rewrite Hnil in Hin. contradiction.
  - intros H. apply filter_none. intros i Hi.
    apply in_flat_map in Hi as (d & Hd & Hi).
    specialize (H d Hd). rewrite <- importsName_descend in H.
    apply not_true_is_false. intros Hv.
    assert (Hex : existsb (valueIs name) (descend "Identifier" d) = true).
    { apply existsb_exists. now exists i. }
    congruence.
Qed.

(** The name is imported exactly when some import declaration of the file
    has an identifier of that value below it. *)
Lemma existingImport_some (source : MatchResult) (name : string) :
  AddImport.existingImport source name <> [] <->
  exists d, In d (descend "ImportDeclaration" source) /\ importsName name (m_node d) = true.
Proof.
  split.
  - intros Hsome.
    destruct (AddImport.existingImport source name) as [| i others] eqn:Hex;
      [now contradiction Hsome |].
    assert (Hin : In i (AddImport.existingImport source name)) by (rewrite Hex; now left).
    unfold AddImport.existingImport in Hin. apply filter_In in Hin as [Hin Hv].
    apply in_flat_map in Hin as (d & Hd & Hi).
    exists d. split; [exact Hd |]. rewrite <- importsName_descend.
    apply existsb_exists. now exists i.
  - intros (d & Hd & Himports) Hnil. rewrite existingImport_nil in Hnil.
    specialize (Hnil d Hd). congruence.
Qed.

(** An import declaration below the file that has the name below it makes
    the name an existing import. *)
Lemma existingImport_of_node (path : string) (t d : TreeNode) (name : string) :
  In d (nodesBelow t) ->
  t_name d = "ImportDeclaration" ->
  importsName name d = true ->
  AddImport.existingImport (sourceFile path t) name <> [].
Proof.
  intros Hd Hname Himports. apply existingImport_some.
  assert (Hin : In d (map m_node (descend "ImportDeclaration" (sourceFile path t)))).
  { rewrite nodes_of_descend. apply filter_In. split; [exact Hd |].
    now apply String.eqb_eq. }
  apply in_map_iff in Hin as (dm & <- & Hdm). now exists dm.
Qed.

Lemma replaceFirstBrace_without (s replacement : string) :
  hasBrace s = false -> replaceFirstBrace s replacement = s.
Proof.
  unfold replaceFirstBrace. generalize EmptyString as before.
  induction s as [| c s IH]; intros before; simpl; [reflexivity |].
  destruct (Ascii.eqb c "{"); simpl; [discriminate |].
  intros H. now rewrite IH.
Qed.

(** A replacement without a pattern is taken as it is. *)
Lemma expandReplacement_plain (replacement before matched after : string) :
  hasReplacementPattern replacement = false ->
  expandReplacement replacement before matched after = replacement.
Proof.
  induction replacement as [| c tail IH]; [reflexivity |].
  cbn [hasReplacementPattern expandReplacement].
  intros H. apply orb_false_iff in H as [Hhere Htail].
  destruct (Ascii.eqb c "$"); [| now rewrite IH].
  destruct tail as [| d rest]; [reflexivity |].
  simpl in Hhere. apply orb_false_iff in Hhere as [Hhere Hquote].
  apply orb_false_iff in Hhere as [Hhere Hback].
  apply orb_false_iff in Hhere as [Hdollar Hamp].
  rewrite Hdollar, Hamp, Hback, Hquote. now rewrite IH.
Qed.

Lemma hasReplacementPattern_brace_name (name : string) :
  hasReplacementPattern ("{ " ++ name ++ ",")%string = hasReplacementPattern name.
Proof.
  change (hasReplacementPattern ("{ " ++ name ++ ",")%string)
    with (hasReplacementPattern (name ++ ",")%string).
  induction name as [| c tail IH]; [reflexivity |].
  change (hasReplacementPattern (String c tail ++ ",")%string)
    with ((Ascii.eqb c "$"
           && match (tail ++ ",")%string with
              | String d _ =>
                  Ascii.eqb d "$" || Ascii.eqb d "&" || Ascii.eqb d "`" || Ascii.eqb d "'"
              | EmptyString => false
              end)
          || hasReplacementPattern (tail ++ ",")%string).
  rewrite IH. cbn [hasReplacementPattern].
  destruct tail as [| d rest]; [| reflexivity].
  simpl. now rewrite andb_false_r.
Qed.



(** Merging into an import with braces: the name goes after the brace. *)
Example merged_into_braces :
  AddImport.addImportTo (sourceFile "src/f.ts" Examples.loggerImportFile) "src/f.ts"
    Examples.HandlerContext
  = (true,
     [mkWrite "src/f.ts" [0; 0]
        (Examples.importText "{ HandlerContext, logger }" "@atomist/automation-client")]).
Proof. reflexivity. Qed.

(** A name with [$$] is written with one dollar. *)
Example dollar_name_is_written_with_one_dollar :
  AddImport.addImportTo (sourceFile "src/f.ts" Examples.loggerImportFile) "src/f.ts"
    (Library "$$" "@atomist/automation-client")
  = (true,
     [mkWrite "src/f.ts" [0; 0]
        (Examples.importText "{ $, logger }" "@atomist/automation-client")]).
Proof. reflexivity. Qed.

(** ** The work-list planner terminates and plans nothing twice *)

Lemma sameFunctionIdentifier_eq (a b : Editor.FunctionIdentifier) :
  Editor.sameFunctionIdentifier a b = true <-> a = b.
Proof.
  unfold Editor.sameFunctionIdentifier. destruct a as [n1 p1], b as [n2 p2]. simpl.
  rewrite andb_true_iff, !String.eqb_eq. split.
  - now intros [-> ->].
  - now intros [= -> ->].
Qed.

Lemma sameRequirement_key (a b : Editor.Requirement) :
  Editor.sameRequirement a b = true <-> Editor.keyOf a = Editor.keyOf b.
Proof.
  unfold Editor.sameRequirement, Editor.keyOf.
  rewrite !andb_true_iff, sameFunctionIdentifier_eq, String.eqb_eq. split.
  - intros [[[Hk Hf] _] He].
    destruct a, b; simpl in *; try discriminate; try (now rewrite Hf).
    apply sameFunctionIdentifier_eq in He. now subst.
  - intros [= Hk Hf He]. repeat split.
    + rewrite Hk. now destruct (Editor.kind b).
    + exact Hf.
    + now rewrite Hf.
    + destruct a, b; simpl in *; try discriminate; try reflexivity.
      apply sameFunctionIdentifier_eq. now injection He.
Qed.

Lemma sameRequirement_ignores_why (w : Editor.Why) (a b : Editor.Requirement) :
  Editor.sameRequirement (Editor.withWhy w a) b = Editor.sameRequirement a b
  /\ Editor.sameRequirement a (Editor.withWhy w b) = Editor.sameRequirement a b.
Proof. split; destruct a, b; reflexivity. Qed.

Lemma pop_last {A : Type} (l : list A) :
  match Editor.pop l with
  | None => l = []
  | Some (x, rest) => l = rest ++ [x]
  end.
Proof.
  unfold Editor.pop. destruct (rev l) as [| x r] eqn:Hrev.
  - rewrite <- (rev_involutive l), Hrev. reflexivity.
  - rewrite <- (rev_involutive l), Hrev. reflexivity.
Qed.

Lemma functionsOf_withWhy (w : Editor.Why) (c : Editor.Requirement) :
  Editor.functionsOf (Editor.withWhy w c) = Editor.functionsOf c.
Proof. now destruct c. Qed.

Section WorkList.

Variable project : Project.

Lemma identifier_declared (E : MatchResult) (n : string) :
  In E (p_nodes project) ->
  identifier (m_node E) = Ok n ->
  In (Editor.mkFunctionIdentifier n (m_path E)) (Editor.declared project).
Proof.
  intros HE Hn. unfold Editor.declared. apply in_flat_map. exists E.
  split; [exact HE |]. rewrite Hn. now left.
Qed.

Lemma consequencesWithin_bound (fn : Editor.FunctionIdentifier) (ty : ImportIdentifier)
    (nm dv : string) (E : MatchResult) (cs : list Editor.Requirement) :
  In E (p_nodes project) ->
  Editor.consequencesWithin fn ty nm dv E = Ok cs ->
  length cs <= 2
  /\ forall c, In c cs ->
       incl (Editor.functionsOf c) (fn :: Editor.declared project).
Proof.
  intros HE. unfold Editor.consequencesWithin.
  destruct (identifier (m_node E)) as [n |] eqn:Hn; simpl; [| discriminate].
  pose proof (identifier_declared E n HE Hn) as Hdecl.
  destruct (suitableParameterMatches _ E); intros [= <-]; simpl; split; try lia;
    intros c Hc f Hf;
    repeat match goal with
           | H : _ \/ _ |- _ => destruct H
           | H : False |- _ => contradiction
           end; subst; simpl in *;
    repeat match goal with
           | H : _ \/ _ |- _ => destruct H
           | H : False |- _ => contradiction
           end; subst; auto.
Qed.

Lemma flatMap_bound {A B : Type} (f : A -> Result (list B)) (P : B -> Prop)
    (l : list A) (out : list B) :
  (forall x ys, In x l -> f x = Ok ys -> length ys <= 2 /\ forall y, In y ys -> P y) ->
  Editor.flatMap f l = Ok out ->
  length out <= 2 * length l /\ forall y, In y out -> P y.
Proof.
  revert out. induction l as [| x l IH]; intros out Hf; simpl.
  - intros [= <-]. split; [simpl; lia | contradiction].
  - destruct (f x) as [ys |] eqn:Hx; simpl; [| discriminate].
    destruct (Editor.flatMap f l) as [zs |]; simpl; [| discriminate].
    intros [= <-].
    destruct (Hf x ys (or_introl eq_refl) Hx) as [Hlen Hys].
    destruct (IH zs (fun x' ys' Hin => Hf x' ys' (or_intror Hin)) eq_refl) as [Hlen' Hzs].
    rewrite length_app. split; [lia |].
    intros y Hy. apply in_app_or in Hy as [? | ?]; auto.
Qed.

Lemma findConsequencesOfOne_bound (r : Editor.Requirement) (cs : list Editor.Requirement) :
  Editor.findConsequencesOfOne project r = Ok cs ->
  length cs <= 2 * length (p_nodes project) + 1
  /\ forall c, In c cs ->
       incl (Editor.functionsOf c) (Editor.functionsOf r ++ Editor.declared project).
Proof.
  destruct r as [fn ty nm dv w | fn dv w | e fn v w]; simpl;
    try (intros [= <-]; split; [simpl; lia | contradiction]).
  unfold Editor.findConsequencesOfAddParameter.
  destruct (Editor.flatMap _ _) as [src |] eqn:Hsrc; simpl; [| discriminate].
  intros [= <-].
  apply (flatMap_bound _
           (fun c => incl (Editor.functionsOf c) (fn :: Editor.declared project)))
    in Hsrc.
  - destruct Hsrc as [Hlen Hsrc]. rewrite length_map, length_app. simpl. split.
    + unfold findMatches in Hlen.
      pose proof (filter_length_le
                    (p_selects project "src/**/*.ts"
                       ("//FunctionDeclaration["
                          ++ Editor.functionCallPathExpression (Editor.name fn) ++ "]")%string)
                    (p_nodes project)).
      lia.
    + intros c Hc. apply in_map_iff in Hc as (c0 & <- & Hc0).
      rewrite functionsOf_withWhy.
      apply in_app_or in Hc0 as [Hc0 | [<- | []]]; [now apply Hsrc |].
      intros f [<- | []]. now left.
  - intros E ys HE. apply consequencesWithin_bound.
    unfold findMatches in HE. now apply filter_In in HE.
Qed.

End WorkList.

Lemma key_in_keysOver (fs : list Editor.FunctionIdentifier) (r : Editor.Requirement) :
  incl (Editor.functionsOf r) fs -> In (Editor.keyOf r) (Editor.keysOver fs).
Proof.
  intros Hfs. unfold Editor.keyOf, Editor.keysOver.
  assert (Hfn : In (Editor.functionWithAdditionalParameter r) fs)
    by (apply Hfs; now left).
  apply in_prod; [apply in_prod |].
  - destruct (Editor.kind r); simpl; auto.
  - exact Hfn.
  - destruct r as [? ? ? ? ? | ? ? ? | e ? ? ?]; simpl; try now left.
    right. apply in_map. apply Hfs. simpl. auto.
Qed.

Lemma distinct_keys_distinct_requirements (planned : list Editor.Requirement) :
  NoDup (map Editor.keyOf planned) ->
  ForallOrdPairs (fun a b => Editor.sameRequirement a b = false) planned.
Proof.
  induction planned as [| a planned IH]; simpl; intros Hnd; [constructor |].
  apply NoDup_cons_iff in Hnd as [Ha Hnd]. constructor; [| now apply IH].
  apply Forall_forall. intros b Hb. apply not_true_is_false. intros Hsame.
  apply sameRequirement_key in Hsame. apply Ha. rewrite Hsame. now apply in_map.
Qed.

(** With requirements about the functions [fs] only, which include the
    project's declarations, the planner returns within
    [length unchecked + (keys left) * (2 * nodes + 2)] calls, and what it has
    planned has pairwise different keys. *)
Lemma findConsequences_returns (project : Project) (fs : list Editor.FunctionIdentifier) :
  incl (Editor.declared project) fs ->
  forall (fuel : nat) (unchecked checked : list Editor.Requirement),
    (forall r, In r (unchecked ++ checked) -> incl (Editor.functionsOf r) fs) ->
    NoDup (map Editor.keyOf checked) ->
    length unchecked
      + (length (Editor.keysOver fs) - length checked)
        * (2 * length (p_nodes project) + 2) <= fuel ->
    exists outcome,
      Editor.findConsequences fuel project unchecked checked = Some outcome
      /\ forall planned, outcome = Ok planned -> NoDup (map Editor.keyOf planned).
Proof.
  intros Hdecl fuel.
  induction fuel as [| fuel IH]; intros unchecked checked Hfs Hnd Hfuel.
  - pose proof (pop_last unchecked) as Hpop. simpl.
    destruct (Editor.pop unchecked) as [[thisOne rest] |].
    + subst unchecked. rewrite length_app in Hfuel. cbn [length] in Hfuel.
      set (left := _ * _) in Hfuel. lia.
    + exists (Ok checked). split; [reflexivity |]. now intros planned [= <-].
  - pose proof (pop_last unchecked) as Hpop. simpl.
    destruct (Editor.pop unchecked) as [[thisOne rest] |].
    2: { exists (Ok checked). split; [reflexivity |]. now intros planned [= <-]. }
    subst unchecked. rewrite length_app in Hfuel. cbn [length] in Hfuel.
    destruct (existsb (fun o => Editor.sameRequirement o thisOne) checked) eqn:Hdup.
    + apply IH; [| exact Hnd | set (left := _ * _) in *; lia].
      intros r Hr. apply Hfs. rewrite !in_app_iff in *. tauto.
    + destruct (Editor.findConsequencesOfOne project thisOne) as [theseReqs | msg] eqn:Hone.
      2: { exists (Throw msg). split; [reflexivity | discriminate]. }
      destruct (findConsequencesOfOne_bound project thisOne theseReqs Hone)
        as [Hlen Hthese].
      assert (Hthis : incl (Editor.functionsOf thisOne) fs).
      { apply Hfs. rewrite !in_app_iff. left. right. now left. }
      assert (Hnd' : NoDup (map Editor.keyOf (checked ++ [thisOne]))).
      { rewrite map_app. apply NoDup_app; [exact Hnd | repeat constructor; auto |].
        intros k Hk [<- | []]. apply in_map_iff in Hk as (o & Hko & Ho).
        apply sameRequirement_key in Hko.
        assert (Hex : existsb (fun o => Editor.sameRequirement o thisOne) checked = true)
          by (apply existsb_exists; now exists o).
        congruence. }
      assert (Hroom : length (checked ++ [thisOne]) <= length (Editor.keysOver fs)).
      { rewrite <- (length_map Editor.keyOf). apply NoDup_incl_length; [exact Hnd' |].
        intros k Hk. apply in_map_iff in Hk as (o & <- & Ho).
        apply key_in_keysOver. apply in_app_or in Ho as [Ho | [<- | []]];
          [| exact Hthis].
        apply Hfs. rewrite !in_app_iff. now right. }
      rewrite length_app in Hroom. cbn [length] in Hroom.
      apply IH; [| exact Hnd' |].
      * intros r Hr. rewrite !in_app_iff in Hr.
        destruct Hr as [[Hr | Hr] | [Hr | Hr]].
        -- apply Hfs. rewrite !in_app_iff. tauto.
        -- intros f Hf. specialize (Hthese r Hr f Hf).
           apply in_app_or in Hthese as [? | ?]; auto.
        -- apply Hfs. rewrite !in_app_iff. tauto.
        -- destruct Hr as [<- | []]. exact Hthis.
      * rewrite !length_app. cbn [length].
        remember (length (Editor.keysOver fs)) as K.
        remember (length checked) as n.
        remember (2 * length (p_nodes project) + 2) as c.
        replace (K - n) with (S (K - (n + 1))) in Hfuel by lia.
        rewrite Nat.mul_succ_l in Hfuel.
        set (left := _ * c) in *. lia.
Qed.

(** C4.  For every project and every root the work-list planner returns:
    with [enoughFuel] calls or more, [findConsequences] ends (with the plan,
    or with the error of a declaration that has no identifier).  No two
    requirements of the plan are the same requirement: before a requirement is
    expanded it is compared with those already planned and dropped when one of
    them is the same, and the comparison does not look at [why]. *)
Theorem findConsequences_terminates_without_duplicates :
  forall (project : Project) (root : Editor.Requirement) (more : nat),
    (exists outcome,
        Editor.findConsequences (Editor.enoughFuel project root + more) project [root] []
        = Some outcome
        /\ forall planned,
            outcome = Ok planned ->
            ForallOrdPairs (fun a b => Editor.sameRequirement a b = false) planned)
    /\ (forall (fuel : nat) (unchecked checked : list Editor.Requirement)
               (thisOne : Editor.Requirement),
          existsb (fun o => Editor.sameRequirement o thisOne) checked = true ->
          Editor.findConsequences (S fuel) project (unchecked ++ [thisOne]) checked
          = Editor.findConsequences fuel project unchecked checked)
    /\ (forall (w : Editor.Why) (a b : Editor.Requirement),
          Editor.sameRequirement (Editor.withWhy w a) b = Editor.sameRequirement a b
          /\ Editor.sameRequirement a (Editor.withWhy w b) = Editor.sameRequirement a b).
Proof.
  intros project root more. split; [| split].
  - destruct (findConsequences_returns project
                (Editor.functionsOf root ++ Editor.declared project)
                (fun f Hf => in_or_app _ _ f (or_intror Hf))
                (Editor.enoughFuel project root + more) [root] [])
      as (outcome & Hrun & Hkeys).
    + intros r [<- | []] f Hf. apply in_or_app. now left.
    + constructor.
    + unfold Editor.enoughFuel. simpl length. lia.
    + exists outcome. split; [exact Hrun |].
      intros planned Hplanned. apply distinct_keys_distinct_requirements.
      now apply Hkeys.
  - intros fuel unchecked checked thisOne Hdup. simpl.
    unfold Editor.pop. rewrite rev_app_distr. simpl. rewrite rev_involutive.
    now rewrite Hdup.
  - intros w a b. apply sameRequirement_ignores_why.
Qed.

(** Two functions that call each other: each gets its parameter, its dummy
    in the tests and the argument at its call, once; the Add Parameter that
    comes back to [ping] is dropped. *)
Example mutual_recursion_is_planned_once :
  let ping := Editor.mkFunctionIdentifier "ping" "src/loop.ts" in
  let pong := Editor.mkFunctionIdentifier "pong" "src/loop.ts" in
  option_map
    (fun outcome => match outcome with
                    | Ok planned => Some (map Editor.keyOf planned)
                    | Throw _ => None
                    end)
    (Editor.findConsequences 7 Examples.loopProject [Examples.addContextToPing] [])
  = Some (Some [ (Editor.AddParameterKind, ping, None);
                 (Editor.PassDummyInTestsKind, ping, None);
                 (Editor.PassArgumentKind, ping, Some pong);
                 (Editor.AddParameterKind, pong, None);
                 (Editor.PassDummyInTestsKind, pong, None);
                 (Editor.PassArgumentKind, pong, Some ping) ]).
Proof. reflexivity. Qed.

(** * Further properties *)

(** ** The planner of addParameterImpl.ts: errors *)

Lemma identifier_throws (parent : TreeNode) (msg : string) :
  identifier parent = Throw msg -> msg = TypeError.
Proof.
  unfold identifier. destruct (childrenNamed parent "Identifier"); [| discriminate].
  now intros [= <-].
Qed.

Lemma determineScope_throws (parents : list TreeNode) (msg : string) :
  determineScope parents = Throw msg -> msg = TypeError.
Proof.
  revert msg. induction parents as [| parent above IH]; intros msg; simpl; [discriminate |].
  assert (Hlevel : forall kind,
             (name <- identifier parent ;;
              outer <- determineScope above ;;
              Ok (Some (Scope kind name true outer))) = Throw msg -> msg = TypeError).
  { intros kind. destruct (identifier parent) as [n | m] eqn:Hid; simpl.
    - destruct (determineScope above) as [outer | m]; simpl; [discriminate |].
      intros [= <-]. now apply IH.
    - intros [= <-]. now apply identifier_throws in Hid. }
  destruct (t_name parent =? "ClassDeclaration")%string; [apply Hlevel |].
  destruct ((t_name parent =? "ModuleDeclaration")%string && isNamespaceModule parent);
    [apply Hlevel | apply IH].
Qed.

Lemma enclosingFunctionIdentifier_throws (E : MatchResult) (msg : string) :
  enclosingFunctionIdentifier E = Throw msg -> msg = TypeError.
Proof.
  unfold enclosingFunctionIdentifier.
  destruct (identifier (m_node E)) as [n | m] eqn:Hid; simpl.
  - destruct (determineScope (m_parents E)) as [s | m] eqn:Hs; simpl; [discriminate |].
    intros [= <-]. now apply determineScope_throws in Hs.
  - intros [= <-]. now apply identifier_throws in Hid.
Qed.

Lemma enclosingFunctionIdentifier_unnamed (E : MatchResult) (msg : string) :
  identifier (m_node E) = Throw msg -> enclosingFunctionIdentifier E = Throw msg.
Proof. unfold enclosingFunctionIdentifier. now intros ->. Qed.

(** What a call site contributes, by the identifier of its declaration. *)
Lemma consequencesOfFunctionCall_outside (requirement : AddParameter) (E : MatchResult) :
  startsWith (m_path E) "test" = false ->
  match enclosingFunctionIdentifier E with
  | Throw msg => consequencesOfFunctionCall requirement E = Throw msg
  | Ok enclosing =>
      let pass value :=
        PassArgumentRequirement enclosing (functionWithAdditionalParameter requirement)
          value (WhyRequirement (AddParameter_req requirement)) in
      match suitableParameterMatches (import_name (parameterType requirement)) E with
      | found :: _ =>
          consequencesOfFunctionCall requirement E
          = Ok {| concomitantChanges := [pass (t_value (m_node found))];
                  prerequisiteChanges := [] |}
      | [] =>
          consequencesOfFunctionCall requirement E
          = Ok {| concomitantChanges := [pass (parameterName requirement)];
                  prerequisiteChanges :=
                    [AddParameterRequirement enclosing (parameterType requirement)
                       (parameterName requirement) (populateInTests requirement)
                       (WhyRequirement (pass (parameterName requirement)))] |}
      end
  end.
Proof.
  intros Htest. unfold consequencesOfFunctionCall. rewrite Htest.
  destruct (identifier (m_node E)) as [n | msg] eqn:Hid; simpl.
  - destruct (enclosingFunctionIdentifier E) as [enclosing | msg];
      destruct (suitableParameterMatches _ E); reflexivity.
  - now rewrite (enclosingFunctionIdentifier_unnamed E msg Hid).
Qed.

Lemma consequencesOfFunctionCall_ok_iff (requirement : AddParameter) (E : MatchResult) :
  (exists c, consequencesOfFunctionCall requirement E = Ok c) <->
  (outsideTests E = true -> exists enclosing, enclosingFunctionIdentifier E = Ok enclosing).
Proof.
  unfold outsideTests.
  destruct (startsWith (m_path E) "test") eqn:Htest; simpl.
  - split; [discriminate |]. intros _. exists emptyConsequences.
    unfold consequencesOfFunctionCall. now rewrite Htest.
  - pose proof (consequencesOfFunctionCall_outside requirement E Htest) as H.
    destruct (enclosingFunctionIdentifier E) as [enclosing | msg].
    + split; [intros _ _; now exists enclosing |]. intros _.
      destruct (suitableParameterMatches _ E); simpl in H; rewrite H; eauto.
    + rewrite H. split; [intros [c Hc]; discriminate |].
      intros Hok. destruct (Hok eq_refl) as [e He]. discriminate.
Qed.

Lemma consequencesOfFunctionCall_throws (requirement : AddParameter) (E : MatchResult)
    (msg : string) :
  consequencesOfFunctionCall requirement E = Throw msg -> msg = TypeError.
Proof.
  destruct (startsWith (m_path E) "test") eqn:Htest.
  - unfold consequencesOfFunctionCall. rewrite Htest. discriminate.
  - pose proof (consequencesOfFunctionCall_outside requirement E Htest) as H.
    destruct (enclosingFunctionIdentifier E) as [enclosing | m] eqn:He.
    + destruct (suitableParameterMatches _ E); simpl in H; rewrite H; discriminate.
    + rewrite H. intros [= <-]. now apply enclosingFunctionIdentifier_throws in He.
Qed.

(** C2, as stated, fails.  [function caller({ b }: HandlerContext)] has a
    parameter whose type reference is the text of the required type's name,
    yet the planner does not reuse it: the parameter has a binding pattern and
    no identifier, the query for a parameter to pass ends in [/Identifier], and
    [caller] gets a prerequisite Add Parameter. *)
Lemma destructured_parameter_is_not_reused :
  let requirement := Examples.addContextTo (Examples.thinger PublicFunctionAccess) in
  let caller :=
    {| fci_enclosingScope := None; fci_name := "caller";
       fci_filePath := "src/caller.ts"; fci_access := PrivateFunctionAccess |} in
  let pass :=
    PassArgumentRequirement caller (Examples.thinger PublicFunctionAccess) "context"
      (WhyRequirement (AddParameter_req requirement)) in
  startsWith (m_path Examples.destructuringCaller) "test" = false
  /\ existsb (fun p => existsb (valueIs "HandlerContext") (step "TypeReference" p))
       (flat_map (step "Parameter") (step "SyntaxList" Examples.destructuringCaller)) = true
  /\ consequencesOfFunctionCall requirement Examples.destructuringCaller
     = Ok {| concomitantChanges := [pass];
             prerequisiteChanges :=
               [AddParameterRequirement caller Examples.LocalHandlerContext "context"
                  {| dummyValue := "{}"; additionalImport := None |}
                  (WhyRequirement pass)] |}.
Proof. repeat split. Qed.

(** C2, amended.  A call site in a declaration [E] whose path does not start
    with [test].  The parameter that can be passed on is the identifier of a
    parameter of [E] that has an [Identifier] child and a type reference whose
    text is the required type's name.  When [E] has such a parameter, the only
    consequence is a concomitant Pass Argument of the first one's identifier;
    when it has none (no parameter of the type, or only destructured ones) the
    consequences are a prerequisite Add Parameter on [E], with the same type,
    name and test population, and a concomitant Pass Argument of the root's
    parameter name.  When no function identifier can be built for [E] (it, or
    a class or namespace around it, has no [Identifier] child) the planner
    throws a TypeError and emits nothing. *)
Theorem call_site_reuses_named_parameter_or_adds :
  forall (requirement : AddParameter) (E : MatchResult),
    startsWith (m_path E) "test" = false ->
    let typeName := import_name (parameterType requirement) in
    let fn := functionWithAdditionalParameter requirement in
    let root := AddParameter_req requirement in
    (forall x : MatchResult,
        In x (suitableParameterMatches typeName E) <->
        exists parameters p,
          In parameters (step "SyntaxList" E)
          /\ In p (step "Parameter" parameters)
          /\ (exists ty, In ty (step "TypeReference" p)
                         /\ t_value (m_node ty) = typeName)
          /\ In x (step "Identifier" p))
    /\ (forall msg,
          enclosingFunctionIdentifier E = Throw msg ->
          consequencesOfFunctionCall requirement E = Throw msg /\ msg = TypeError)
    /\ (forall enclosing,
          enclosingFunctionIdentifier E = Ok enclosing ->
          (forall x rest,
              suitableParameterMatches typeName E = x :: rest ->
              consequencesOfFunctionCall requirement E
              = Ok {| concomitantChanges :=
                        [PassArgumentRequirement enclosing fn (t_value (m_node x))
                           (WhyRequirement root)];
                      prerequisiteChanges := [] |})
          /\ (suitableParameterMatches typeName E = [] ->
              consequencesOfFunctionCall requirement E
              = Ok {| concomitantChanges :=
                        [PassArgumentRequirement enclosing fn (parameterName requirement)
                           (WhyRequirement root)];
                      prerequisiteChanges :=
                        [AddParameterRequirement enclosing (parameterType requirement)
                           (parameterName requirement) (populateInTests requirement)
                           (WhyRequirement
                              (PassArgumentRequirement enclosing fn
                                 (parameterName requirement) (WhyRequirement root)))] |})).
Proof.
  intros requirement E Htest typeName fn root.
  split; [intros x; apply in_suitableParameterMatches |].
  pose proof (consequencesOfFunctionCall_outside requirement E Htest) as H.
  split.
  - intros msg Hthrow. rewrite Hthrow in H. split; [exact H |].
    now apply enclosingFunctionIdentifier_throws in Hthrow.
  - intros enclosing Henc. rewrite Henc in H. fold typeName in H. split.
    + intros x rest Hx. rewrite Hx in H. exact H.
    + intros Hnone. rewrite Hnone in H. exact H.
Qed.

Lemma call_site_reuses_named_parameter_or_adds_witness :
  consequencesOfFunctionCall
    (Examples.addContextTo (Examples.thinger PrivateMethodAccess)) Examples.otherThinger
  = Ok {| concomitantChanges :=
            [PassArgumentRequirement
               {| fci_enclosingScope := Some (Scope ClassAroundMethod "Classy" true None);
                  fci_name := "otherThinger";
                  fci_filePath := "src/Classy.ts";
                  fci_access := PrivateFunctionAccess |}
               (Examples.thinger PrivateMethodAccess) "ctx"
               (WhyRequirement
                  (AddParameter_req
                     (Examples.addContextTo (Examples.thinger PrivateMethodAccess))))];
          prerequisiteChanges := [] |}.
Proof.
  refine (proj1 (proj2 (proj2 (call_site_reuses_named_parameter_or_adds
                                 (Examples.addContextTo (Examples.thinger PrivateMethodAccess))
                                 Examples.otherThinger eq_refl))
                   _ eq_refl) _ _ eq_refl).
Defined.

Section CallSiteConsequences.

Variable requirement : AddParameter.

Let gathering (cc : Result Consequences) (functionCallMatch : MatchResult)
  : Result Consequences :=
  sofar <- cc ;;
  these <- consequencesOfFunctionCall requirement functionCallMatch ;;
  Ok (combineConsequences sofar these).

Let concomitantOf (E : MatchResult) : list Requirement :=
  match consequencesOfFunctionCall requirement E with
  | Ok c => concomitantChanges c
  | Throw _ => []
  end.

Let prerequisiteOf (E : MatchResult) : list Requirement :=
  match consequencesOfFunctionCall requirement E with
  | Ok c => prerequisiteChanges c
  | Throw _ => []
  end.

Lemma gathering_throws (matches : list MatchResult) (msg : string) :
  fold_left gathering matches (Throw msg) = Throw msg.
Proof. induction matches; simpl; auto. Qed.

(** The consequences gathered are those of the call sites, in order. *)
Lemma gathered (matches : list MatchResult) (acc c : Consequences) :
  fold_left gathering matches (Ok acc) = Ok c ->
  Forall (fun E => exists c', consequencesOfFunctionCall requirement E = Ok c') matches
  /\ concomitantChanges c = concomitantChanges acc ++ flat_map concomitantOf matches
  /\ prerequisiteChanges c = prerequisiteChanges acc ++ flat_map prerequisiteOf matches.
Proof.
  revert acc. induction matches as [| E matches IH]; intros acc; simpl.
  - intros [= <-]. rewrite !app_nil_r. auto.
  - destruct (consequencesOfFunctionCall requirement E) as [c' |] eqn:HE; simpl.
    + intros H. apply IH in H as (Hall & Hc & Hp). split; [constructor; eauto |].
      simpl in Hc, Hp. unfold concomitantOf, prerequisiteOf.
      rewrite Hc, Hp, HE, <- !app_assoc. auto.
    + rewrite gathering_throws. discriminate.
Qed.

Lemma gathering_returns (matches : list MatchResult) (acc : Consequences) :
  Forall (fun E => exists c', consequencesOfFunctionCall requirement E = Ok c') matches ->
  exists c, fold_left gathering matches (Ok acc) = Ok c.
Proof.
  intros Hall. revert acc. induction Hall as [| E matches [c' HE] _ IH]; intros acc; simpl.
  - now exists acc.
  - rewrite HE. simpl. apply IH.
Qed.

Lemma gathering_error (matches : list MatchResult) (acc : Consequences) (msg : string) :
  fold_left gathering matches (Ok acc) = Throw msg -> msg = TypeError.
Proof.
  revert acc. induction matches as [| E matches IH]; intros acc; simpl; [discriminate |].
  destruct (consequencesOfFunctionCall requirement E) as [c' | m] eqn:HE; simpl.
  - apply IH.
  - rewrite gathering_throws. intros [= <-].
    now apply consequencesOfFunctionCall_throws in HE.
Qed.

End CallSiteConsequences.

(** Splits a run of the planner of addParameterImpl.ts into the call sites'
    consequences [src] and the global ones. *)
Ltac impl_planner_stages Hfind src Hsrc :=
  unfold findConsequencesOfAddParameter in Hfind;
  change (findMatches ?p (globFromAccess ?fn) _) with (callSites p fn) in Hfind;
  match type of Hfind with
  | bind (fold_left ?g ?ms ?a) _ = _ =>
      destruct (fold_left g ms a) as [src |] eqn:Hsrc; simpl in Hfind; [| discriminate]
  end;
  injection Hfind as <-.

(** X1.  The planner returns consequences exactly when every declaration it
    finds with a call of the function, outside the tests, yields a function
    identifier: it has an [Identifier] child, and so has every class and
    namespace around it.  Otherwise it throws, and what it throws is the
    TypeError of reading [$value] of a missing identifier. *)
Theorem planner_returns_iff_call_sites_are_named :
  forall (project : Project) (requirement : AddParameter),
    let fn := functionWithAdditionalParameter requirement in
    ((exists c, findConsequencesOfAddParameter project requirement = Ok c) <->
     (forall E, In E (callSites project fn) -> outsideTests E = true ->
                exists enclosing, enclosingFunctionIdentifier E = Ok enclosing))
    /\ (forall msg,
          findConsequencesOfAddParameter project requirement = Throw msg ->
          msg = TypeError).
Proof.
  intros project requirement fn. split; [split |].
  - intros [c Hfind] E HE. impl_planner_stages Hfind src Hsrc.
    apply gathered in Hsrc as (Hall & _). rewrite Forall_forall in Hall.
    apply (proj1 (consequencesOfFunctionCall_ok_iff requirement E)). now apply Hall.
  - intros Hnamed.
    destruct (gathering_returns requirement (callSites project fn) emptyConsequences)
      as [src Hsrc].
    { apply Forall_forall. intros E HE.
      apply consequencesOfFunctionCall_ok_iff. now apply Hnamed. }
    unfold findConsequencesOfAddParameter.
    change (findMatches project (globFromAccess ?f) _) with (callSites project f).
    fold fn. simpl in Hsrc. rewrite Hsrc. simpl. eauto.
  - intros msg. unfold findConsequencesOfAddParameter.
    match goal with
    | |- bind (fold_left ?g ?ms ?a) _ = _ -> _ =>
        destruct (fold_left g ms a) as [src | m] eqn:Hsrc; simpl; [discriminate |]
    end.
    intros [= <-]. now apply gathering_error in Hsrc.
Qed.

(** ** The planner of addParameterImpl.ts: what it emits *)

(** X2.  Among the consequences of an Add Parameter there is a Pass Dummy In
    Tests, with the root's dummy value and additional import, exactly when the
    target's access is [PublicFunctionAccess] (a public method gets none); and
    this planner never asks for a migration. *)
Theorem test_dummies_for_exported_functions_only :
  forall (project : Project) (requirement : AddParameter) (c : Consequences),
    findConsequencesOfAddParameter project requirement = Ok c ->
    let fn := functionWithAdditionalParameter requirement in
    filter isPassDummyInTests (concomitantChanges c ++ prerequisiteChanges c)
    = (if isPublicFunctionAccess (fci_access fn)
       then [PassDummyInTestsRequirement fn (dummyValue (populateInTests requirement))
               (additionalImport (populateInTests requirement)) WhyUndefined]
       else [])
    /\ filter isAddMigrationRequirement (concomitantChanges c ++ prerequisiteChanges c) = [].
Proof.
  intros project requirement c Hfind fn.
  impl_planner_stages Hfind src Hsrc.
  destruct (call_sites_contribute project requirement _ _ Hsrc) as [Hc Hp].
  fold fn. simpl. rewrite !filter_app.
  assert (Hnone : forall f : Requirement -> bool,
             (forall r, isPassArgumentRequirement r = true -> f r = false) ->
             (forall r, isAddParameterRequirement r = true -> f r = false) ->
             filter f (concomitantChanges src) = [] /\ filter f (prerequisiteChanges src) = []).
  { intros f Hpass Hadd. split; apply filter_none; intros r Hr; auto. }
  destruct (Hnone isPassDummyInTests) as [-> ->];
    [now intros [] | now intros [] |].
  destruct (Hnone isAddMigrationRequirement) as [-> ->];
    [now intros [] | now intros [] |].
  destruct (isPublicFunctionAccess (fci_access fn)); split; reflexivity.
Qed.

Lemma test_dummies_for_exported_functions_only_witness :
  filter isPassDummyInTests
    ([PassDummyInTestsRequirement (Examples.thinger PublicFunctionAccess) "{}" None
        WhyUndefined] ++ [])
  = [PassDummyInTestsRequirement (Examples.thinger PublicFunctionAccess) "{}" None
       WhyUndefined]
  /\ filter isPassDummyInTests
       (concomitantChanges emptyConsequences ++ prerequisiteChanges emptyConsequences) = [].
Proof.
  split.
  - exact (proj1 (test_dummies_for_exported_functions_only Examples.noCallers
                    (Examples.addContextTo (Examples.thinger PublicFunctionAccess))
                    _ eq_refl)).
  - exact (proj1 (test_dummies_for_exported_functions_only Examples.noCallers
                    (Examples.addContextTo (Examples.thinger PrivateMethodAccess))
                    _ eq_refl)).
Defined.

(** What a call site that yields consequences contributes: nothing in the
    tests; outside them one Pass Argument, and an Add Parameter on the
    enclosing function when no parameter of the type is at hand. *)
Lemma call_site_contribution (requirement : AddParameter) (E : MatchResult)
    (c : Consequences) :
  consequencesOfFunctionCall requirement E = Ok c ->
  let fn := functionWithAdditionalParameter requirement in
  let root := AddParameter_req requirement in
  (outsideTests E = false /\ c = emptyConsequences)
  \/ (outsideTests E = true
      /\ exists enclosing,
          enclosingFunctionIdentifier E = Ok enclosing
          /\ ((exists found rest,
                  suitableParameterMatches (import_name (parameterType requirement)) E
                  = found :: rest
                  /\ c = {| concomitantChanges :=
                              [PassArgumentRequirement enclosing fn (t_value (m_node found))
                                 (WhyRequirement root)];
                            prerequisiteChanges := [] |})
              \/ (suitableParameterMatches (import_name (parameterType requirement)) E = []
                  /\ c = {| concomitantChanges :=
                              [PassArgumentRequirement enclosing fn
                                 (parameterName requirement) (WhyRequirement root)];
                            prerequisiteChanges :=
                              [AddParameterRequirement enclosing (parameterType requirement)
                                 (parameterName requirement) (populateInTests requirement)
                                 (WhyRequirement
                                    (PassArgumentRequirement enclosing fn
                                       (parameterName requirement)
                                       (WhyRequirement root)))] |}))).
Proof.
  intros Hc fn root. unfold outsideTests.
  destruct (startsWith (m_path E) "test") eqn:Htest; simpl.
  - left. split; [reflexivity |].
    unfold consequencesOfFunctionCall in Hc. rewrite Htest in Hc. now injection Hc.
  - right. split; [reflexivity |].
    pose proof (consequencesOfFunctionCall_outside requirement E Htest) as H.
    destruct (enclosingFunctionIdentifier E) as [enclosing | msg]; [| congruence].
    exists enclosing. split; [reflexivity |].
    destruct (suitableParameterMatches _ E) as [| found rest]; simpl in H;
      rewrite H in Hc; injection Hc as <-.
    + right. split; reflexivity.
    + left. exists found, rest. split; reflexivity.
Qed.

(** X3.  Every prerequisite the planner emits is an Add Parameter on the
    declaration around a call, with the root's type, name and test population,
    and the Pass Argument that hands the new parameter on at that call is
    among the concomitant changes.  Conversely every Pass Argument emitted
    either passes a parameter of the required type that the enclosing
    declaration already has, or passes the root's parameter name with the Add
    Parameter on the enclosing declaration as a prerequisite. *)
Theorem prerequisites_pair_with_pass_arguments :
  forall (project : Project) (requirement : AddParameter) (c : Consequences),
    findConsequencesOfAddParameter project requirement = Ok c ->
    let fn := functionWithAdditionalParameter requirement in
    let root := AddParameter_req requirement in
    let pass enclosing value :=
      PassArgumentRequirement enclosing fn value (WhyRequirement root) in
    let receive enclosing :=
      AddParameterRequirement enclosing (parameterType requirement)
        (parameterName requirement) (populateInTests requirement)
        (WhyRequirement (pass enclosing (parameterName requirement))) in
    (forall p, In p (prerequisiteChanges c) ->
       exists enclosing,
         p = receive enclosing
         /\ In (pass enclosing (parameterName requirement)) (concomitantChanges c))
    /\ (forall enclosing target value w,
          In (PassArgumentRequirement enclosing target value w) (concomitantChanges c) ->
          (exists E found,
              In E (callSites project fn)
              /\ enclosingFunctionIdentifier E = Ok enclosing
              /\ In found
                   (suitableParameterMatches (import_name (parameterType requirement)) E)
              /\ value = t_value (m_node found))
          \/ (value = parameterName requirement
              /\ In (receive enclosing) (prerequisiteChanges c))).
Proof.
  intros project requirement c Hfind fn root pass receive.
  impl_planner_stages Hfind src Hsrc.
  apply gathered in Hsrc as (_ & Hc & Hp). simpl in Hc, Hp. fold fn in Hc, Hp.
  split.
  - intros p Hin. simpl in Hin. rewrite in_app_iff in Hin.
    destruct Hin as [Hin | Hin];
      [| destruct (isPublicFunctionAccess _) in Hin; contradiction].
    rewrite Hp in Hin. apply in_flat_map in Hin as (E & HE & Hin).
    destruct (consequencesOfFunctionCall requirement E) as [c' |] eqn:Hc';
      [| contradiction].
    destruct (call_site_contribution _ _ _ Hc')
      as [[_ ->] | (_ & enclosing & _ & [(found & rest & _ & ->) | (_ & ->)])];
      simpl in Hin; try contradiction.
    destruct Hin as [<- | []]. exists enclosing. split; [reflexivity |].
    simpl. rewrite in_app_iff. left. rewrite Hc. apply in_flat_map.
    exists E. split; [exact HE |]. rewrite Hc'. now left.
  - intros enclosing target value w Hin. simpl in Hin. rewrite in_app_iff in Hin.
    destruct Hin as [Hin | Hin].
    2: { destruct (isPublicFunctionAccess _) in Hin; simpl in Hin;
           [destruct Hin as [Hin | []]; discriminate | contradiction]. }
    rewrite Hc in Hin. apply in_flat_map in Hin as (E & HE & Hin).
    destruct (consequencesOfFunctionCall requirement E) as [c' |] eqn:Hc';
      [| contradiction].
    destruct (call_site_contribution _ _ _ Hc')
      as [[_ ->] | (_ & e & He & [(found & rest & Hfound & ->) | (_ & ->)])];
      simpl in Hin; try contradiction.
    + destruct Hin as [[= <- <- <- <-] | []]. left. exists E, found.
      repeat split; auto. rewrite Hfound. now left.
    + destruct Hin as [[= <- <- <- <-] | []]. right. split; [reflexivity |].
      simpl. rewrite in_app_iff. left. rewrite Hp. apply in_flat_map.
      exists E. split; [exact HE |]. rewrite Hc'. now left.
Qed.

Lemma prerequisites_pair_with_pass_arguments_witness :
  let requirement := Examples.addContextTo (Examples.thinger PrivateMethodAccess) in
  let enclosing :=
    {| fci_enclosingScope := None; fci_name := "iShouldChange";
       fci_filePath := "src/funciton.ts"; fci_access := PublicFunctionAccess |} in
  let pass :=
    PassArgumentRequirement enclosing (Examples.thinger PrivateMethodAccess) "context"
      (WhyRequirement (AddParameter_req requirement)) in
  exists c,
    findConsequencesOfAddParameter Examples.callersProject requirement = Ok c
    /\ prerequisiteChanges c
       = [AddParameterRequirement enclosing Examples.LocalHandlerContext "context"
            {| dummyValue := "{}"; additionalImport := None |} (WhyRequirement pass)]
    /\ In pass (concomitantChanges c).
Proof.
  intros requirement enclosing pass.
  eexists. split; [reflexivity |]. split; [reflexivity |].
  destruct (proj1 (prerequisites_pair_with_pass_arguments Examples.callersProject
                     requirement _ eq_refl) _ (or_introl eq_refl))
    as (enclosing' & Heq & Hin).
  injection Heq as <-. exact Hin.
Defined.

Lemma filter_all {A : Type} (f : A -> bool) (l : list A) :
  (forall x, In x l -> f x = true) -> filter f l = l.
Proof.
  induction l as [| a l IH]; simpl; intros H; [reflexivity |].
  rewrite (H a (or_introl eq_refl)), IH; [reflexivity |].
  intros x Hx. apply H. now right.
Qed.

Lemma pass_arguments_of_call_sites (requirement : AddParameter)
    (matches : list MatchResult) :
  Forall (fun E => exists c', consequencesOfFunctionCall requirement E = Ok c') matches ->
  let concomitantOf E :=
    match consequencesOfFunctionCall requirement E with
    | Ok c => concomitantChanges c
    | Throw _ => []
    end in
  let prerequisiteOf E :=
    match consequencesOfFunctionCall requirement E with
    | Ok c => prerequisiteChanges c
    | Throw _ => []
    end in
  Forall2
    (fun E r =>
       exists enclosing value,
         enclosingFunctionIdentifier E = Ok enclosing
         /\ r = PassArgumentRequirement enclosing
                  (functionWithAdditionalParameter requirement) value
                  (WhyRequirement (AddParameter_req requirement)))
    (filter outsideTests matches)
    (flat_map concomitantOf matches)
  /\ length (flat_map prerequisiteOf matches) <= length (filter outsideTests matches).
Proof.
  intros Hall concomitantOf prerequisiteOf.
  induction Hall as [| E matches [c' HE] _ [IHc IHp]]; simpl; [split; [constructor | lia] |].
  unfold concomitantOf at 1, prerequisiteOf at 1. rewrite HE.
  destruct (call_site_contribution _ _ _ HE)
    as [[-> ->] | (-> & enclosing & He & [(found & rest & _ & ->) | (_ & ->)])];
    simpl; (split; [| lia || exact IHp]); try exact IHc;
    constructor; try exact IHc; eauto.
Qed.

(** X4.  The Pass Arguments among the concomitant changes are, in the order
    of the matches, one for each declaration found outside the tests: its
    enclosing function is the identifier of that declaration, its target is
    the root's function and its reason is the root.  There are no more
    prerequisites than such declarations. *)
Theorem one_pass_argument_per_call_site :
  forall (project : Project) (requirement : AddParameter) (c : Consequences),
    findConsequencesOfAddParameter project requirement = Ok c ->
    let fn := functionWithAdditionalParameter requirement in
    Forall2
      (fun E r =>
         exists enclosing value,
           enclosingFunctionIdentifier E = Ok enclosing
           /\ r = PassArgumentRequirement enclosing fn value
                    (WhyRequirement (AddParameter_req requirement)))
      (filter outsideTests (callSites project fn))
      (filter isPassArgumentRequirement (concomitantChanges c))
    /\ length (prerequisiteChanges c) <= length (filter outsideTests (callSites project fn)).
Proof.
  intros project requirement c Hfind fn.
  impl_planner_stages Hfind src Hsrc.
  apply gathered in Hsrc as (Hall & Hc & Hp). simpl in Hc, Hp. fold fn in Hall, Hc, Hp.
  destruct (pass_arguments_of_call_sites requirement _ Hall) as [Hpass Hlen].
  fold fn in Hpass. fold fn. simpl. rewrite filter_app, Hc, Hp, length_app.
  assert (Hglobal : forall g : Consequences,
             g = concomitantChange
                   (PassDummyInTestsRequirement fn (dummyValue (populateInTests requirement))
                      (additionalImport (populateInTests requirement)) WhyUndefined)
             \/ g = emptyConsequences ->
             filter isPassArgumentRequirement (concomitantChanges g) = []
             /\ length (prerequisiteChanges g) = 0).
  { intros g [-> | ->]; split; reflexivity. }
  destruct (Hglobal (if isPublicFunctionAccess (fci_access fn)
                     then concomitantChange
                            (PassDummyInTestsRequirement fn
                               (dummyValue (populateInTests requirement))
                               (additionalImport (populateInTests requirement))
                               WhyUndefined)
                     else emptyConsequences)) as [-> ->];
    [destruct (isPublicFunctionAccess _); auto |].
  rewrite app_nil_r, Nat.add_0_r. split; [| exact Hlen].
  rewrite (filter_all isPassArgumentRequirement); [exact Hpass |].
  clear - Hpass. induction Hpass as [| E r sites rs (e & v & _ & ->) _ IH];
    intros x Hx; [contradiction |].
  destruct Hx as [<- | Hx]; [reflexivity | now apply IH].
Qed.

Lemma one_pass_argument_per_call_site_witness :
  exists c,
    findConsequencesOfAddParameter Examples.callersProject
      (Examples.addContextTo (Examples.thinger PrivateMethodAccess)) = Ok c
    /\ length (filter isPassArgumentRequirement (concomitantChanges c)) = 2
    /\ length (prerequisiteChanges c) <= 2.
Proof.
  eexists. split; [reflexivity |].
  destruct (one_pass_argument_per_call_site Examples.callersProject
              (Examples.addContextTo (Examples.thinger PrivateMethodAccess)) _ eq_refl)
    as [Hpass Hlen].
  split; [| exact Hlen].
  apply Forall2_length in Hpass. rewrite <- Hpass. reflexivity.
Defined.

(** ** Scopes and the path expressions built from them *)

Lemma determineScope_cons (parent : TreeNode) (above : list TreeNode) :
  determineScope (parent :: above)
  = if isScopeNode parent
    then name <- identifier parent ;;
         outer <- determineScope above ;;
         Ok (Some (Scope (scopeKindOf parent) name true outer))
    else determineScope above.
Proof.
  simpl. unfold isScopeNode, scopeKindOf.
  destruct (t_name parent =? "ClassDeclaration")%string; simpl; [reflexivity |].
  destruct ((t_name parent =? "ModuleDeclaration")%string && isNamespaceModule parent);
    reflexivity.
Qed.

Lemma scopeLevels_cons (kind : ScopeKind) (name : string) (exported : bool)
    (outer : option EnclosingScope) :
  scopeLevels (Some (Scope kind name exported outer)) = (kind, name) :: scopeLevels outer.
Proof. now destruct outer. Qed.

(** X5.  [determineScope] returns a scope exactly when every class
    declaration and namespace module above the node has an [Identifier]
    child, and throws a TypeError otherwise.  The scope it returns lists those
    ancestors, nearest first, each with its kind and the value of its first
    identifier; it is [undefined] exactly when there is no such ancestor. *)
Theorem determineScope_lists_classes_and_namespaces :
  forall parents : list TreeNode,
    let scopes := filter isScopeNode parents in
    ((exists s, determineScope parents = Ok s) <->
     Forall (fun p => exists n, identifier p = Ok n) scopes)
    /\ (forall s,
          determineScope parents = Ok s ->
          map (fun p => (scopeKindOf p, identifier p)) scopes
          = map (fun level => (fst level, Ok (snd level))) (scopeLevels s)
          /\ (s = None <-> scopes = []))
    /\ (forall msg, determineScope parents = Throw msg -> msg = TypeError).
Proof.
  intros parents scopes. split; [| split; [| apply determineScope_throws]].
  - subst scopes. induction parents as [| parent above IH].
    + simpl. split; [constructor | intros _; now exists None].
    + rewrite determineScope_cons. simpl filter.
      destruct (isScopeNode parent); [| exact IH].
      destruct (identifier parent) as [n | msg] eqn:Hid; simpl.
      * destruct (determineScope above) as [outer | msg]; simpl.
        -- split; [| eauto]. intros _. constructor; [now exists n |].
           apply IH. now exists outer.
        -- split; [intros [s Hs]; discriminate |].
           intros H. apply Forall_inv_tail, IH in H as [s Hs]. discriminate.
      * split; [intros [s Hs]; discriminate |].
        intros H. apply Forall_inv in H as [n Hn]. congruence.
  - subst scopes. induction parents as [| parent above IH]; intros s.
    + simpl. intros [= <-]. repeat split.
    + rewrite determineScope_cons. simpl filter.
      destruct (isScopeNode parent); [| apply IH].
      destruct (identifier parent) as [n | msg] eqn:Hid; simpl; [| discriminate].
      destruct (determineScope above) as [outer | msg]; simpl; [| discriminate].
      intros [= <-]. destruct (IH outer eq_refl) as [Hlevels _].
      rewrite scopeLevels_cons. simpl. rewrite Hid, Hlevels.
      repeat split; discriminate.
Qed.

Lemma string_append_assoc (a b c : string) :
  ((a ++ b) ++ c = a ++ (b ++ c))%string.
Proof. induction a as [| x a IH]; simpl; [reflexivity | now rewrite IH]. Qed.

Lemma concat_snoc (sep : string) (l : list string) (x : string) :
  l <> [] -> String.concat sep (l ++ [x]) = (String.concat sep l ++ sep ++ x)%string.
Proof.
  induction l as [| a l IH]; intros Hne; [now contradiction Hne |].
  destruct l as [| b l]; [reflexivity |].
  change (String.concat sep ((a :: b :: l) ++ [x]))
    with (a ++ sep ++ String.concat sep ((b :: l) ++ [x]))%string.
  rewrite IH by discriminate.
  change (String.concat sep (a :: b :: l))
    with (a ++ sep ++ String.concat sep (b :: l))%string.
  now rewrite !string_append_assoc.
Qed.

Lemma scopeLevelsFrom_not_empty (s : EnclosingScope) : rev (map snd (scopeLevelsFrom s)) <> [].
Proof.
  destruct s as [kind name exported outer]. simpl.
  intros H. apply (f_equal (@length string)) in H.
  rewrite length_app in H. simpl in H. lia.
Qed.

Lemma propertyAccessExpressionFrom_concat :
  forall (s : EnclosingScope) (soFar : string),
    propertyAccessExpressionFrom s soFar
    = (String.concat "." (rev (map snd (scopeLevelsFrom s))) ++ "." ++ soFar)%string.
Proof.
  fix IH 1. intros [kind name exported [above |]] soFar.
  - change (propertyAccessExpressionFrom (Scope kind name exported (Some above)) soFar)
      with (propertyAccessExpressionFrom above (name ++ "." ++ soFar)).
    rewrite IH.
    change (rev (map snd (scopeLevelsFrom (Scope kind name exported (Some above)))))
      with (rev (map snd (scopeLevelsFrom above)) ++ [name]).
    rewrite concat_snoc by apply scopeLevelsFrom_not_empty.
    now rewrite !string_append_assoc.
  - reflexivity.
Qed.

(** X6.  The property access built from a scope is the qualified name of the
    function: the names of its scopes, outermost first, then the function's
    name, joined by dots.  The call sites of a function in a scope that is not
    a private method are searched under that qualified name. *)
Theorem propertyAccessExpression_is_qualified_name :
  (forall (s : option EnclosingScope) (name : string),
      propertyAccessExpression s name
      = String.concat "." (rev (map snd (scopeLevels s)) ++ [name]))
  /\ (forall (fn : FunctionCallIdentifier) (sc : EnclosingScope),
        fci_enclosingScope fn = Some sc ->
        isPrivateMethodAccess (fci_access fn) = false ->
        functionCallPathExpression fn
        = ("//CallExpression[/PropertyAccessExpression[@value='"
             ++ String.concat "." (rev (map snd (scopeLevelsFrom sc)) ++ [fci_name fn])
             ++ "']]")%string).
Proof.
  assert (Hq : forall s name,
             propertyAccessExpression s name
             = String.concat "." (rev (map snd (scopeLevels s)) ++ [name])).
  { intros [sc |] name; [| reflexivity]. simpl.
    rewrite propertyAccessExpressionFrom_concat, concat_snoc
      by apply scopeLevelsFrom_not_empty.
    reflexivity. }
  split; [exact Hq |].
  intros fn sc Hsc Hprivate. unfold functionCallPathExpression.
  rewrite Hprivate, Hsc, Hq. reflexivity.
Qed.

Lemma propertyAccessExpression_is_qualified_name_witness :
  functionCallPathExpression
    {| fci_enclosingScope :=
         Some (Scope ClassAroundMethod "Classy" true
                 (Some (Scope EnclosingNamespace "Spacey" true None)));
       fci_name := "thinger"; fci_filePath := "src/Classy.ts";
       fci_access := PublicFunctionAccess |}
  = "//CallExpression[/PropertyAccessExpression[@value='Spacey.Classy.thinger']]"%string.
Proof.
  exact (proj2 propertyAccessExpression_is_qualified_name
           {| fci_enclosingScope :=
                Some (Scope ClassAroundMethod "Classy" true
                        (Some (Scope EnclosingNamespace "Spacey" true None)));
              fci_name := "thinger"; fci_filePath := "src/Classy.ts";
              fci_access := PublicFunctionAccess |}
           _ eq_refl eq_refl).
Defined.

(** ** The path guessed by the tests and the path the executor builds *)

(** How a node of the hierarchy is printed. *)
Lemma printMatchHierarchy_prints (m : TreeNode) (parents hierarchy : list TreeNode) :
  EditorTest.printMatchHierarchy m parents hierarchy
  = flat_map
      (fun tn =>
         match identifier tn with
         | Ok value => [(t_name tn ++ "[/Identifier[@value='" ++ value ++ "']]")%string]
         | Throw _ => []
         end)
      (hierarchy ++ m :: parents).
Proof.
  revert m hierarchy. induction parents as [| parent above IH]; intros m hierarchy.
  - simpl. unfold compact. rewrite flat_map_concat_map, map_map, <- flat_map_concat_map.
    apply flat_map_ext. intros tn. unfold identifier, childrenNamed.
    induction (t_children tn) as [| c cs IHc]; simpl; [reflexivity |].
    destruct (t_name c =? "Identifier")%string; [| exact IHc].
    now destruct (t_name tn).
  - simpl. rewrite IH, <- app_assoc. reflexivity.
Qed.

Lemma unnamed_print_nothing (l : list TreeNode) :
  Forall (fun p => identifier p = Throw TypeError) l ->
  flat_map
    (fun tn =>
       match identifier tn with
       | Ok value => [(t_name tn ++ "[/Identifier[@value='" ++ value ++ "']]")%string]
       | Throw _ => []
       end) l = [].
Proof.
  induction 1 as [| p l Hp _ IH]; cbn [flat_map]; [reflexivity |]. now rewrite Hp, IH.
Qed.

Lemma determineScope_above_unnamed (below rest : list TreeNode) (s : option EnclosingScope) :
  Forall (fun p => identifier p = Throw TypeError) below ->
  determineScope (below ++ rest) = Ok s -> determineScope rest = Ok s.
Proof.
  induction 1 as [| p below Hp _ IH]; [auto |].
  rewrite <- app_comm_cons, determineScope_cons, Hp.
  destruct (isScopeNode p); [discriminate | exact IH].
Qed.

Lemma determineScope_unnamed (parents : list TreeNode) (s : option EnclosingScope) :
  Forall (fun p => identifier p = Throw TypeError) parents ->
  determineScope parents = Ok s -> s = None.
Proof.
  intros Hun Hs. rewrite <- (app_nil_r parents) in Hs.
  apply (determineScope_above_unnamed _ _ _ Hun) in Hs. now injection Hs.
Qed.

(** X7.  The path expression that the tests guess from a matched node
    ([guessPathExpression]) is the one the executor builds from the function
    identifier inferred at that node ([functionDeclarationPathExpression]), in
    two cases: a function declaration with no ancestor that has an identifier,
    and a method declaration whose only ancestor with an identifier is a class
    declaration. *)
Theorem guessPathExpression_is_declaration_path :
  forall (tn : MatchResult) (fn : FunctionCallIdentifier),
    enclosingFunctionIdentifier tn = Ok fn ->
    let unnamed := Forall (fun p => identifier p = Throw TypeError) in
    (unnamed (m_parents tn) ->
     t_name (m_node tn) = "FunctionDeclaration"%string ->
     EditorTest.guessPathExpression tn = functionDeclarationPathExpression fn)
    /\ (forall below class above,
          m_parents tn = below ++ class :: above ->
          unnamed below -> unnamed above ->
          t_name class = "ClassDeclaration"%string ->
          t_name (m_node tn) = "MethodDeclaration"%string ->
          EditorTest.guessPathExpression tn = functionDeclarationPathExpression fn).
Proof.
  intros tn fn Hfn unnamed. unfold enclosingFunctionIdentifier in Hfn.
  destruct (identifier (m_node tn)) as [n |] eqn:Hn; simpl in Hfn; [| discriminate].
  destruct (determineScope (m_parents tn)) as [s |] eqn:Hs; simpl in Hfn; [| discriminate].
  injection Hfn as <-.
  unfold EditorTest.guessPathExpression, functionDeclarationPathExpression.
  rewrite printMatchHierarchy_prints. cbn [app flat_map]. rewrite Hn.
  split.
  - intros Hun Hname. rewrite (unnamed_print_nothing _ Hun), Hname.
    rewrite (determineScope_unnamed _ _ Hun Hs). reflexivity.
  - intros below class above Hparents Hbelow Habove Hclass Hname.
    rewrite Hparents in Hs. apply (determineScope_above_unnamed _ _ _ Hbelow) in Hs.
    rewrite determineScope_cons in Hs. unfold isScopeNode, scopeKindOf in Hs.
    rewrite Hclass in Hs. simpl in Hs.
    destruct (identifier class) as [c |] eqn:Hc; simpl in Hs; [| discriminate].
    destruct (determineScope above) as [outer |] eqn:Houter; simpl in Hs; [| discriminate].
    injection Hs as <-. apply (determineScope_unnamed _ _ Habove) in Houter. subst outer.
    rewrite Hparents, flat_map_app. cbn [flat_map].
    rewrite (unnamed_print_nothing _ Hbelow), (unnamed_print_nothing _ Habove).
    rewrite Hc, Hclass, Hname. reflexivity.
Qed.

Lemma guessPathExpression_is_declaration_path_witness :
  EditorTest.guessPathExpression Examples.otherThinger
  = ("//ClassDeclaration[/Identifier[@value='Classy']]"
       ++ "//MethodDeclaration[/Identifier[@value='otherThinger']]")%string
  /\ EditorTest.guessPathExpression (Examples.iShouldChange "src/funciton.ts")
     = "//FunctionDeclaration[/Identifier[@value='iShouldChange']]"%string.
Proof.
  split.
  - refine (proj2 (guessPathExpression_is_declaration_path Examples.otherThinger _ eq_refl)
              [Node "SyntaxList" EmptyString []] _
              [Node "SyntaxList" EmptyString []; Node "SourceFile" EmptyString []]
              eq_refl _ _ eq_refl eq_refl);
      repeat constructor.
  - refine (proj1 (guessPathExpression_is_declaration_path
                     (Examples.iShouldChange "src/funciton.ts") _ eq_refl) _ eq_refl).
    repeat constructor.
Defined.

(** ** The executor: Pass Argument and Add Parameter *)

Lemma rewriteOpenParens_all (text : string) (matches parens : list MatchResult) :
  Forall2 (fun call paren => step "OpenParenToken" call = [paren]) matches parens ->
  rewriteOpenParens text matches = (Ok tt, map (fun paren => setValue paren text) parens).
Proof.
  induction 1 as [| call paren matches parens Hparen _ IH]; simpl; [reflexivity |].
  now rewrite Hparen, IH.
Qed.

(** X8.  [passArgument] with no match for the call inside the enclosing
    function reports the requirement unimplemented ("Function not found") and
    assigns nothing.  When every match has exactly one open parenthesis, each
    of these parentheses is assigned the text of the parenthesis followed by
    the argument and a comma, in the order of the matches, and the requirement
    is reported implemented. *)
Theorem passArgument_rewrites_every_call :
  forall (project : Project) (requirement : PassArgument),
    let matches :=
      findMatches project (fci_filePath (pa_enclosingFunction requirement))
        (functionDeclarationPathExpression (pa_enclosingFunction requirement)
           ++ functionCallPathExpression (pa_functionWithAdditionalParameter requirement))%string in
    (matches = [] ->
     passArgument project requirement
     = (Ok (reportUnimplemented (PassArgument_req requirement) "Function not found"), []))
    /\ (forall parens,
          matches <> [] ->
          Forall2 (fun call paren => step "OpenParenToken" call = [paren]) matches parens ->
          passArgument project requirement
          = (Ok (reportImplemented (PassArgument_req requirement)),
             map (fun paren =>
                    setValue paren ("(" ++ pa_argumentValue requirement ++ ", ")%string)
                 parens)).
Proof.
  intros project requirement matches. unfold passArgument. fold matches. split.
  - intros ->. reflexivity.
  - intros parens Hne Hparens. unfold applyPassArgument.
    destruct matches as [| call others] eqn:Hmatches; [now contradiction Hne |].
    now rewrite (rewriteOpenParens_all _ _ _ Hparens).
Qed.

Lemma rewriteOpenParens_until (text : string) (done parens : list MatchResult)
    (bad : MatchResult) (rest : list MatchResult) :
  Forall2 (fun call paren => step "OpenParenToken" call = [paren]) done parens ->
  length (step "OpenParenToken" bad) <> 1 ->
  rewriteOpenParens text (done ++ bad :: rest)
  = (Throw "wtf where is open paren", map (fun paren => setValue paren text) parens).
Proof.
  intros Hdone Hbad.
  induction Hdone as [| call paren done parens Hparen _ IH]; simpl.
  - now rewrite (requireExactlyOne_throws _ _ Hbad).
  - now rewrite Hparen, IH.
Qed.

(** X17.  [passArgument] is not all-or-nothing: when a match has no single
    open parenthesis, the throw comes after the parentheses of the matches
    before it have been assigned; the matches after it are left alone. *)
Theorem passArgument_assigns_until_it_throws :
  forall (project : Project) (requirement : PassArgument)
         (done parens : list MatchResult) (bad : MatchResult) (rest : list MatchResult),
    findMatches project (fci_filePath (pa_enclosingFunction requirement))
      (functionDeclarationPathExpression (pa_enclosingFunction requirement)
         ++ functionCallPathExpression (pa_functionWithAdditionalParameter requirement))%string
    = done ++ bad :: rest ->
    Forall2 (fun call paren => step "OpenParenToken" call = [paren]) done parens ->
    length (step "OpenParenToken" bad) <> 1 ->
    passArgument project requirement
    = (Throw "wtf where is open paren",
       map (fun paren =>
              setValue paren ("(" ++ pa_argumentValue requirement ++ ", ")%string)
           parens).
Proof.
  intros project requirement done parens bad rest Hmatches Hdone Hbad.
  unfold passArgument, applyPassArgument. rewrite Hmatches.
  rewrite (rewriteOpenParens_until _ _ _ _ _ Hdone Hbad).
  destruct done; reflexivity.
Qed.

Lemma passArgument_assigns_until_it_throws_witness :
  passArgument Examples.halfParenProject Examples.passContextToPriv
  = (Throw "wtf where is open paren", [mkWrite "src/f.ts" [0; 0; 3] "(context, "]).
Proof.
  refine (passArgument_assigns_until_it_throws Examples.halfParenProject
            Examples.passContextToPriv [Examples.iShouldChange "src/f.ts"]
            [mkMatch "src/f.ts" [0; 0; 3] (Examples.leaf "OpenParenToken" "(")
               (m_node (Examples.iShouldChange "src/f.ts") :: Examples.fileAbove)]
            Examples.noParen [] eq_refl _ _).
  - constructor; [reflexivity | constructor].
  - simpl. discriminate.
Defined.

(** X9.  [addParameter] on a file that the project does not have throws a
    TypeError and assigns nothing; it does not report the requirement
    unimplemented.  It reports the requirement implemented exactly when the
    file is there, exactly one declaration matches and that declaration has
    exactly one open parenthesis; the assignments are then those of
    [addImport] followed by the parenthesis, which gets the parameter's name
    and type. *)
Theorem addParameter_implemented_iff :
  forall (project : Project) (requirement : AddParameter),
    let fn := functionWithAdditionalParameter requirement in
    let sources := findMatches project (fci_filePath fn) "/SourceFile" in
    let matches :=
      findMatches project (fci_filePath fn) (functionDeclarationPathExpression fn) in
    (sources = [] -> addParameter project requirement = (Throw TypeError, []))
    /\ (forall ws,
          addParameter project requirement
          = (Ok (reportImplemented (AddParameter_req requirement)), ws)
          <-> exists source others functionDeclaration openParen,
                sources = source :: others
                /\ matches = [functionDeclaration]
                /\ step "OpenParenToken" functionDeclaration = [openParen]
                /\ ws = snd (AddImport.addImportTo source (fci_filePath fn)
                               (parameterType requirement))
                        ++ [setValue openParen
                              ("(" ++ parameterName requirement ++ ": "
                                 ++ import_name (parameterType requirement) ++ ", ")%string]).
Proof.
  intros project requirement fn sources matches.
  unfold addParameter, AddImport.addImport. fold fn. fold sources. fold matches.
  split; [intros ->; reflexivity |].
  intros ws. destruct sources as [| source others].
  { split; [discriminate | intros (? & ? & ? & ? & ? & _); discriminate]. }
  destruct (AddImport.addImportTo source (fci_filePath fn) (parameterType requirement))
    as [added imports] eqn:Himport.
  destruct matches as [| functionDeclaration [| second more]].
  - split; [discriminate | intros (? & ? & ? & ? & _ & ? & _); discriminate].
  - destruct (step "OpenParenToken" functionDeclaration) as [| openParen [| ? ?]] eqn:Hparen;
      simpl.
    + split; [discriminate | intros (? & ? & ? & ? & _ & [= <-] & ? & _); congruence].
    + split.
      * intros [= <-]. exists source, others, functionDeclaration, openParen.
        repeat split; [exact Hparen | now rewrite Himport].
      * intros (s & o & d & p & [= <- <-] & [= <-] & Hp & ->).
        rewrite Hparen in Hp. injection Hp as <-. now rewrite Himport.
    + split; [discriminate | intros (? & ? & ? & ? & _ & [= <-] & ? & _); congruence].
  - split; [discriminate | intros (? & ? & ? & ? & _ & ? & _); discriminate].
Qed.

(** ** The import manager: what is written *)

Lemma replaceFirstBraceFrom_splits (s replacement : string) :
  hasBrace s = true ->
  forall before,
    replaceFirstBraceFrom before s replacement
    = (beforeBrace s
         ++ expandReplacement replacement (before ++ beforeBrace s) "{" (afterBrace s)
         ++ afterBrace s)%string
    /\ s = (beforeBrace s ++ "{" ++ afterBrace s)%string
    /\ hasBrace (beforeBrace s) = false.
Proof.
  induction s as [| c s IH]; simpl; [discriminate |].
  destruct (Ascii.eqb c "{") eqn:Hc; simpl; intros Hbrace before.
  - apply Ascii.eqb_eq in Hc. subst c.
    assert (Hnil : forall b : string, (b ++ EmptyString)%string = b).
    { induction b as [| x b IHb]; simpl; [reflexivity | now rewrite IHb]. }
    rewrite Hnil. repeat split.
  - destruct (IH Hbrace (before ++ String c EmptyString)%string) as (Hrep & Hs & Hnone).
    rewrite Hrep, Hc, Hnone, string_append_assoc. simpl.
    repeat split. f_equal. exact Hs.
Qed.

(** X10.  When the name is not imported yet and the file has an import from
    the same location, [addImport] assigns the first such declaration, in the
    order in which the engine lists the descendants of the file (children
    before their descendants), and nothing else, and answers true.  If the
    declaration's text has a brace, the new text is the old one with its first
    brace replaced as [replace] does it, everything else unchanged: for a name
    without a replacement pattern, the name and a comma are put right after
    the brace.  If it has none, the declaration is assigned the text it had. *)
Theorem addImport_merges_after_first_brace :
  forall (source : MatchResult) (path : string) (what : ImportIdentifier)
         (locationImport : MatchResult) (others : list MatchResult),
    AddImport.existingImport source (import_name what) = [] ->
    AddImport.locationImportMatches source (AddImport.importLocation path what)
    = locationImport :: others ->
    let old := t_value (m_node locationImport) in
    (hasBrace old = true ->
     AddImport.addImportTo source path what
     = (true,
        [setValue locationImport
           (beforeBrace old
              ++ expandReplacement ("{ " ++ import_name what ++ ",") (beforeBrace old) "{"
                   (afterBrace old)
              ++ afterBrace old)%string])
     /\ old = (beforeBrace old ++ "{" ++ afterBrace old)%string
     /\ hasBrace (beforeBrace old) = false)
    /\ (hasBrace old = true ->
        hasReplacementPattern (import_name what) = false ->
        AddImport.addImportTo source path what
        = (true,
           [setValue locationImport
              (beforeBrace old ++ "{ " ++ import_name what ++ "," ++ afterBrace old)%string]))
    /\ (hasBrace old = false ->
        AddImport.addImportTo source path what = (true, [setValue locationImport old])).
Proof.
  intros source path what locationImport others Hnone Hlocation old.
  unfold AddImport.addImportTo. rewrite Hnone, Hlocation. fold old.
  assert (Hsplit :
            hasBrace old = true ->
            replaceFirstBrace old ("{ " ++ import_name what ++ ",")%string
            = (beforeBrace old
                 ++ expandReplacement ("{ " ++ import_name what ++ ",") (beforeBrace old) "{"
                      (afterBrace old)
                 ++ afterBrace old)%string
            /\ old = (beforeBrace old ++ "{" ++ afterBrace old)%string
            /\ hasBrace (beforeBrace old) = false).
  { intros Hbrace. unfold replaceFirstBrace.
    exact (replaceFirstBraceFrom_splits old _ Hbrace EmptyString). }
  split; [| split].
  - intros Hbrace. destruct (Hsplit Hbrace) as (-> & Hold & Hbefore). auto.
  - intros Hbrace Hplain. destruct (Hsplit Hbrace) as (-> & _ & _).
    rewrite expandReplacement_plain
      by (now rewrite hasReplacementPattern_brace_name).
    now rewrite !string_append_assoc.
  - intros Hbrace. now rewrite (replaceFirstBrace_without _ _ Hbrace).
Qed.

(** On the file with an import nested in a module declaration and a later
    one among its statements, the one among the statements is assigned. *)
Lemma addImport_merges_after_first_brace_witness :
  AddImport.addImportTo (sourceFile "src/f.ts" Examples.nestedImportFile) "src/f.ts"
    Examples.HandlerContext
  = (true,
     [mkWrite "src/f.ts" [0; 1]
        (Examples.importText "{ HandlerContext, logger }" "@atomist/automation-client")]).
Proof.
  exact (proj1 (proj2 (addImport_merges_after_first_brace
                         (sourceFile "src/f.ts" Examples.nestedImportFile) "src/f.ts"
                         Examples.HandlerContext _ _ eq_refl eq_refl))
           eq_refl eq_refl).
Defined.

(** ** The executor: Pass Dummy In Tests *)







(** ** The first editor: the same requirement, and [distinct] *)

Lemma sameRequirement_refl (a : Editor.Requirement) : Editor.sameRequirement a a = true.
Proof. now apply sameRequirement_key. Qed.

Lemma sameRequirement_sym (a b : Editor.Requirement) :
  Editor.sameRequirement a b = true -> Editor.sameRequirement b a = true.
Proof. intros H. apply sameRequirement_key. symmetry. now apply sameRequirement_key. Qed.

Lemma sameRequirement_trans (a b c : Editor.Requirement) :
  Editor.sameRequirement a b = true ->
  Editor.sameRequirement b c = true ->
  Editor.sameRequirement a c = true.
Proof.
  intros Hab Hbc. apply sameRequirement_key.
  apply sameRequirement_key in Hab, Hbc. congruence.
Qed.

(** X12.  [sameRequirement] is an equivalence: every requirement is the same
    as itself, the comparison does not depend on the order of its arguments
    (although only the first one is asked whether it is a Pass Argument), and
    it is transitive. *)
Theorem sameRequirement_is_an_equivalence :
  (forall a : Editor.Requirement, Editor.sameRequirement a a = true)
  /\ (forall a b : Editor.Requirement,
        Editor.sameRequirement a b = Editor.sameRequirement b a)
  /\ (forall a b c : Editor.Requirement,
        Editor.sameRequirement a b = true ->
        Editor.sameRequirement b c = true ->
        Editor.sameRequirement a c = true).
Proof.
  split; [exact sameRequirement_refl | split; [| exact sameRequirement_trans]].
  intros a b.
  destruct (Editor.sameRequirement a b) eqn:Hab, (Editor.sameRequirement b a) eqn:Hba;
    try reflexivity.
  - apply sameRequirement_sym in Hab. congruence.
  - apply sameRequirement_sym in Hba. congruence.
Qed.

Lemma same_as_one_of (r : Editor.Requirement) (l : list Editor.Requirement) :
  existsb (fun other => Editor.sameRequirement other r) l = true
  <-> In (Editor.keyOf r) (map Editor.keyOf l).
Proof.
  rewrite existsb_exists, in_map_iff. split.
  - intros (o & Ho & Hsame). exists o. split; [now apply sameRequirement_key | exact Ho].
  - intros (o & Hkey & Ho). exists o. split; [exact Ho | now apply sameRequirement_key].
Qed.

(** The loop of [distinct], from any duplicate-free [result]. *)
Lemma distinct_from (requirements result : list Editor.Requirement) :
  NoDup (map Editor.keyOf result) ->
  let out :=
    fold_left
      (fun result r =>
         if existsb (fun other => Editor.sameRequirement other r) result
         then result else result ++ [r])
      requirements result in
  NoDup (map Editor.keyOf out)
  /\ (forall k, In k (map Editor.keyOf out)
                <-> In k (map Editor.keyOf result) \/ In k (map Editor.keyOf requirements))
  /\ (forall x, In x out -> In x result \/ In x requirements).
Proof.
  revert result. induction requirements as [| r requirements IH]; intros result Hnd; simpl.
  - split; [exact Hnd |]. split; [intros k; tauto | auto].
  - destruct (existsb (fun other => Editor.sameRequirement other r) result) eqn:Hseen.
    + destruct (IH result Hnd) as (Hout & Hkeys & Hin). split; [exact Hout |]. split.
      * intros k. rewrite Hkeys. split; [tauto |].
        intros [? | [<- | ?]]; auto. left. now apply same_as_one_of.
      * intros x Hx. destruct (Hin x Hx); auto.
    + destruct (IH (result ++ [r])) as (Hout & Hkeys & Hin).
      { rewrite map_app. apply NoDup_app; [exact Hnd | repeat constructor; auto |].
        intros k Hk [<- | []]. apply same_as_one_of in Hk. congruence. }
      split; [exact Hout |]. split.
      * intros k. rewrite Hkeys, map_app, in_app_iff. simpl. tauto.
      * intros x Hx. destruct (Hin x Hx) as [Hx' | Hx']; auto.
        apply in_app_or in Hx' as [? | [<- | []]]; auto.
Qed.

(** X13.  The result of [distinct] has no two requirements that are the
    same; every requirement given has one that is the same in the result; and
    the result holds nothing that was not given. *)
Theorem distinct_has_one_of_each :
  forall requirements : list Editor.Requirement,
    ForallOrdPairs (fun a b => Editor.sameRequirement a b = false)
      (Editor.distinct requirements)
    /\ (forall r, In r requirements ->
          exists kept, In kept (Editor.distinct requirements)
                       /\ Editor.sameRequirement kept r = true)
    /\ (forall kept, In kept (Editor.distinct requirements) -> In kept requirements).
Proof.
  intros requirements. unfold Editor.distinct.
  destruct (distinct_from requirements [] (NoDup_nil _)) as (Hnd & Hkeys & Hin).
  split; [now apply distinct_keys_distinct_requirements |]. split.
  - intros r Hr.
    assert (Hk : In (Editor.keyOf r)
                   (map Editor.keyOf
                      (fold_left
                         (fun result r0 =>
                            if existsb (fun other => Editor.sameRequirement other r0) result
                            then result else result ++ [r0])
                         requirements []))).
    { apply Hkeys. right. now apply in_map. }
    apply same_as_one_of, existsb_exists in Hk. exact Hk.
  - intros kept Hkept. destruct (Hin kept Hkept) as [[] | ?]. assumption.
Qed.

Lemma distinct_snoc (before : list Editor.Requirement) (r : Editor.Requirement) :
  Editor.distinct (before ++ [r])
  = if existsb (fun other => Editor.sameRequirement other r) before
    then Editor.distinct before else Editor.distinct before ++ [r].
Proof.
  unfold Editor.distinct. rewrite fold_left_app. simpl.
  destruct (distinct_from before [] (NoDup_nil _)) as (_ & Hkeys & _).
  match goal with
  | |- (if ?a then _ else _) = (if ?b then _ else _) => assert (Hsame : a = b)
  end; [| now rewrite Hsame].
  apply eq_true_iff_eq. rewrite !same_as_one_of, Hkeys. simpl. tauto.
Qed.

Lemma no_duplicates_keys (l : list Editor.Requirement) :
  ForallOrdPairs (fun a b => Editor.sameRequirement a b = false) l ->
  NoDup (map Editor.keyOf l).
Proof.
  induction 1 as [| a l Ha _ IH]; simpl; constructor; [| exact IH].
  intros Hin. apply in_map_iff in Hin as (b & Hkey & Hb).
  rewrite Forall_forall in Ha. specialize (Ha b Hb).
  symmetry in Hkey. apply sameRequirement_key in Hkey. congruence.
Qed.

(** X14.  [distinct] keeps, in their order, the requirements that are not
    the same as an earlier one: a requirement at the end of the array is kept
    exactly when none before it is the same.  So an array without duplicates
    is returned as it is, and [distinct] applied twice is [distinct]. *)
Theorem distinct_keeps_first_occurrences :
  (forall (before : list Editor.Requirement) (r : Editor.Requirement),
      Editor.distinct (before ++ [r])
      = if existsb (fun other => Editor.sameRequirement other r) before
        then Editor.distinct before else Editor.distinct before ++ [r])
  /\ (forall requirements : list Editor.Requirement,
        ForallOrdPairs (fun a b => Editor.sameRequirement a b = false) requirements ->
        Editor.distinct requirements = requirements)
  /\ (forall requirements : list Editor.Requirement,
        Editor.distinct (Editor.distinct requirements) = Editor.distinct requirements).
Proof.
  assert (Hfixed : forall requirements : list Editor.Requirement,
             NoDup (map Editor.keyOf requirements) ->
             Editor.distinct requirements = requirements).
  { induction requirements as [| r before IH] using rev_ind; intros Hnd; [reflexivity |].
    rewrite distinct_snoc. rewrite map_app in Hnd. simpl in Hnd.
    apply NoDup_remove in Hnd as [Hbefore Hnew]. rewrite app_nil_r in Hbefore, Hnew.
    rewrite IH by exact Hbefore.
    destruct (existsb (fun other => Editor.sameRequirement other r) before) eqn:Hseen;
      [| reflexivity].
    apply same_as_one_of in Hseen. contradiction. }
  split; [exact distinct_snoc |]. split.
  - intros requirements Hdistinct. now apply Hfixed, no_duplicates_keys.
  - intros requirements. apply Hfixed. unfold Editor.distinct.
    now destruct (distinct_from requirements [] (NoDup_nil _)) as (Hnd & _).
Qed.

(** ** The work-list planner: what is in the plan, and why *)

Lemma findConsequencesOfOne_consequence (project : Project)
    (p x : Editor.Requirement) (cs : list Editor.Requirement) :
  Editor.findConsequencesOfOne project p = Ok cs ->
  In x cs ->
  Editor.isAddParameterRequirement p = true /\ Editor.why x = Editor.WhyRequirement p.
Proof.
  destruct p as [fn ty nm dv w | fn dv w | e fn v w]; simpl;
    try (intros [= <-]; contradiction).
  destruct (Editor.findConsequencesOfAddParameter project fn ty nm dv) as [consequences |];
    simpl; [| discriminate].
  intros [= <-] Hx. apply in_map_iff in Hx as (c & <- & _).
  split; [reflexivity | now destruct c].
Qed.

Lemma findConsequencesOfOne_dummy (project : Project) (fn : Editor.FunctionIdentifier)
    (ty : ImportIdentifier) (nm dv : string) (w : Editor.Why)
    (cs : list Editor.Requirement) :
  Editor.findConsequencesOfOne project (Editor.AddParameterRequirement fn ty nm dv w) = Ok cs ->
  In (Editor.PassDummyInTestsRequirement fn dv
        (Editor.WhyRequirement (Editor.AddParameterRequirement fn ty nm dv w))) cs.
Proof.
  simpl. unfold Editor.findConsequencesOfAddParameter.
  destruct (Editor.flatMap _ _) as [src |]; simpl; [| discriminate].
  intros [= <-]. rewrite map_app, in_app_iff. right. now left.
Qed.

Lemma split_at_last {A : Type} (before after l : list A) (x y : A) :
  before ++ x :: after = l ++ [y] ->
  (after = [] /\ before = l /\ x = y)
  \/ exists after', after = after' ++ [y] /\ l = before ++ x :: after'.
Proof.
  intros Heq. destruct after as [| a after] using rev_ind.
  - left. apply app_inj_tail in Heq as [-> ->]. auto.
  - right. exists after. clear IHafter.
    change (before ++ x :: after ++ [a]) with (before ++ (x :: after) ++ [a]) in Heq.
    rewrite app_assoc in Heq. apply app_inj_tail in Heq as [<- ->]. auto.
Qed.

Section Planning.

Variable project : Project.

(** Every consequence of a requirement of [checked] has a requirement that
    is the same among [unchecked] and [checked]. *)
Let closed (unchecked checked : list Editor.Requirement) : Prop :=
  forall p, In p checked ->
    exists cs,
      Editor.findConsequencesOfOne project p = Ok cs
      /\ forall x, In x cs ->
           exists q, In q (unchecked ++ checked) /\ Editor.sameRequirement q x = true.

(** [x] is a consequence of a requirement of [before]. *)
Let derived (x : Editor.Requirement) (before : list Editor.Requirement) : Prop :=
  exists p cs,
    In p before /\ Editor.findConsequencesOfOne project p = Ok cs /\ In x cs.

(** Every requirement but the first is derived from those before it. *)
Let ordered (l : list Editor.Requirement) : Prop :=
  forall before x after, l = before ++ x :: after -> before <> [] -> derived x before.

Lemma findConsequences_keeps_closed (fuel : nat) :
  forall (unchecked checked plan : list Editor.Requirement),
    closed unchecked checked ->
    Editor.findConsequences fuel project unchecked checked = Some (Ok plan) ->
    (exists more, plan = checked ++ more) /\ closed [] plan.
Proof.
  induction fuel as [| fuel IH]; intros unchecked checked plan Hclosed;
    pose proof (pop_last unchecked) as Hpop; simpl;
    destruct (Editor.pop unchecked) as [[thisOne rest] |];
    try discriminate;
    try (subst unchecked; intros [= <-]; split;
         [exists []; now rewrite app_nil_r | exact Hclosed]).
  subst unchecked.
  destruct (existsb (fun o => Editor.sameRequirement o thisOne) checked) eqn:Hdup.
  - apply IH. intros p Hp. destruct (Hclosed p Hp) as (cs & Hcs & Hall).
    exists cs. split; [exact Hcs |]. intros x Hx.
    destruct (Hall x Hx) as (q & Hq & Hsame).
    rewrite !in_app_iff in Hq. destruct Hq as [[Hq | [<- | []]] | Hq].
    + exists q. rewrite in_app_iff. auto.
    + apply existsb_exists in Hdup as (o & Ho & Hsame').
      exists o. rewrite in_app_iff. split; [now right |].
      exact (sameRequirement_trans _ _ _ Hsame' Hsame).
    + exists q. rewrite in_app_iff. auto.
  - destruct (Editor.findConsequencesOfOne project thisOne) as [theseReqs | msg] eqn:Hone;
      [| discriminate].
    intros Hrun. apply IH in Hrun as [[more ->] Hplan].
    + split; [| exact Hplan]. exists ([thisOne] ++ more). now rewrite app_assoc.
    + intros p Hp. apply in_app_or in Hp as [Hp | [<- | []]].
      * destruct (Hclosed p Hp) as (cs & Hcs & Hall).
        exists cs. split; [exact Hcs |]. intros x Hx.
        destruct (Hall x Hx) as (q & Hq & Hsame). exists q. split; [| exact Hsame].
        rewrite !in_app_iff in *. simpl in Hq. simpl. tauto.
      * exists theseReqs. split; [exact Hone |]. intros x Hx. exists x.
        split; [| apply sameRequirement_refl].
        rewrite !in_app_iff. auto.
Qed.

Lemma findConsequences_keeps_ordered (fuel : nat) :
  forall (unchecked checked plan : list Editor.Requirement),
    (forall x, In x unchecked -> derived x checked) ->
    ordered checked ->
    Editor.findConsequences fuel project unchecked checked = Some (Ok plan) ->
    ordered plan.
Proof.
  induction fuel as [| fuel IH]; intros unchecked checked plan Hderived Hordered;
    pose proof (pop_last unchecked) as Hpop; simpl;
    destruct (Editor.pop unchecked) as [[thisOne rest] |];
    try discriminate;
    try (intros [= <-]; exact Hordered).
  subst unchecked.
  destruct (existsb (fun o => Editor.sameRequirement o thisOne) checked) eqn:Hdup.
  - apply IH; [| exact Hordered].
    intros x Hx. apply Hderived. rewrite in_app_iff. now left.
  - destruct (Editor.findConsequencesOfOne project thisOne) as [theseReqs | msg] eqn:Hone;
      [| discriminate].
    apply IH.
    + intros x Hx. apply in_app_or in Hx as [Hx | Hx].
      * destruct (Hderived x) as (p & cs & Hp & Hcs & Hin);
          [rewrite in_app_iff; now left |].
        exists p, cs. rewrite in_app_iff. auto.
      * exists thisOne, theseReqs. rewrite in_app_iff. simpl. auto.
    + intros before x after Hsplit Hne. symmetry in Hsplit.
      apply split_at_last in Hsplit as [(_ & -> & ->) | (after' & _ & ->)].
      * apply Hderived. rewrite in_app_iff. simpl. auto.
      * now apply (Hordered before x after').
Qed.

(** The first call on a root alone plans the root and goes on with its
    consequences. *)
Lemma findConsequences_of_root (fuel : nat) (root : Editor.Requirement)
    (plan : list Editor.Requirement) :
  Editor.findConsequences fuel project [root] [] = Some (Ok plan) ->
  exists fuel' theseReqs,
    Editor.findConsequencesOfOne project root = Ok theseReqs
    /\ Editor.findConsequences fuel' project theseReqs [root] = Some (Ok plan).
Proof.
  destruct fuel as [| fuel]; simpl; [discriminate |].
  destruct (Editor.findConsequencesOfOne project root) as [theseReqs | msg];
    [| discriminate].
  intros Hrun. now exists fuel, theseReqs.
Qed.

Lemma plan_is_closed (fuel : nat) (root : Editor.Requirement)
    (plan : list Editor.Requirement) :
  Editor.findConsequences fuel project [root] [] = Some (Ok plan) ->
  (exists rest, plan = root :: rest)
  /\ forall p, In p plan ->
       exists cs,
         Editor.findConsequencesOfOne project p = Ok cs
         /\ forall x, In x cs ->
              exists q, In q plan /\ Editor.sameRequirement q x = true.
Proof.
  intros Hrun. apply findConsequences_of_root in Hrun as (fuel' & theseReqs & Hone & Hrun).
  apply findConsequences_keeps_closed in Hrun as [[more ->] Hclosed].
  - split; [now exists more | exact Hclosed].
  - intros p [<- | []]. exists theseReqs. split; [exact Hone |].
    intros x Hx. exists x. split; [| apply sameRequirement_refl].
    rewrite in_app_iff. now left.
Qed.

Lemma plan_is_ordered (fuel : nat) (root : Editor.Requirement)
    (plan : list Editor.Requirement) :
  Editor.findConsequences fuel project [root] [] = Some (Ok plan) ->
  forall before x after,
    plan = before ++ x :: after -> before <> [] ->
    exists p cs,
      In p before /\ Editor.findConsequencesOfOne project p = Ok cs /\ In x cs.
Proof.
  intros Hrun. apply findConsequences_of_root in Hrun as (fuel' & theseReqs & Hone & Hrun).
  apply findConsequences_keeps_ordered in Hrun; [exact Hrun | |].
  - intros x Hx. exists root, theseReqs. simpl. auto.
  - intros [| b before] x after Hsplit Hne; [now contradiction Hne |].
    injection Hsplit as _ Hsplit. now destruct before.
Qed.

End Planning.

(** X15.  The plan of the work-list planner is closed under consequences:
    it holds the root, and for every requirement in it, each consequence that
    the project gives for it has a requirement that is the same in the plan.
    In particular every Add Parameter of the plan has the Pass Dummy In Tests
    for its function in the plan. *)
Theorem plan_holds_every_consequence :
  forall (fuel : nat) (project : Project) (root : Editor.Requirement)
         (plan : list Editor.Requirement),
    Editor.findConsequences fuel project [root] [] = Some (Ok plan) ->
    In root plan
    /\ (forall p, In p plan ->
          exists cs,
            Editor.findConsequencesOfOne project p = Ok cs
            /\ forall x, In x cs ->
                 exists q, In q plan /\ Editor.sameRequirement q x = true)
    /\ (forall fn ty nm dv w,
          In (Editor.AddParameterRequirement fn ty nm dv w) plan ->
          exists dummy w',
            In (Editor.PassDummyInTestsRequirement fn dummy w') plan).
Proof.
  intros fuel project root plan Hrun.
  destruct (plan_is_closed project fuel root plan Hrun) as [[rest ->] Hclosed].
  split; [now left |]. split; [exact Hclosed |].
  intros fn ty nm dv w Hin. destruct (Hclosed _ Hin) as (cs & Hcs & Hall).
  destruct (Hall _ (findConsequencesOfOne_dummy _ _ _ _ _ _ _ Hcs)) as (q & Hq & Hsame).
  apply sameRequirement_key in Hsame. unfold Editor.keyOf in Hsame. simpl in Hsame.
  destruct q as [? ? ? ? ? | fn' dummy w' | ? ? ? ?]; try discriminate.
  injection Hsame as ->. now exists dummy, w'.
Qed.

Lemma plan_holds_every_consequence_witness :
  exists plan,
    Editor.findConsequences 7 Examples.loopProject [Examples.addContextToPing] []
    = Some (Ok plan)
    /\ In Examples.addContextToPing plan
    /\ exists dummy w',
         In (Editor.PassDummyInTestsRequirement
               (Editor.mkFunctionIdentifier "ping" "src/loop.ts") dummy w') plan.
Proof.
  eexists. split; [reflexivity |].
  destruct (plan_holds_every_consequence 7 Examples.loopProject Examples.addContextToPing
              _ eq_refl) as (Hroot & _ & Hdummy).
  split; [exact Hroot |].
  exact (Hdummy _ _ _ _ _ Hroot).
Defined.

(** X16.  The plan starts with the root, and every other requirement of the
    plan is there for a reason: it is a consequence of an Add Parameter that
    stands before it in the plan, and its [why] is that Add Parameter. *)
Theorem plan_is_root_then_consequences :
  forall (fuel : nat) (project : Project) (root : Editor.Requirement)
         (plan : list Editor.Requirement),
    Editor.findConsequences fuel project [root] [] = Some (Ok plan) ->
    exists rest,
      plan = root :: rest
      /\ forall before x after,
           rest = before ++ x :: after ->
           exists p cs,
             In p (root :: before)
             /\ Editor.isAddParameterRequirement p = true
             /\ Editor.findConsequencesOfOne project p = Ok cs
             /\ In x cs
             /\ Editor.why x = Editor.WhyRequirement p.
Proof.
  intros fuel project root plan Hrun.
  destruct (plan_is_closed project fuel root plan Hrun) as [[rest Hplan] _].
  exists rest. split; [exact Hplan |].
  intros before x after Hrest.
  destruct (plan_is_ordered project fuel root plan Hrun (root :: before) x after)
    as (p & cs & Hp & Hcs & Hx).
  - rewrite Hplan, Hrest. reflexivity.
  - discriminate.
  - destruct (findConsequencesOfOne_consequence project p x cs Hcs Hx) as [Hadd Hwhy].
    exists p, cs. auto.
Qed.

Lemma plan_is_root_then_consequences_witness :
  exists rest,
    Editor.findConsequences 7 Examples.loopProject [Examples.addContextToPing] []
    = Some (Ok (Examples.addContextToPing :: rest))
    /\ length rest = 5.
Proof.
  destruct (plan_is_root_then_consequences 7 Examples.loopProject
              Examples.addContextToPing _ eq_refl) as (rest & Hplan & _).
  exists rest. split; [now rewrite <- Hplan |].
  apply (f_equal (@length _)) in Hplan. simpl in Hplan. now injection Hplan as <-.
Defined.

(** ** The class-based planner: the order of the changes it asks for *)

(** X18.  The concomitant changes of the class-based planner come in this
    order: one Pass Argument for each declaration found outside the tests, in
    the order of the matches; then the Pass Dummy In Tests, when the target is
    an exported function; then, last, the Add Migration.  The prerequisites
    are Add Parameters, no more of them than Pass Arguments. *)
Theorem class_based_planner_orders_its_changes :
  forall (project : Project) (requirement : AddParameter) (c : Consequences),
    AddParameterRequirement.findConsequencesOfAddParameter project requirement = Ok c ->
    let fn := functionWithAdditionalParameter requirement in
    exists passes,
      concomitantChanges c
      = passes
          ++ (if isPublicFunctionAccess (fci_access fn)
              then [PassDummyInTestsRequirement fn (dummyValue (populateInTests requirement))
                      (additionalImport (populateInTests requirement)) WhyUndefined]
              else [])
          ++ [AddParameterRequirement.newAddMigrationRequirement requirement
                (AddParameter_req requirement)]
      /\ Forall2
           (fun E r =>
              exists enclosing value,
                enclosingFunctionIdentifier E = Ok enclosing
                /\ r = PassArgumentRequirement enclosing fn value
                         (WhyRequirement (AddParameter_req requirement)))
           (filter outsideTests (callSites project fn)) passes
      /\ Forall (fun p => isAddParameterRequirement p = true) (prerequisiteChanges c)
      /\ length (prerequisiteChanges c) <= length passes.
Proof.
  intros project requirement c Hfind fn.
  unfold AddParameterRequirement.findConsequencesOfAddParameter in Hfind.
  change (findMatches project (globFromAccess ?f) _) with (callSites project f) in Hfind.
  fold fn in Hfind.
  match type of Hfind with
  | bind (fold_left ?g ?ms ?a) _ = _ =>
      destruct (fold_left g ms a) as [src |] eqn:Hsrc; simpl in Hfind; [| discriminate]
  end.
  injection Hfind as <-.
  destruct (call_sites_contribute project requirement _ _ Hsrc) as [_ Hadd].
  apply gathered in Hsrc as (Hall & Hc & Hp). simpl in Hc, Hp.
  destruct (pass_arguments_of_call_sites requirement _ Hall) as [Hpass Hlen].
  fold fn in Hpass.
  exists (concomitantChanges src). simpl.
  assert (Hpre : prerequisiteChanges src
                   ++ prerequisiteChanges
                        (if isPublicFunctionAccess (fci_access fn)
                         then concomitantChange
                                (PassDummyInTestsRequirement fn
                                   (dummyValue (populateInTests requirement))
                                   (additionalImport (populateInTests requirement))
                                   WhyUndefined)
                         else emptyConsequences) ++ []
                 = prerequisiteChanges src).
  { destruct (isPublicFunctionAccess (fci_access fn)); simpl; now rewrite app_nil_r. }
  rewrite Hpre. repeat split.
  - destruct (isPublicFunctionAccess (fci_access fn)); reflexivity.
  - rewrite Hc. exact Hpass.
  - apply Forall_forall. exact Hadd.
  - rewrite Hc, Hp, <- (Forall2_length Hpass). exact Hlen.
Qed.

Lemma class_based_planner_orders_its_changes_witness :
  exists c passes,
    AddParameterRequirement.findConsequencesOfAddParameter Examples.callersProject
      (Examples.addContextTo (Examples.thinger PublicFunctionAccess)) = Ok c
    /\ concomitantChanges c
       = passes
           ++ [PassDummyInTestsRequirement (Examples.thinger PublicFunctionAccess) "{}" None
                 WhyUndefined]
           ++ [AddParameterRequirement.newAddMigrationRequirement
                 (Examples.addContextTo (Examples.thinger PublicFunctionAccess))
                 (AddParameter_req
                    (Examples.addContextTo (Examples.thinger PublicFunctionAccess)))]
    /\ length passes = 2.
Proof.
  destruct (class_based_planner_orders_its_changes Examples.callersProject
              (Examples.addContextTo (Examples.thinger PublicFunctionAccess)) _ eq_refl)
    as (passes & Hc & Hpass & _).
  eexists. exists passes. split; [reflexivity |]. split; [exact Hc |].
  apply Forall2_length in Hpass. rewrite <- Hpass. reflexivity.
Defined.

(** ** The first editor: implementing a plan in sequence *)

Section Sequence.

Variable replaceCalls : string -> string -> string -> Result string.
Variable flush : Project -> list Write -> Project.

(** What the report of one requirement can be. *)
Let reported (r : Editor.Requirement) (report1 : Editor.Report) : Prop :=
  report1 = Editor.reportImplemented r
  \/ (Editor.isAddDummyInTests r = false
      /\ exists message,
          In message ["Function declaration not found";
                      "More than one function declaration matched. I'm confused.";
                      "Function not found"]%string
          /\ report1 = Editor.reportUnimplemented r message)
  \/ (Editor.isAddDummyInTests r = true /\ report1 = Editor.emptyReport).

Let step (pp : Result Editor.Report * Project) (r1 : Editor.Requirement)
  : Result Editor.Report * Project :=
  match pp with
  | (Throw msg, p) => (Throw msg, p)
  | (Ok report, p) =>
      match Editor.implement replaceCalls p r1 with
      | (Throw msg, _) => (Throw msg, p)
      | (Ok report1, ws) => (Ok (Editor.combine report report1), flush p ws)
      end
  end.

Lemma implement_reports (project : Project) (r : Editor.Requirement)
    (report1 : Editor.Report) (ws : list Write) :
  Editor.implement replaceCalls project r = (Ok report1, ws) -> reported r report1.
Proof.
  unfold reported. destruct r as [fn ty nm dv w | fn dv w | e fn v w]; simpl.
  - unfold Editor.addParameter.
    destruct (AddImport.addImport project (Editor.filePath fn) ty) as [[added | msg] ws0];
      [| discriminate].
    destruct (findMatches project _ _) as [| declaration [| second more]].
    + intros [= <- <-]. right. left. split; [reflexivity |]. eexists. split; [| reflexivity].
      simpl. auto.
    + destruct (replaceCalls _ _ _); [| discriminate]. intros [= <- <-]. now left.
    + intros [= <- <-]. right. left. split; [reflexivity |]. eexists. split; [| reflexivity].
      simpl. auto.
  - unfold Editor.passDummyInTests.
    destruct (findMatches project _ _) as [| call others].
    + intros [= <- <-]. right. right. split; reflexivity.
    + destruct (Editor.rewriteCalls replaceCalls _ _ _) as [[u | msg] ws0]; simpl;
        [| discriminate].
      intros [= <- <-]. now left.
  - unfold Editor.passArgument, Editor.applyPassArgument.
    destruct (findMatches project _ _) as [| call others].
    + intros [= <- <-]. right. left. split; [reflexivity |]. eexists. split; [| reflexivity].
      simpl. auto.
    + destruct (Editor.rewriteCalls replaceCalls _ _ _) as [[u | msg] ws0]; simpl;
        [| discriminate].
      intros [= <- <-]. now left.
Qed.

Lemma sequence_thrown (activities : list Editor.Requirement) (msg : string) (p : Project) :
  fold_left step activities (Throw msg, p) = (Throw msg, p).
Proof. induction activities; simpl; auto. Qed.

Lemma sequence_from (activities : list Editor.Requirement) :
  forall (report0 report : Editor.Report) (p0 p : Project),
    fold_left step activities (Ok report0, p0) = (Ok report, p) ->
    exists reports,
      Forall2 reported activities reports
      /\ Editor.implemented report
         = Editor.implemented report0 ++ flat_map Editor.implemented reports
      /\ Editor.unimplemented report
         = Editor.unimplemented report0 ++ flat_map Editor.unimplemented reports.
Proof.
  induction activities as [| r1 activities IH]; intros report0 report p0 p; simpl.
  - intros [= <- <-]. exists []. rewrite !app_nil_r. repeat split. constructor.
  - destruct (Editor.implement replaceCalls p0 r1) as [[report1 | msg] ws] eqn:Hone.
    + intros Hrest. apply IH in Hrest as (reports & Hall & Himpl & Hun).
      exists (report1 :: reports). split; [| split].
      * constructor; [exact (implement_reports _ _ _ _ Hone) | exact Hall].
      * rewrite Himpl. simpl. now rewrite app_assoc.
      * rewrite Hun. simpl. now rewrite app_assoc.
    + rewrite sequence_thrown. discriminate.
Qed.

Lemma reported_accounts (activities : list Editor.Requirement)
    (reports : list Editor.Report) :
  Forall2 reported activities reports ->
  (forall r, In r (flat_map Editor.implemented reports) -> In r activities)
  /\ (forall u, In u (flat_map Editor.unimplemented reports) ->
        In (Editor.requirement u) activities
        /\ Editor.isAddDummyInTests (Editor.requirement u) = false)
  /\ length (flat_map Editor.implemented reports)
     + length (flat_map Editor.unimplemented reports)
     + length (filter Editor.isAddDummyInTests activities)
     >= length activities
  /\ length (flat_map Editor.implemented reports)
     + length (flat_map Editor.unimplemented reports)
     <= length activities.
Proof.
  induction 1 as [| r report1 activities reports Hr _ (IHi & IHu & IHge & IHle)].
  - simpl. split; [intros r [] |]. split; [intros u [] |]. lia.
  - assert (Hcase :
              (Editor.implemented report1 = [r] /\ Editor.unimplemented report1 = [])
              \/ (Editor.isAddDummyInTests r = false
                  /\ Editor.implemented report1 = []
                  /\ exists message,
                      Editor.unimplemented report1 = [Editor.mkUnimplemented r message])
              \/ (Editor.isAddDummyInTests r = true
                  /\ Editor.implemented report1 = []
                  /\ Editor.unimplemented report1 = [])).
    { destruct Hr as [-> | [(Hkind & message & _ & ->) | (Hkind & ->)]]; simpl; eauto 7. }
    cbn [flat_map filter]. rewrite !length_app.
    destruct Hcase as [[-> ->] | [(Hkind & -> & message & ->) | (Hkind & -> & ->)]];
      try rewrite Hkind; cbn [app length In].
    + split; [| split; [| split]].
      * intros x [<- | Hx]; auto.
      * intros u Hu. destruct (IHu u Hu). auto.
      * destruct (Editor.isAddDummyInTests r); cbn [length]; lia.
      * lia.
    + split; [| split; [| split]].
      * intros x Hx. auto.
      * intros u [<- | Hu]; [simpl; auto | destruct (IHu u Hu); auto].
      * lia.
      * lia.
    + split; [| split; [| split]].
      * intros x Hx. auto.
      * intros u Hu. destruct (IHu u Hu). auto.
      * lia.
      * lia.
Qed.

End Sequence.

(** X19.  [implementInSequenceWithFlushes], whatever the regular-expression
    engine and the flush do.  When it returns a report, the report accounts
    for the activities in their order: each one is reported implemented, or
    (an Add Parameter or a Pass Argument) unimplemented with one of the three
    messages, or (a Pass Dummy In Tests that found no call) not at all; so
    the implemented and the unimplemented requirements are activities, and
    there are as many of them as activities when no Pass Dummy In Tests is
    among these.  When the implementation of an activity throws, the sequence
    ends with that error: the project is as the flushes of the activities
    before left it and no later activity is tried. *)
Theorem sequence_accounts_for_every_activity :
  forall (replaceCalls : string -> string -> string -> Result string)
         (flush : Project -> list Write -> Project)
         (project : Project) (activities : list Editor.Requirement),
    (forall report project',
        Editor.implementInSequenceWithFlushes replaceCalls flush project activities
        = (Ok report, project') ->
        (exists reports,
            Forall2
              (fun r report1 =>
                 report1 = Editor.reportImplemented r
                 \/ (Editor.isAddDummyInTests r = false
                     /\ exists message,
                         In message
                            ["Function declaration not found";
                             "More than one function declaration matched. I'm confused.";
                             "Function not found"]%string
                         /\ report1 = Editor.reportUnimplemented r message)
                 \/ (Editor.isAddDummyInTests r = true /\ report1 = Editor.emptyReport))
              activities reports
            /\ Editor.implemented report = flat_map Editor.implemented reports
            /\ Editor.unimplemented report = flat_map Editor.unimplemented reports)
        /\ (forall r, In r (Editor.implemented report) -> In r activities)
        /\ (forall u, In u (Editor.unimplemented report) ->
              In (Editor.requirement u) activities)
        /\ length (Editor.implemented report) + length (Editor.unimplemented report)
           <= length activities
        /\ (filter Editor.isAddDummyInTests activities = [] ->
            length (Editor.implemented report) + length (Editor.unimplemented report)
            = length activities))
    /\ (forall before r after report project' msg ws,
          activities = before ++ r :: after ->
          Editor.implementInSequenceWithFlushes replaceCalls flush project before
          = (Ok report, project') ->
          Editor.implement replaceCalls project' r = (Throw msg, ws) ->
          Editor.implementInSequenceWithFlushes replaceCalls flush project activities
          = (Throw msg, project')).
Proof.
  intros replaceCalls flush project activities. split.
  - intros report project' Hrun. unfold Editor.implementInSequenceWithFlushes in Hrun.
    apply sequence_from in Hrun as (reports & Hall & Himpl & Hun). simpl in Himpl, Hun.
    destruct (reported_accounts _ _ Hall) as (Hi & Hu & Hge & Hle).
    rewrite Himpl, Hun. split; [exists reports; auto |].
    split; [exact Hi |]. split; [intros u Hin; now apply Hu |]. split; [exact Hle |].
    intros Hnone. rewrite Hnone in Hge. simpl in Hge. lia.
  - intros before r after report project' msg ws -> Hbefore Hthrow.
    unfold Editor.implementInSequenceWithFlushes in *.
    rewrite fold_left_app, Hbefore. simpl. rewrite Hthrow.
    apply sequence_thrown.
Qed.

(** On a project without the functions, a Pass Argument is reported
    unimplemented and a Pass Dummy In Tests is not reported. *)
Example sequence_on_a_project_without_the_functions :
  let ping := Editor.mkFunctionIdentifier "ping" "src/loop.ts" in
  let pong := Editor.mkFunctionIdentifier "pong" "src/loop.ts" in
  let pass := Editor.PassArgumentRequirement pong ping "context" Editor.WhyUndefined in
  let dummy := Editor.PassDummyInTestsRequirement ping "{}" Editor.WhyUndefined in
  Editor.implementInSequenceWithFlushes (fun _ _ text => Ok text) (fun p _ => p)
    Examples.noCallers [pass; dummy]
  = (Ok {| Editor.unimplemented := [Editor.mkUnimplemented pass "Function not found"];
           Editor.implemented := [] |},
     Examples.noCallers).
Proof. reflexivity. Qed.
